(** * The efro.message protocol runtime (tools/efro/message.py)

    A shallow embedding of [MessageProtocol], [MessageSender] and
    [MessageReceiver], followed by the properties of the wire codec, the
    registries, handler registration, coverage validation and remote error
    propagation.

    Python objects are modelled as follows.
    - A class object is a value of [Ty]; classes are compared by identity.
      The classes the module defines itself ([Message], [Response],
      [ErrorResponse], [EmptyResponse]) are constructors, the classes of the
      embedding application are [UserClass n] and their attributes come from
      the runtime's class table.
    - A [dict] is an insertion-ordered association list with unique keys
      ([PyDict]): the order is observable through iteration and through
      [json.dumps].
    - A raised exception is the [Raise] case of the result type [Res]; only
      instances of [Exception] are modelled, which is what the
      [except Exception] clause of [handle_raw_message] catches.
    - [logging] output is returned next to the result as a list of records.
    - Assertions are active ([__debug__] is true, the interpreter default). *)

From Stdlib Require Import ZArith String Ascii List.
From stdpp Require Import base decidable option list strings numbers pretty.

Set Warnings "-register-all,-clear-no-such-hyp".
Open Scope Z_scope.

(** ** Exceptions and results *)

Inductive ExcClass :=
  | AssertionError
  | TypeError
  | ValueError
  | RuntimeError
  | KeyError
  | AttributeError
  | CleanError                     (* efro.error.CleanError *)
  | RemoteError                    (* efro.error.RemoteError *)
  | OtherException (name : string). (* any other subclass of Exception *)

(** An exception instance: its class and [str(exc)]. *)
Record Exc := mkExc { exc_class : ExcClass; exc_str : string }.

Inductive Res (A : Type) :=
  | Ret (a : A)
  | Raise (e : Exc).
Arguments Ret {A} a.
Arguments Raise {A} e.

#[global] Instance Res_ret : MRet Res := @Ret.
#[global] Instance Res_bind : MBind Res := λ A B f m,
  match m with Ret a => f a | Raise e => Raise e end.

Definition raise {A} (c : ExcClass) (msg : string) : Res A := Raise (mkExc c msg).

(** [assert cond] *)
Definition assert (cond : bool) : Res unit :=
  if cond then Ret tt else raise AssertionError "".

Definition is_Ret {A} (r : Res A) : bool :=
  match r with Ret _ => true | Raise _ => false end.

#[global] Instance ExcClass_eq_dec : EqDecision ExcClass.
Proof. solve_decision. Defined.
#[global] Instance Exc_eq_dec : EqDecision Exc.
Proof. solve_decision. Defined.

(** [isinstance(exc, CleanError)] *)
Definition is_CleanError (e : Exc) : bool := bool_decide (exc_class e = CleanError).

(** ** Logging *)

Inductive LogLevel := WARNING | ERROR.
Record LogRecord := mkLog { log_level : LogLevel; log_msg : string }.

(** ** Python dicts: insertion-ordered association lists *)

Definition PyDict (K V : Type) : Type := list (K * V).

Section pydict.
Context {K V : Type} `{EqDecision K}.

(** [d.get(k)] *)
Fixpoint dict_get (k : K) (d : PyDict K V) : option V :=
  match d with
  | [] => None
  | (k', v) :: d' => if decide (k' = k) then Some v else dict_get k d'
  end.

(** [k in d] *)
Definition dict_contains (k : K) (d : PyDict K V) : bool :=
  match dict_get k d with Some _ => true | None => false end.

(** [d[k] = v]: an existing key keeps its position, a new key is appended. *)
Fixpoint dict_set (k : K) (v : V) (d : PyDict K V) : PyDict K V :=
  match d with
  | [] => [(k, v)]
  | (k', v') :: d' =>
      if decide (k' = k) then (k', v) :: d' else (k', v') :: dict_set k v d'
  end.

(** [d.pop(k)]: the value and the remaining dict, [None] for a KeyError. *)
Fixpoint dict_pop (k : K) (d : PyDict K V) : option (V * PyDict K V) :=
  match d with
  | [] => None
  | (k', v) :: d' =>
      if decide (k' = k) then Some (v, d')
      else match dict_pop k d' with
           | Some (w, d'') => Some (w, (k', v) :: d'')
           | None => None
           end
  end.

(** [list(d)], [d.keys()] *)
Definition dict_keys (d : PyDict K V) : list K := d.*1.

(** A well-formed dict has no repeated key. *)
Definition dict_wf (d : PyDict K V) : Prop := NoDup (dict_keys d).
End pydict.

(** [len(set(l))] *)
Definition set_len {A} `{EqDecision A} (l : list A) : nat := length (remove_dups l).

(** [x in l] for a list or a set built from it *)
Definition list_mem {A} `{EqDecision A} (x : A) (l : list A) : bool :=
  bool_decide (x ∈ l).

(** [set(l1) == set(l2)] *)
Definition set_eqb {A} `{EqDecision A} (l1 l2 : list A) : bool :=
  forallb (λ x, list_mem x l2) l1 && forallb (λ x, list_mem x l1) l2.

(** ** JSON values: what [json.loads] returns and [json.dumps] accepts *)

Inductive Json :=
  | JNull
  | JBool (b : bool)
  | JInt (z : Z)
  | JFloat (bits : Z)                     (* a float, by its IEEE-754 bits *)
  | JStr (s : string)
  | JArr (l : list Json)
  | JObj (d : PyDict string Json).

(** The values that [json.loads] reads back exactly as [json.dumps] wrote
    them: every object is a dict, so its keys are unique, and no float
    occurs (a NaN is not read back bit for bit). *)
Fixpoint json_wf (j : Json) : Prop :=
  match j with
  | JFloat _ => False
  | JArr l =>
      (fix all (l : list Json) : Prop :=
         match l with [] => True | x :: l' => json_wf x ∧ all l' end) l
  | JObj d =>
      NoDup (d.*1) ∧
      (fix all (d : list (string * Json)) : Prop :=
         match d with [] => True | kv :: d' => json_wf kv.2 ∧ all d' end) d
  | _ => True
  end.

(** [isinstance(j, int)]: [bool] is a subclass of [int] in Python, so
    [True] and [False] pass the check and act as 1 and 0 as dict keys. *)
Definition as_int (j : Json) : option Z :=
  match j with
  | JInt z => Some z
  | JBool b => Some (if b then 1 else 0)
  | _ => None
  end.

(** [isinstance(j, dict)] *)
Definition as_dict (j : Json) : option (PyDict string Json) :=
  match j with JObj d => Some d | _ => None end.

(** ** Classes and dataclass instances *)

(** Class objects. *)
Inductive Ty :=
  | Message
  | Response
  | ErrorResponse
  | EmptyResponse
  | NoneType
  | UserClass (n : positive).

#[global] Instance Ty_eq_dec : EqDecision Ty.
Proof. solve_decision. Defined.

(** class ErrorType(Enum) *)
Inductive ErrorType := OTHER | CLEAN.

#[global] Instance ErrorType_eq_dec : EqDecision ErrorType.
Proof. solve_decision. Defined.

Definition ErrorType_value (t : ErrorType) : Z :=
  match t with OTHER => 0 | CLEAN => 1 end.

(** Field values of dataclass instances: strings, integers, booleans and
    members of [ErrorType]. *)
Inductive Value :=
  | VStr (s : string)
  | VInt (z : Z)
  | VBool (b : bool)
  | VErrorType (e : ErrorType).

#[global] Instance Value_eq_dec : EqDecision Value.
Proof. solve_decision. Defined.

Inductive FieldType :=
  | FStr
  | FInt
  | FBool
  | FErrorType.

(** A dataclass field: its attribute name, its storage name
    ([IOAttrs(storagename)], the attribute name when not renamed), its type
    and its default value, if it has one. *)
Record Field := mkField {
  f_name : string;
  f_storage : string;
  f_type : FieldType;
  f_default : option Value
}.

(** What the module reads from a class object. *)
Record ClassInfo := mkClass {
  c_module : string;               (* __module__ *)
  c_name : string;                 (* __name__ *)
  c_mro : list Ty;                 (* the class and all its ancestors *)
  c_ioprepped : bool;              (* is_ioprepped_dataclass(cls) *)
  c_fields : list Field;           (* dataclass fields, in order *)
  c_response_types : list Ty       (* cls.get_response_types() *)
}.

(** An object: its class and its attributes. *)
Record Instance := mkInstance {
  inst_type : Ty;
  inst_attrs : list (string * Value)
}.

#[global] Instance Instance_eq_dec : EqDecision Instance.
Proof. solve_decision. Defined.

(** ** The runtime the module runs in

    The standard library calls the module makes and the classes of the
    embedding application. *)
Class Runtime := {
  (** Python's [bytes] *)
  bytes : Type;
  (** [json.dumps(out, separators=(',', ':')).encode()] *)
  json_dumps : Json → bytes;
  (** [json.loads(data.decode())] *)
  json_loads : bytes → Res Json;
  (** [traceback.format_exc()] while the exception is being handled *)
  format_exc : Exc → string;
  (** [repr(s)] of a [str], which is [str(KeyError(s))] *)
  repr_str : string → string;
  (** the object a sender or receiver is bound to *)
  BoundObj : Type;
  (** the application's classes *)
  user_class : positive → ClassInfo
}.

(** [json.loads] inverts [json.dumps] on the values of [json_wf]. *)
Class RuntimeLaws (R : Runtime) : Prop := {
  json_loads_dumps : ∀ j : Json, json_wf j → json_loads (json_dumps j) = Ret j
}.

Section classes.
Context {R : Runtime}.

(** The classes defined in message.py (lines 31-74). *)
Definition class_info (t : Ty) : ClassInfo :=
  match t with
  | Message =>
      mkClass "efro.message" "Message" [Message] false [] [EmptyResponse]
  | Response =>
      mkClass "efro.message" "Response" [Response] false [] []
  | ErrorResponse =>
      mkClass "efro.message" "ErrorResponse" [ErrorResponse; Response] true
        [mkField "error_message" "m" FStr None;
         mkField "error_type" "t" FErrorType None] []
  | EmptyResponse =>
      mkClass "efro.message" "EmptyResponse" [EmptyResponse; Response] true
        [] []
  | NoneType =>
      mkClass "builtins" "NoneType" [NoneType] false [] []
  | UserClass n => user_class n
  end.

(** [issubclass(t, base)] *)
Definition issubclass (t base : Ty) : bool :=
  bool_decide (t = base) || list_mem base (c_mro (class_info t)).

(** [isinstance(x, base)] *)
Definition isinstance (x : Instance) (base : Ty) : bool :=
  issubclass (inst_type x) base.

(** [cls.get_response_types()] *)
Definition get_response_types (t : Ty) : list Ty :=
  c_response_types (class_info t).

(** [cls.__name__] *)
Definition __name__ (t : Ty) : string := c_name (class_info t).

(** [repr(cls)], as f-strings print a class *)
Definition repr_type (t : Ty) : string :=
  "<class '" +:+ c_module (class_info t) +:+ "." +:+ c_name (class_info t)
    +:+ "'>".
End classes.

(** [str(v)] *)
Definition value_str (v : Value) : string :=
  match v with
  | VStr s => s
  | VInt z => pretty z
  | VBool true => "True"
  | VBool false => "False"
  | VErrorType OTHER => "ErrorType.OTHER"
  | VErrorType CLEAN => "ErrorType.CLEAN"
  end.

(** [x.name] *)
Definition getattr (x : Instance) (name : string) : Res Value :=
  match dict_get name (inst_attrs x) with
  | Some v => Ret v
  | None => raise AttributeError name
  end.

(** [ErrorResponse(error_message=..., error_type=...)] *)
Definition new_ErrorResponse (error_message : string) (error_type : ErrorType)
    : Instance :=
  mkInstance ErrorResponse
    [("error_message", VStr error_message);
     ("error_type", VErrorType error_type)].

(** [EmptyResponse()] *)
Definition new_EmptyResponse : Instance := mkInstance EmptyResponse [].

(** ** efro.dataclassio *)

Module dataclassio.
Section dataclassio.
Context {R : Runtime}.

(** Modelled from the spec: [is_ioprepped_dataclass] of efro.dataclassio is
    not among the sources; whether a class is a prepared dataclass is an
    attribute of the class. *)
Definition is_ioprepped_dataclass (t : Ty) : bool :=
  c_ioprepped (class_info t).

(** Modelled from the spec: the value of one field as stored. An
    [ErrorType] is stored as its integer value (0 = OTHER, 1 = CLEAN); a
    value that is not of the field's type fails. *)
Definition value_to_json (ft : FieldType) (v : Value) : Res Json :=
  match ft, v with
  | FStr, VStr s => Ret (JStr s)
  | FInt, VInt z => Ret (JInt z)
  | FBool, VBool b => Ret (JBool b)
  | FErrorType, VErrorType e => Ret (JInt (ErrorType_value e))
  | _, _ => raise TypeError "invalid value type for field"
  end.

(** Modelled from the spec: the inverse of [value_to_json]. *)
Definition value_from_json (ft : FieldType) (j : Json) : Res Value :=
  match ft, j with
  | FStr, JStr s => Ret (VStr s)
  | FInt, JInt z => Ret (VInt z)
  | FBool, JBool b => Ret (VBool b)
  | FErrorType, JInt 0 => Ret (VErrorType OTHER)
  | FErrorType, JInt 1 => Ret (VErrorType CLEAN)
  | _, _ => raise TypeError "invalid value type for field"
  end.

(** Modelled from the spec: the fields of an instance, each under its
    storage key, in the order of the schema. *)
Fixpoint fields_to_dict (fs : list Field) (x : Instance)
    (out : PyDict string Json) : Res (PyDict string Json) :=
  match fs with
  | [] => Ret out
  | f :: fs' =>
      v ← getattr x (f_name f);
      j ← value_to_json (f_type f) v;
      fields_to_dict fs' x (dict_set (f_storage f) j out)
  end.

(** Modelled from the spec: [dataclass_to_dict] of efro.dataclassio is not
    among the sources. Spec 4.2, encoding step 2: the instance's fields are
    serialized to a record (a mapping from field key to value) using the
    type's schema, where a field annotation may rename the stored key. *)
Definition dataclass_to_dict (x : Instance) : Res (PyDict string Json) :=
  if is_ioprepped_dataclass (inst_type x)
  then fields_to_dict (c_fields (class_info (inst_type x))) x []
  else raise TypeError "not an ioprepped dataclass".

(** Modelled from the spec: the attributes read back from a record; a
    missing key takes the field's default and fails without one, keys the
    schema does not name are ignored. *)
Fixpoint fields_from_dict (fs : list Field) (d : PyDict string Json)
    : Res (list (string * Value)) :=
  match fs with
  | [] => Ret []
  | f :: fs' =>
      v ← match dict_get (f_storage f) d with
          | Some j => value_from_json (f_type f) j
          | None =>
              match f_default f with
              | Some v => Ret v
              | None => raise ValueError "missing required field"
              end
          end;
      rest ← fields_from_dict fs' d;
      Ret ((f_name f, v) :: rest)
  end.

(** Modelled from the spec: [dataclass_from_dict] of efro.dataclassio is
    not among the sources. Spec 4.2, decoding step 4: a typed instance is
    rebuilt from the record with the type's schema; unknown extra fields
    are ignored, missing optional fields use their declared default,
    missing required fields fail. *)
Definition dataclass_from_dict (t : Ty) (d : PyDict string Json)
    : Res Instance :=
  if is_ioprepped_dataclass t
  then attrs ← fields_from_dict (c_fields (class_info t)) d;
       Ret (mkInstance t attrs)
  else raise TypeError "not an ioprepped dataclass".
End dataclassio.
End dataclassio.
Import dataclassio.

(** ** class MessageProtocol *)

Module MessageProtocol.

Record t := mk {
  message_types_by_id : PyDict Z Ty;
  message_ids_by_type : PyDict Ty Z;
  response_types_by_id : PyDict Z Ty;
  response_ids_by_type : PyDict Ty Z;
  _type_key : option string;
  preserve_clean_errors : bool;
  log_remote_exceptions : bool;
  trusted_sender : bool
}.

Section methods.
Context {R : Runtime}.

(** The two registration loops of [__init__] (lines 115-125 for messages,
    lines 127-134 for responses); [base] is [Message] or [Response]. The
    ids are integers by the type of the argument. *)
Fixpoint register_loop (base : Ty) (items : list (Z * Ty))
    (types_by_id : PyDict Z Ty) (ids_by_type : PyDict Ty Z)
    : Res (PyDict Z Ty * PyDict Ty Z) :=
  match items with
  | [] => Ret (types_by_id, ids_by_type)
  | (m_id, m_type) :: rest =>
      _ ← assert (bool_decide (m_id >= 0));
      _ ← assert (is_ioprepped_dataclass m_type && issubclass m_type base);
      _ ← assert (bool_decide (dict_get m_id types_by_id = None));
      register_loop base rest
        (dict_set m_id m_type types_by_id) (dict_set m_type m_id ids_by_type)
  end.

(** The local function [_reg_if_not] of [__init__] (lines 139-144). *)
Definition _reg_if_not (reg_tp : Ty) (reg_id : Z)
    (types_by_id : PyDict Z Ty) (ids_by_type : PyDict Ty Z)
    : Res (PyDict Z Ty * PyDict Ty Z) :=
  if dict_contains reg_tp ids_by_type then Ret (types_by_id, ids_by_type)
  else
    _ ← assert (bool_decide (dict_get reg_id types_by_id = None));
    Ret (dict_set reg_id reg_tp types_by_id, dict_set reg_tp reg_id ids_by_type).

(** [s.update(l)] on a set kept in order of first insertion. *)
Definition set_update (s l : list Ty) : list Ty :=
  foldl (λ s x, if list_mem x s then s else s ++ [x]) s l.

(** Lines 153-160: the response types of all message types. *)
Fixpoint collect_response_types (items : list (Z * Ty))
    (all_response_types : list Ty) : Res (list Ty) :=
  match items with
  | [] => Ret all_response_types
  | (m_id, m_type) :: rest =>
      let m_rtypes := get_response_types m_type in
      _ ← (if bool_decide (m_rtypes = []) then
             raise AssertionError
               ("Message type " +:+ repr_type m_type
                  +:+ " specifies no return types.")
           else Ret tt);
      _ ← assert (bool_decide (set_len m_rtypes = length m_rtypes));
      collect_response_types rest (set_update all_response_types m_rtypes)
  end.

(** Lines 161-166. Python iterates the set in an unspecified order; the
    order only decides which failure is reported when there are several. *)
Fixpoint check_response_types (all_response_types : list Ty)
    (response_ids_by_type : PyDict Ty Z) : Res unit :=
  match all_response_types with
  | [] => Ret tt
  | cls :: rest =>
      _ ← assert (is_ioprepped_dataclass cls);
      _ ← assert (issubclass cls Response);
      if negb (dict_contains cls response_ids_by_type) then
        raise ValueError
          ("Possible response type " +:+ repr_type cls
             +:+ " was not included in response_types.")
      else check_response_types rest response_ids_by_type
  end.

(** [MessageProtocol.__init__] (lines 85-180). *)
Definition __init__ (message_types response_types : PyDict Z Ty)
    (type_key : option string)
    (preserve_clean_errors log_remote_exceptions trusted_sender : bool)
    : Res t :=
  '(message_types_by_id, message_ids_by_type) ←
    register_loop Message message_types [] [];
  '(response_types_by_id, response_ids_by_type) ←
    register_loop Response response_types [] [];
  '(response_types_by_id, response_ids_by_type) ←
    _reg_if_not ErrorResponse (-1) response_types_by_id response_ids_by_type;
  '(response_types_by_id, response_ids_by_type) ←
    _reg_if_not EmptyResponse (-2) response_types_by_id response_ids_by_type;
  all_response_types ← collect_response_types message_types [];
  _ ← check_response_types all_response_types response_ids_by_type;
  let mtypenames := __name__ <$> dict_keys message_ids_by_type in
  if bool_decide (set_len mtypenames ≠ length message_types) then
    raise ValueError
      ("message_types contains duplicate __name__s;"
         +:+ " all types are required to have unique names.")
  else
    Ret (mk message_types_by_id message_ids_by_type
            response_types_by_id response_ids_by_type
            type_key preserve_clean_errors log_remote_exceptions
            trusted_sender).

(** [MessageProtocol._encode] (lines 190-210). *)
Definition _encode (self : t) (message : Instance)
    (ids_by_type : PyDict Ty Z) (opname : string) : Res bytes :=
  match dict_get (inst_type message) ids_by_type with
  | None =>
      raise TypeError
        (opname +:+ " type is not registered in protocol: "
           +:+ repr_type (inst_type message))
  | Some m_id =>
      msgdict ← dataclass_to_dict message;
      out ← match _type_key self with
            | Some type_key =>
                if dict_contains type_key msgdict then
                  raise RuntimeError
                    ("Type-key " +:+ type_key +:+ " found in msg of type "
                       +:+ repr_type (inst_type message))
                else Ret (JObj (dict_set type_key (JInt m_id) msgdict))
            | None => Ret (JObj [("m", JObj msgdict); ("t", JInt m_id)])
            end;
      Ret (json_dumps out)
  end.

(** [MessageProtocol.encode_message] *)
Definition encode_message (self : t) (message : Instance) : Res bytes :=
  _encode self message (message_ids_by_type self) "message".

(** [MessageProtocol.encode_response] *)
Definition encode_response (self : t) (response : Instance) : Res bytes :=
  _encode self response (response_ids_by_type self) "response".

(** [str(m_id)] for a value that passed [isinstance(m_id, int)] *)
Definition int_str (j : Json) : string :=
  match j with
  | JBool true => "True"
  | JBool false => "False"
  | JInt z => pretty z
  | _ => ""
  end.

(** The two special cases at the end of [_decode] (lines 246-259): an
    EmptyResponse is returned as [None], an ErrorResponse is raised as a
    local exception. *)
Definition _decode_special_cases (self : t) (opname : string)
    (out : Instance) : Res (option Instance) :=
  if isinstance out EmptyResponse then Ret None
  else if isinstance out ErrorResponse then
    _ ← assert (bool_decide (opname = "response"));
    is_clean ←
      (if preserve_clean_errors self then
         error_type ← getattr out "error_type";
         Ret (bool_decide (error_type = VErrorType CLEAN))
       else Ret false);
    error_message ← getattr out "error_message";
    if (is_clean : bool) then raise CleanError (value_str error_message)
    else raise RemoteError (value_str error_message)
  else Ret (Some out).

(** [MessageProtocol._decode] (lines 224-259). The result is [None] or an
    instance. A key that [dict.get] does not find gives Python's [None],
    which is also what a JSON null is. *)
Definition _decode (self : t) (data : bytes)
    (types_by_id : PyDict Z Ty) (opname : string) : Res (option Instance) :=
  msgfull ← json_loads data;
  msgfull ← match as_dict msgfull with
            | Some d => Ret d
            | None => raise AssertionError ""
            end;
  '(m_id, msgdict) ←
    match _type_key self with
    | Some type_key =>
        match dict_pop type_key msgfull with
        | None => raise KeyError (repr_str type_key)
        | Some (m_id, msgfull') =>
            _ ← assert (bool_decide (is_Some (as_int m_id)));
            Ret (m_id, JObj msgfull')
        end
    | None =>
        Ret (default JNull (dict_get "t" msgfull),
             default JNull (dict_get "m" msgfull))
    end;
  match as_int m_id, as_dict msgdict with
  | None, _ => raise AssertionError ""
  | Some _, None => raise AssertionError ""
  | Some m_id_int, Some msgdict =>
      match dict_get m_id_int types_by_id with
      | None =>
          raise TypeError
            ("Got unregistered " +:+ opname +:+ " type id of "
               +:+ int_str m_id +:+ ".")
      | Some msgtype =>
          out ← dataclass_from_dict msgtype msgdict;
          _decode_special_cases self opname out
      end
  end.

(** [MessageProtocol.decode_message] (lines 212-216) *)
Definition decode_message (self : t) (data : bytes) : Res Instance :=
  out ← _decode self data (message_types_by_id self) "message";
  match out with
  | Some x => _ ← assert (isinstance x Message); Ret x
  | None => raise AssertionError ""
  end.

(** [MessageProtocol.decode_response] (lines 218-222) *)
Definition decode_response (self : t) (data : bytes)
    : Res (option Instance) :=
  out ← _decode self data (response_types_by_id self) "response";
  match out with
  | Some x => _ ← assert (isinstance x Response); Ret (Some x)
  | None => Ret None
  end.
End methods.
End MessageProtocol.

(** ** class MessageSender *)

Module MessageSender.

Record t {R : Runtime} := mk {
  _protocol : MessageProtocol.t;
  _send_raw_message_call : option (BoundObj → bytes → Res bytes)
}.

Section methods.
Context {R : Runtime}.

(** [MessageSender.__init__] *)
Definition __init__ (protocol : MessageProtocol.t) : t := mk R protocol None.

(** [MessageSender.send_raw_handler] *)
Definition send_raw_handler (self : t) (call : BoundObj → bytes → Res bytes)
    : Res t :=
  _ ← assert (match _send_raw_message_call self with
              | None => true
              | Some _ => false
              end);
  Ret (mk R (_protocol self) (Some call)).

(** [MessageSender.send] (lines 497-511) *)
Definition send (self : t) (bound_obj : BoundObj) (message : Instance)
    : Res (option Instance) :=
  match _send_raw_message_call self with
  | None => raise RuntimeError "send() is unimplemented for this type."
  | Some call =>
      msg_encoded ← MessageProtocol.encode_message (_protocol self) message;
      response_encoded ← call bound_obj msg_encoded;
      response ←
        MessageProtocol.decode_response (_protocol self) response_encoded;
      _ ← assert (match response with
                  | Some x => isinstance x Response
                  | None => true
                  end);
      _ ← assert (match response with
                  | Some x =>
                      list_mem (inst_type x)
                        (get_response_types (inst_type message))
                  | None => true
                  end);
      Ret response
  end.

(** [MessageSender.send_bg] *)
Definition send_bg (self : t) (bound_obj : BoundObj) (message : Instance)
    : Res Instance :=
  raise RuntimeError "Unimplemented!".

(** [MessageSender.send_async] *)
Definition send_async (self : t) (bound_obj : BoundObj) (message : Instance)
    : Res Instance :=
  raise RuntimeError "Unimplemented!".
End methods.
End MessageSender.

(** ** class MessageReceiver *)

(** A resolved type hint, as [typing.get_type_hints] returns it. *)
Inductive Hint :=
  | HintType (tp : Ty)                   (* a class; [None] reads as NoneType *)
  | HintGeneric (targs : list (option Ty))
      (* a [typing._GenericAlias] such as [Union[A, B]] with its [get_args];
         an argument that is not a class is [None] *)
  | HintOther.                           (* any other object *)

(** What [register_handler] and [handle_raw_message] use of a handler: its
    argument names ([inspect.getfullargspec(call).args]), the type hints of
    [msg] and of the return value, when annotated, and what a call does. *)
Record Callable {R : Runtime} := mkCallable {
  sig_args : list string;
  ann_msg : option Hint;
  ann_return : option Hint;
  call : BoundObj → Instance → Res (option Instance)
}.

Module MessageReceiver.

Record t {R : Runtime} := mk {
  _protocol : MessageProtocol.t;
  _handlers : PyDict Ty Callable
}.

Section methods.
Context {R : Runtime}.

(** [MessageReceiver.__init__] *)
Definition __init__ (protocol : MessageProtocol.t) : t := mk R protocol [].

(** Line 606: a return type of None translates to EmptyResponse. *)
Definition none_to_empty (r : Ty) : Ty :=
  if bool_decide (r = NoneType) then EmptyResponse else r.

(** Lines 589-607: the response types a return annotation declares. *)
Definition return_types (ret : option Hint) : Res (list Ty) :=
  match ret with
  | Some (HintGeneric targs) =>
      if forallb (λ a : option Ty, bool_decide (is_Some a)) targs
      then Ret (map none_to_empty (omap (M:=list) id targs))
      else raise TypeError "expected only types for return annotation"
  | Some (HintType ret) => Ret (map none_to_empty [ret])
  | _ => raise TypeError "expected one or more types for return annotation"
  end.

(** [MessageReceiver.register_handler] (lines 560-631). The receiver with
    the handler added is returned. The messages of the errors raised for a
    malformed signature are kept without the objects they print. *)
Definition register_handler (self : t) (call : Callable) : Res t :=
  let expectedsig := ["self"; "msg"]%string in
  if bool_decide (sig_args call ≠ expectedsig) then
    raise ValueError "Expected callable signature of ['self', 'msg']"
  else
    msgtype ← match ann_msg call with
              | Some (HintType tp) => Ret tp
              | _ => raise TypeError "expected a type for msg annotation"
              end;
    _ ← assert (issubclass msgtype Message);
    responsetypes ← return_types (ann_return call);
    let registered_types :=
      dict_keys (MessageProtocol.message_ids_by_type (_protocol self)) in
    if negb (list_mem msgtype registered_types) then
      raise TypeError
        ("Message type " +:+ repr_type msgtype
           +:+ " is not registered in this Protocol.")
    else if dict_contains msgtype (_handlers self) then
      raise TypeError
        ("Message type " +:+ repr_type msgtype
           +:+ " already has a registered handler.")
    else if negb (set_eqb responsetypes (get_response_types msgtype)) then
      raise TypeError
        ("Provided response types do not match the set expected by"
           +:+ " message type " +:+ repr_type msgtype)
    else
      Ret (mk R (_protocol self) (dict_set msgtype call (_handlers self))).

(** The message of [validate] (lines 639-640). *)
Definition not_handled_msg (msgtype : Ty) : string :=
  "Protocol message " +:+ repr_type msgtype +:+ " not handled by receiver.".

(** The loop of [validate] over [message_ids_by_type.keys()]. *)
Fixpoint validate_loop (self : t) (warn_only : bool) (msgtypes : list Ty)
    : list LogRecord * Res unit :=
  match msgtypes with
  | [] => ([], Ret tt)
  | msgtype :: rest =>
      if issubclass msgtype Response then validate_loop self warn_only rest
      else if negb (dict_contains msgtype (_handlers self)) then
        let msg := not_handled_msg msgtype in
        ((if warn_only then [mkLog WARNING msg] else []),
         raise TypeError msg)
      else validate_loop self warn_only rest
  end.

(** [MessageReceiver.validate] (lines 633-643): what is logged, and the
    outcome. *)
Definition validate (self : t) (warn_only : bool)
    : list LogRecord * Res unit :=
  validate_loop self warn_only
    (dict_keys (MessageProtocol.message_ids_by_type (_protocol self))).

(** The [try] block of [handle_raw_message] (lines 647-668). *)
Definition handle_raw_message_try (self : t) (bound_obj : BoundObj)
    (msg : bytes) : Res bytes :=
  msg_decoded ← MessageProtocol.decode_message (_protocol self) msg;
  let msgtype := inst_type msg_decoded in
  _ ← assert (issubclass msgtype Message);
  match dict_get msgtype (_handlers self) with
  | None =>
      raise RuntimeError
        ("Got unhandled message type: " +:+ repr_type msgtype +:+ ".")
  | Some handler =>
      response ← call handler bound_obj msg_decoded;
      let response := default new_EmptyResponse response in
      _ ← assert (isinstance response Response);
      _ ← assert (negb (isinstance response ErrorResponse));
      _ ← assert (list_mem (inst_type response) (get_response_types msgtype));
      MessageProtocol.encode_response (_protocol self) response
  end.

(** The ErrorResponse built by the [except] clause (lines 676-687). *)
Definition error_response (self : t) (exc : Exc) : Instance :=
  if is_CleanError exc
     && MessageProtocol.preserve_clean_errors (_protocol self)
  then new_ErrorResponse (exc_str exc) CLEAN
  else
    new_ErrorResponse
      (if MessageProtocol.trusted_sender (_protocol self)
       then format_exc exc
       else "An unknown error has occurred.")
      OTHER.

(** The [except Exception as exc] clause of [handle_raw_message]
    (lines 670-688). *)
Definition handle_raw_message_except (self : t) (exc : Exc)
    : list LogRecord * Res bytes :=
  ((if MessageProtocol.log_remote_exceptions (_protocol self)
    then [mkLog ERROR "Error handling message."] else []),
   MessageProtocol.encode_response (_protocol self)
     (error_response self exc)).

(** [MessageReceiver.handle_raw_message] (lines 645-688) *)
Definition handle_raw_message (self : t) (bound_obj : BoundObj)
    (msg : bytes) : list LogRecord * Res bytes :=
  match handle_raw_message_try self bound_obj msg with
  | Ret out => ([], Ret out)
  | Raise exc => handle_raw_message_except self exc
  end.
End methods.
End MessageReceiver.

(** ** Valid instances

    What "an instance with valid field values" means for the codec: the
    class is a prepared dataclass whose field names and storage keys are
    unique, and the instance holds exactly the fields of its class, in
    order, each with a value of the field's type. *)

Definition value_has_type (ft : FieldType) (v : Value) : bool :=
  match ft, v with
  | FStr, VStr _ | FInt, VInt _ | FBool, VBool _ | FErrorType, VErrorType _ =>
      true
  | _, _ => false
  end.

Fixpoint attrs_match (fs : list Field) (attrs : list (string * Value)) : bool :=
  match fs, attrs with
  | [], [] => true
  | f :: fs', (name, v) :: attrs' =>
      bool_decide (name = f_name f) && value_has_type (f_type f) v
        && attrs_match fs' attrs'
  | _, _ => false
  end.

Definition schema_wf (fs : list Field) : bool :=
  bool_decide (NoDup (f_name <$> fs)) && bool_decide (NoDup (f_storage <$> fs)).

Definition valid_instance {R : Runtime} (x : Instance) : bool :=
  is_ioprepped_dataclass (inst_type x)
    && schema_wf (c_fields (class_info (inst_type x)))
    && attrs_match (c_fields (class_info (inst_type x))) (inst_attrs x).

(** ** The wire format

    The record that carries a type id and the stored fields of an instance:
    with a type key the id is one more field of the record, without one the
    record is the envelope with the fields under [m] and the id under [t]. *)
Definition wire_record (type_key : option string) (m_id : Z)
    (msgdict : PyDict string Json) : Json :=
  match type_key with
  | Some key => JObj (dict_set key (JInt m_id) msgdict)
  | None => JObj [("m", JObj msgdict); ("t", JInt m_id)]
  end.

(** The stored form of a field value. *)
Definition json_of_value (v : Value) : Json :=
  match v with
  | VStr s => JStr s
  | VInt z => JInt z
  | VBool b => JBool b
  | VErrorType e => JInt (ErrorType_value e)
  end.

(** The record of an instance: each field value under its storage key. *)
Fixpoint record_of (fs : list Field) (attrs : list (string * Value))
    : PyDict string Json :=
  match fs, attrs with
  | f :: fs', (_, v) :: attrs' =>
      (f_storage f, json_of_value v) :: record_of fs' attrs'
  | _, _ => []
  end.

(** The ids and types of a registry agree: the id a type is encoded with
    decodes to that type. *)
Definition registry_inv (types_by_id : PyDict Z Ty) (ids_by_type : PyDict Ty Z)
    : Prop :=
  ∀ tp i, dict_get tp ids_by_type = Some i → dict_get i types_by_id = Some tp.

(** A message type passes [validate] when it is a Response or is handled. *)
Definition covered {R : Runtime} (self : MessageReceiver.t) (msgtype : Ty)
    : Prop :=
  issubclass msgtype Response = true
  ∨ msgtype ∈ dict_keys (MessageReceiver._handlers self).

(** The storage keys of a class, the keys of every encoded record of it. *)
Definition storage_keys {R : Runtime} (tp : Ty) : list string :=
  f_storage <$> c_fields (class_info tp).


(** ** An example application

    The scenario of the protocol's description: [Ping] is answered by
    [Pong], [Shutdown] by nothing. [Echo] is both a message and a response,
    and a second class named [Ping] lives in another module. *)

Module Example.

Definition Ping : Ty := UserClass 1.
Definition Pong : Ty := UserClass 2.
Definition Shutdown : Ty := UserClass 3.
Definition Echo : Ty := UserClass 4.
Definition OtherPing : Ty := UserClass 5.

Definition classes (n : positive) : ClassInfo :=
  match n with
  | 1%positive =>
      mkClass "app.messages" "Ping" [Ping; Message] true
        [mkField "message" "m" FStr None] [Pong]
  | 2%positive =>
      mkClass "app.messages" "Pong" [Pong; Response] true
        [mkField "reply" "r" FStr None] []
  | 3%positive =>
      mkClass "app.messages" "Shutdown" [Shutdown; Message] true
        [] [EmptyResponse]
  | 4%positive =>
      mkClass "app.messages" "Echo" [Echo; Message; Response] true
        [mkField "text" "text" FStr (Some (VStr ""))] [Echo]
  | 5%positive =>
      mkClass "app.replies" "Ping" [OtherPing; Response] true
        [] []
  | _ => mkClass "builtins" "object" [] false [] []
  end.

(** Byte strings up to JSON parsing: the compact text of a JSON value, or
    bytes that are not JSON. *)
Inductive Wire :=
  | Document (j : Json)
  | Malformed (raw : list Byte.byte).

Definition loads (data : Wire) : Res Json :=
  match data with
  | Document j => Ret j
  | Malformed _ =>
      raise (OtherException "JSONDecodeError") "Expecting value"
  end.

(** The runtime of the examples. [repr_str] is [repr] on the strings the
    examples use, which hold no quote, no backslash and no character that
    [repr] escapes. *)
#[global] Instance runtime : Runtime := {|
  bytes := Wire;
  json_dumps := Document;
  json_loads := loads;
  format_exc e := "Traceback (most recent call last): " +:+ exc_str e;
  repr_str s := "'" +:+ s +:+ "'";
  BoundObj := unit;
  user_class := classes
|}.

(** [MessageProtocol({1: Ping, 2: Shutdown}, {0: Pong}, type_key)], built
    with [log_remote_exceptions=False] and the other flags at their
    defaults. *)
Definition protocol_with (type_key : option string) : MessageProtocol.t :=
  MessageProtocol.mk
    [(1, Ping); (2, Shutdown)] [(Ping, 1); (Shutdown, 2)]
    [(0, Pong); (-1, ErrorResponse); (-2, EmptyResponse)]
    [(Pong, 0); (ErrorResponse, -1); (EmptyResponse, -2)]
    type_key true false false.

(** The protocol in the default envelope mode. *)
Definition protocol : MessageProtocol.t := protocol_with None.

(** The same registrations with [type_key='t']. *)
Definition protocol_t : MessageProtocol.t := protocol_with (Some "t").

(** [MessageProtocol({0: Echo}, {0: Echo})], same flags. *)
Definition protocol_echo : MessageProtocol.t :=
  MessageProtocol.mk
    [(0, Echo)] [(Echo, 0)]
    [(0, Echo); (-1, ErrorResponse); (-2, EmptyResponse)]
    [(Echo, 0); (ErrorResponse, -1); (EmptyResponse, -2)]
    None true false false.

Definition ping (text : string) : Instance :=
  mkInstance Ping [("message", VStr text)].
Definition pong (text : string) : Instance :=
  mkInstance Pong [("reply", VStr text)].
Definition shutdown : Instance := mkInstance Shutdown [].

(** def handle_ping(self, msg: Ping) -> Pong: return Pong(reply='pong') *)
Definition handle_ping : Callable :=
  mkCallable runtime ["self"; "msg"]%string
    (Some (HintType Ping)) (Some (HintType Pong))
    (λ _ _, Ret (Some (pong "pong"))).

(** def handle_shutdown(self, msg: Shutdown) -> None:
        raise CleanError('no permission') *)
Definition handle_shutdown : Callable :=
  mkCallable runtime ["self"; "msg"]%string
    (Some (HintType Shutdown)) (Some (HintType NoneType))
    (λ _ _, raise CleanError "no permission").

(** A receiver for [protocol] with both handlers registered. *)
Definition receiver : MessageReceiver.t :=
  MessageReceiver.mk runtime protocol
    [(Ping, handle_ping); (Shutdown, handle_shutdown)].

(** A sender whose transport hands the bytes to [receiver]. *)
Definition sender : MessageSender.t :=
  MessageSender.mk runtime protocol
    (Some (λ obj data,
             (MessageReceiver.handle_raw_message receiver obj data).2)).
End Example.

(** ** Receivers as they are set up

    A receiver is created for a protocol and handlers are then registered
    on it one by one; [set_up p self] says that [self] was reached in this
    way. *)
Inductive set_up {R : Runtime} (p : MessageProtocol.t)
    : MessageReceiver.t → Prop :=
  | set_up_init : set_up p (MessageReceiver.__init__ p)
  | set_up_register self call self' :
      set_up p self →
      MessageReceiver.register_handler self call = Ret self' →
      set_up p self'.

(** A handler whose signature reads as a handler of [msgtype]: the
    arguments are [self] and [msg], [msg] is annotated with the class
    [msgtype], a subclass of Message, and the declared return types are, as
    a set, the response types of [msgtype]. *)
Definition handles {R : Runtime} (call : Callable) (msgtype : Ty) : Prop :=
  sig_args call = ["self"; "msg"]%string
  ∧ ann_msg call = Some (HintType msgtype)
  ∧ issubclass msgtype Message = true
  ∧ ∃ responsetypes,
      MessageReceiver.return_types (ann_return call) = Ret responsetypes
      ∧ ∀ r, r ∈ responsetypes ↔ r ∈ get_response_types msgtype.

(** A sender whose transport is a receiver in the same process: the raw
    call hands the bytes to [handle_raw_message] and returns its result. *)
Definition loopback {R : Runtime} (receiver : MessageReceiver.t)
    : BoundObj → bytes → Res bytes :=
  λ obj data, (MessageReceiver.handle_raw_message receiver obj data).2.

(** ** More of the example application *)

Module Example2.
Import Example.

(** def handle_shutdown(self, msg: Shutdown) -> None: return None *)
Definition handle_shutdown : Callable :=
  mkCallable runtime ["self"; "msg"]%string
    (Some (HintType Shutdown)) (Some (HintType NoneType))
    (λ _ _, Ret None).

(** def handle_ping(self, msg: Ping) -> Pong:
        return ErrorResponse('boom', ErrorType.OTHER) *)
Definition handle_ping_error : Callable :=
  mkCallable runtime ["self"; "msg"]%string
    (Some (HintType Ping)) (Some (HintType Pong))
    (λ _ _, Ret (Some (new_ErrorResponse "boom" OTHER))).

(** def handle_ping(self, msg: Ping) -> Pong:
        raise ValueError('secret detail') *)
Definition handle_ping_fails : Callable :=
  mkCallable runtime ["self"; "msg"]%string
    (Some (HintType Ping)) (Some (HintType Pong))
    (λ _ _, raise ValueError "secret detail").

(** def handle_ping(self, msg: Ping, extra: int = 0) -> Pong:
        return Pong(reply='pong') *)
Definition handle_ping_extra : Callable :=
  mkCallable runtime ["self"; "msg"; "extra"]%string
    (Some (HintType Ping)) (Some (HintType Pong))
    (λ _ _, Ret (Some (pong "pong"))).


(** A receiver for [protocol] that answers both messages. *)
Definition receiver : MessageReceiver.t :=
  MessageReceiver.mk runtime protocol
    [(Ping, handle_ping); (Shutdown, handle_shutdown)].

(** A receiver for [protocol] whose [Ping] handler returns an
    ErrorResponse. *)
Definition receiver_error : MessageReceiver.t :=
  MessageReceiver.mk runtime protocol [(Ping, handle_ping_error)].

(** A receiver for [protocol] whose [Ping] handler raises a ValueError. *)
Definition receiver_fails : MessageReceiver.t :=
  MessageReceiver.mk runtime protocol [(Ping, handle_ping_fails)].

(** A receiver for [protocol] that only handles [Ping]. *)
Definition receiver_ping : MessageReceiver.t :=
  MessageReceiver.mk runtime protocol [(Ping, handle_ping)].

(** Senders whose transport is one of these receivers. *)
Definition sender_to (r : MessageReceiver.t) : MessageSender.t :=
  MessageSender.mk runtime protocol (Some (loopback r)).
End Example2.

(** ** Generated modules

    [MessageProtocol._get_module_header], [create_sender_module] and
    [create_receiver_module] (lines 261-461). A [str] is modelled by its
    UTF-8 bytes: two strings compare as their code points do, and [len]
    counts the bytes that start a code point. *)

(** The characters that cannot be written inside a string literal. *)
Definition nl : string := String "010"%char EmptyString.
Definition dq : string := String "034"%char EmptyString.
Definition dq3 : string := dq +:+ dq +:+ dq.

(** [len(s)] *)
Definition str_len (s : string) : nat :=
  length (filter (λ c : ascii,
                    (nat_of_ascii c <? 128)%nat || (192 <=? nat_of_ascii c)%nat)
            (list_ascii_of_string s)).

(** [sorted(d.items())] for a dict with [str] keys. The keys of a dict are
    distinct, so the order of the tuples is the order of their keys. *)
Fixpoint insert_item {V} (x : string * V) (l : list (string * V))
    : list (string * V) :=
  match l with
  | [] => [x]
  | y :: l' => if String.leb x.1 y.1 then x :: l else y :: insert_item x l'
  end.

Definition sorted_items {V} (d : PyDict string V) : list (string * V) :=
  foldr insert_item [] d.

Module ModuleGen.
Section methods.
Context {R : Runtime}.

(** [imports.setdefault(tp.__module__, []).append(tp.__name__)] *)
Definition add_import (imports : PyDict string (list string)) (tp : Ty)
    : PyDict string (list string) :=
  let module := c_module (class_info tp) in
  dict_set module (default [] (dict_get module imports) ++ [__name__ tp])
    imports.

(** The two loops of [_get_module_header] (lines 263-270): the names to
    import, by module. *)
Definition module_imports (self : MessageProtocol.t)
    : PyDict string (list string) :=
  let imports :=
    fold_left add_import
      (dict_keys (MessageProtocol.message_ids_by_type self) ++ [Message]) [] in
  fold_left
    (λ imports rsp_tp,
       if bool_decide (rsp_tp = EmptyResponse)
          || bool_decide (rsp_tp = ErrorResponse)
       then imports
       else add_import imports rsp_tp)
    (dict_keys (MessageProtocol.response_ids_by_type self) ++ [Response])
    imports.

(** [name] is among the names imported from [module]. *)
Definition imported (imports : PyDict string (list string))
    (module name : string) : Prop :=
  ∃ names, dict_get module imports = Some names ∧ name ∈ names.

(** One turn of the loop over [sorted(imports.items())] (lines 272-278). *)
Definition import_line (item : string * list string) : string :=
  let '(module, names) := item in
  let jnames := String.concat ", " names in
  let line := "from " +:+ module +:+ " import " +:+ jnames in
  let line :=
    if (79 <? str_len line)%nat
    then "from " +:+ module +:+ " import (" +:+ jnames +:+ ")"
    else line in
  "    " +:+ line +:+ nl.

(** [MessageProtocol._get_module_header] (lines 261-300) *)
Definition _get_module_header (self : MessageProtocol.t) (part : string)
    : string :=
  let importlines2 :=
    String.concat "" (import_line <$> sorted_items (module_imports self)) in
  let importlines1 :=
    if bool_decide (part = "sender"%string)
    then "from efro.message import MessageSender"%string
    else "from efro.message import MessageReceiver"%string in
  "# Released under the MIT License. See LICENSE for details." +:+ nl
    +:+ "#" +:+ nl
    +:+ dq3 +:+ "Auto-generated " +:+ part
    +:+ " module. Do not edit by hand." +:+ dq3 +:+ nl
    +:+ nl
    +:+ "from __future__ import annotations" +:+ nl
    +:+ nl
    +:+ "from typing import TYPE_CHECKING, overload" +:+ nl
    +:+ nl
    +:+ importlines1 +:+ nl
    +:+ nl
    +:+ "if TYPE_CHECKING:" +:+ nl
    +:+ "    from typing import Union, Any, Optional, Callable" +:+ nl
    +:+ importlines2
    +:+ nl
    +:+ nl.

(** [_filt_tp_name] (lines 344-347 and 408-411) *)
Definition _filt_tp_name (rtype : Ty) : string :=
  if bool_decide (rtype = EmptyResponse) then "None"%string
  else __name__ rtype.

(** Lines 352-357 and 416-421: the return annotation of an overload.
    [rtypes[0]] raises an IndexError when the list is empty. *)
Definition rtypevar_of (msgtype : Ty) : Res string :=
  let rtypes := get_response_types msgtype in
  if (1 <? length rtypes)%nat then
    Ret ("Union[" +:+ String.concat ", " (_filt_tp_name <$> rtypes) +:+ "]")
  else
    match rtypes with
    | rtype :: _ => Ret (_filt_tp_name rtype)
    | [] => raise (OtherException "IndexError") "list index out of range"
    end.

(** Lines 334-337 and 398-401: the registered message types. *)
Definition msgtypes_of (self : MessageProtocol.t) : list Ty :=
  filter (λ t, issubclass t Message = true)
    (dict_keys (MessageProtocol.message_ids_by_type self)).

(** The loop of [create_sender_module] over the message types
    (lines 350-363). *)
Fixpoint sender_overloads (msgtypes : list Ty) (out : string) : Res string :=
  match msgtypes with
  | [] => Ret out
  | msgtype :: rest =>
      let msgtypevar := __name__ msgtype in
      rtypevar ← rtypevar_of msgtype;
      sender_overloads rest
        (out +:+ nl
           +:+ "    @overload" +:+ nl
           +:+ "    def send(self, message: " +:+ msgtypevar +:+ ")"
           +:+ " -> " +:+ rtypevar +:+ ":" +:+ nl
           +:+ "        ..." +:+ nl)
  end.

(** [MessageProtocol.create_sender_module] (lines 302-374) *)
Definition create_sender_module (self : MessageProtocol.t)
    (classname : string) (private : bool) : Res string :=
  let ppre : string := if private then "_" else "" in
  let out := _get_module_header self "sender" in
  let out :=
    out +:+ "class " +:+ ppre +:+ classname
      +:+ "MessageSender(MessageSender):" +:+ nl
      +:+ "    " +:+ dq3 +:+ "Protocol-specific sender." +:+ dq3 +:+ nl
      +:+ nl
      +:+ "    def __get__(self," +:+ nl
      +:+ "                obj: Any," +:+ nl
      +:+ "                type_in: Any = None)"
      +:+ " -> " +:+ ppre +:+ "Bound" +:+ classname +:+ "MessageSender:" +:+ nl
      +:+ "        return " +:+ ppre +:+ "Bound" +:+ classname
      +:+ "MessageSender" +:+ "(obj, self)" +:+ nl
      +:+ nl
      +:+ nl
      +:+ "class " +:+ ppre +:+ "Bound" +:+ classname +:+ "MessageSender:"
      +:+ nl
      +:+ "    " +:+ dq3 +:+ "Protocol-specific bound sender." +:+ dq3 +:+ nl
      +:+ nl
      +:+ "    def __init__(self, obj: Any,"
      +:+ " sender: " +:+ ppre +:+ classname +:+ "MessageSender) -> None:"
      +:+ nl
      +:+ "        assert obj is not None" +:+ nl
      +:+ "        self._obj = obj" +:+ nl
      +:+ "        self._sender = sender" +:+ nl in
  let msgtypes := msgtypes_of self in
  if bool_decide (length msgtypes = 1%nat) then
    raise RuntimeError
      ("FIXME: currently we require at least 2"
         +:+ " registered message types; found 1.")
  else if (1 <? length msgtypes)%nat then
    out ← sender_overloads msgtypes out;
    Ret (out +:+ nl
           +:+ "    def send(self, message: Message)"
           +:+ " -> Optional[Response]:" +:+ nl
           +:+ "        " +:+ dq3 +:+ "Send a message." +:+ dq3 +:+ nl
           +:+ "        return self._sender.send(self._obj, message)" +:+ nl)
  else Ret out.

(** The loop of [create_receiver_module] over the message types
    (lines 414-430). *)
Fixpoint receiver_overloads (msgtypes : list Ty) (out : string)
    : Res string :=
  match msgtypes with
  | [] => Ret out
  | msgtype :: rest =>
      let msgtypevar := __name__ msgtype in
      rtypevar ← rtypevar_of msgtype;
      receiver_overloads rest
        (out +:+ nl
           +:+ "    @overload" +:+ nl
           +:+ "    def handler(" +:+ nl
           +:+ "        self," +:+ nl
           +:+ "        call: Callable[[Any, " +:+ msgtypevar +:+ "], "
           +:+ rtypevar +:+ "]," +:+ nl
           +:+ "    ) -> Callable[[Any, " +:+ msgtypevar +:+ "], "
           +:+ rtypevar +:+ "]:" +:+ nl
           +:+ "        ..." +:+ nl)
  end.

(** [MessageProtocol.create_receiver_module] (lines 376-461) *)
Definition create_receiver_module (self : MessageProtocol.t)
    (classname : string) (private : bool) : Res string :=
  let ppre : string := if private then "_" else "" in
  let out := _get_module_header self "receiver" in
  let out :=
    out +:+ "class " +:+ ppre +:+ classname
      +:+ "MessageReceiver(MessageReceiver):" +:+ nl
      +:+ "    " +:+ dq3 +:+ "Protocol-specific receiver." +:+ dq3 +:+ nl
      +:+ nl
      +:+ "    def __get__(" +:+ nl
      +:+ "        self," +:+ nl
      +:+ "        obj: Any," +:+ nl
      +:+ "        type_in: Any = None," +:+ nl
      +:+ "    ) -> " +:+ ppre +:+ "Bound" +:+ classname +:+ "MessageReceiver:"
      +:+ nl
      +:+ "        return " +:+ ppre +:+ "Bound" +:+ classname
      +:+ "MessageReceiver(" +:+ "obj, self)" +:+ nl in
  let msgtypes := msgtypes_of self in
  if bool_decide (length msgtypes = 1%nat) then
    raise RuntimeError
      ("FIXME: currently require at least 2"
         +:+ " registered message types; found 1.")
  else
    out ← (if (1 <? length msgtypes)%nat then
             out ← receiver_overloads msgtypes out;
             Ret (out +:+ nl
                    +:+ "    def handler(self, call: Callable) -> Callable:"
                    +:+ nl
                    +:+ "        " +:+ dq3
                    +:+ "Decorator to register message handlers." +:+ dq3
                    +:+ nl
                    +:+ "        self.register_handler(call)" +:+ nl
                    +:+ "        return call" +:+ nl)
           else Ret out);
    Ret (out +:+ nl
           +:+ nl
           +:+ "class " +:+ ppre +:+ "Bound" +:+ classname
           +:+ "MessageReceiver:" +:+ nl
           +:+ "    " +:+ dq3 +:+ "Protocol-specific bound receiver." +:+ dq3
           +:+ nl
           +:+ nl
           +:+ "    def __init__(" +:+ nl
           +:+ "        self," +:+ nl
           +:+ "        obj: Any," +:+ nl
           +:+ "        receiver: " +:+ ppre +:+ classname +:+ "MessageReceiver,"
           +:+ nl
           +:+ "    ) -> None:" +:+ nl
           +:+ "        assert obj is not None" +:+ nl
           +:+ "        self._obj = obj" +:+ nl
           +:+ "        self._receiver = receiver" +:+ nl
           +:+ nl
           +:+ "    def handle_raw_message(self, message: bytes) -> bytes:"
           +:+ nl
           +:+ "        " +:+ dq3 +:+ "Handle a raw incoming message." +:+ dq3
           +:+ nl
           +:+ "        return self._receiver.handle_raw_message"
           +:+ "(self._obj, message)" +:+ nl).
End methods.
End ModuleGen.

(** * Properties *)

(** ** Results *)

Lemma bind_Ret {A B} (m : Res A) (f : A → Res B) (b : B) :
  m ≫= f = Ret b ↔ ∃ a, m = Ret a ∧ f a = Ret b.
Proof.
  destruct m as [a|e]; simpl; split.
  - intros H. by exists a.
  - by intros (a' & [= <-] & H).
  - discriminate.
  - by intros (a' & [=] & _).
Qed.

Lemma assert_Ret (c : bool) (u : unit) : assert c = Ret u ↔ c = true.
Proof. destruct c, u; simpl; split; (done || discriminate). Qed.

(** ** Dicts *)

Section pydict_lemmas.
Context {K V : Type} `{EqDecision K}.
Implicit Types (d : PyDict K V) (k : K) (v : V).

Lemma dict_get_None k d : dict_get k d = None ↔ k ∉ dict_keys d.
Proof.
  induction d as [|[k' v'] d IH]; simpl.
  - split; [intros _; apply not_elem_of_nil | done].
  - rewrite not_elem_of_cons. destruct (decide (k' = k)) as [->|Hne].
    + split; [discriminate | by intros [? _]].
    + rewrite IH. intuition congruence.
Qed.

Lemma dict_get_Some_elem k v d : dict_get k d = Some v → (k, v) ∈ d.
Proof.
  induction d as [|[k' v'] d IH]; simpl; [discriminate|].
  destruct (decide (k' = k)) as [->|Hne].
  - intros [= ->]. apply list_elem_of_here.
  - intros H'. apply list_elem_of_further. auto.
Qed.

Lemma dict_get_Some_key k v d : dict_get k d = Some v → k ∈ dict_keys d.
Proof.
  intros H'. destruct (decide (k ∈ dict_keys d)) as [|Hn]; [done|].
  apply dict_get_None in Hn. congruence.
Qed.

Lemma dict_contains_true k d : dict_contains k d = true ↔ k ∈ dict_keys d.
Proof.
  unfold dict_contains. destruct (dict_get k d) eqn:E.
  - split; [intros _; by eapply dict_get_Some_key | done].
  - apply dict_get_None in E. split; [discriminate | done].
Qed.

Lemma dict_contains_false k d : dict_contains k d = false ↔ k ∉ dict_keys d.
Proof.
  rewrite <- dict_contains_true. destruct (dict_contains k d); naive_solver.
Qed.

Lemma dict_get_set_eq k v d : dict_get k (dict_set k v d) = Some v.
Proof.
  induction d as [|[k' v'] d IH]; simpl.
  - by rewrite decide_True.
  - destruct (decide (k' = k)) as [->|Hne]; simpl.
    + by rewrite decide_True.
    + by rewrite decide_False.
Qed.

Lemma dict_get_set_ne k k' v d :
  k ≠ k' → dict_get k' (dict_set k v d) = dict_get k' d.
Proof.
  intros Hne. induction d as [|[k0 v0] d IH]; simpl.
  - by rewrite decide_False.
  - destruct (decide (k0 = k)) as [->|Hne0]; simpl.
    + by rewrite !decide_False.
    + destruct (decide (k0 = k')); [done | apply IH].
Qed.

(** A new key is appended. *)
Lemma dict_set_fresh k v d : k ∉ dict_keys d → dict_set k v d = d ++ [(k, v)].
Proof.
  induction d as [|[k' v'] d IH]; simpl; [done|].
  rewrite not_elem_of_cons. intros [Hne Hnin].
  rewrite decide_False by done. by rewrite IH.
Qed.

Lemma dict_keys_set k v d :
  dict_keys (dict_set k v d)
  = if dict_contains k d then dict_keys d else dict_keys d ++ [k].
Proof.
  unfold dict_keys, dict_contains.
  induction d as [|[k' v'] d IH]; simpl; [done|].
  destruct (decide (k' = k)) as [->|Hne]; simpl; [done|].
  destruct (dict_get k d); simpl in *; by f_equal.
Qed.

Lemma dict_set_wf k v d : dict_wf d → dict_wf (dict_set k v d).
Proof.
  unfold dict_wf. rewrite dict_keys_set.
  destruct (dict_contains k d) eqn:E; [done|].
  apply dict_contains_false in E. intros Hd.
  apply NoDup_app. split_and!; [done | | apply NoDup_singleton].
  intros x Hx. rewrite list_elem_of_singleton. by intros ->.
Qed.

Lemma elem_of_dict_keys_set k k' v d :
  k' ∈ dict_keys (dict_set k v d) ↔ k' = k ∨ k' ∈ dict_keys d.
Proof.
  rewrite dict_keys_set. destruct (dict_contains k d) eqn:E.
  - apply dict_contains_true in E. naive_solver.
  - rewrite elem_of_app, list_elem_of_singleton. naive_solver.
Qed.

Lemma Forall_dict_set (P : K * V → Prop) k v d :
  Forall P d → P (k, v) → Forall P (dict_set k v d).
Proof.
  intros Hall Hkv. induction Hall as [|[k' v'] d Hx Hd IH]; simpl.
  - by constructor.
  - destruct (decide (k' = k)) as [->|Hne]; constructor; done.
Qed.

(** Popping a key that was just added gives the dict back. *)
Lemma dict_pop_app_fresh k v d :
  k ∉ dict_keys d → dict_pop k (d ++ [(k, v)]) = Some (v, d).
Proof.
  induction d as [|[k' v'] d IH]; simpl.
  - intros _. by rewrite decide_True.
  - rewrite not_elem_of_cons. intros [Hne Hnin].
    rewrite decide_False by done. by rewrite IH.
Qed.

Lemma dict_pop_set_fresh k v d :
  dict_contains k d = false → dict_pop k (dict_set k v d) = Some (v, d).
Proof.
  intros E%dict_contains_false.
  rewrite dict_set_fresh by done. by apply dict_pop_app_fresh.
Qed.
End pydict_lemmas.

Lemma list_mem_true {A} `{EqDecision A} (x : A) (l : list A) :
  list_mem x l = true ↔ x ∈ l.
Proof. unfold list_mem. apply bool_decide_eq_true. Qed.

Lemma set_eqb_true {A} `{EqDecision A} (l1 l2 : list A) :
  set_eqb l1 l2 = true ↔ ∀ x, x ∈ l1 ↔ x ∈ l2.
Proof.
  unfold set_eqb. rewrite andb_true_iff, !forallb_forall.
  setoid_rewrite list_mem_true. setoid_rewrite <- list_elem_of_In.
  naive_solver.
Qed.

(** ** The registries built by the constructor *)

Section registry.
Context {R : Runtime}.

Lemma registry_inv_set types_by_id ids_by_type (i : Z) (tp : Ty) :
  registry_inv types_by_id ids_by_type →
  dict_get i types_by_id = None →
  registry_inv (dict_set i tp types_by_id) (dict_set tp i ids_by_type).
Proof.
  intros Hinv Hfree tp' i'. destruct (decide (tp = tp')) as [<-|Hne].
  - rewrite dict_get_set_eq. intros [= <-]. apply dict_get_set_eq.
  - rewrite dict_get_set_ne by done. intros Hget%Hinv.
    rewrite dict_get_set_ne; [done|]. intros <-. congruence.
Qed.

(** What a registration loop that succeeds has checked and built. *)
Lemma register_loop_spec base items : ∀ by_id by_tp by_id' by_tp',
  MessageProtocol.register_loop base items by_id by_tp = Ret (by_id', by_tp') →
  Forall (λ it, it.1 >= 0 ∧ is_ioprepped_dataclass it.2 = true
                ∧ issubclass it.2 base = true) items
  ∧ (∀ i, i ∈ dict_keys by_id' ↔ i ∈ dict_keys by_id ∨ i ∈ items.*1)
  ∧ (∀ tp, tp ∈ dict_keys by_tp' ↔ tp ∈ dict_keys by_tp ∨ tp ∈ items.*2)
  ∧ (∀ tp i, dict_get tp by_tp' = Some i →
             dict_get tp by_tp = Some i ∨ (i, tp) ∈ items)
  ∧ (registry_inv by_id by_tp → registry_inv by_id' by_tp')
  ∧ (dict_wf by_tp → dict_wf by_tp').
Proof.
  induction items as [|[m_id m_type] rest IH]; intros by_id by_tp by_id' by_tp'.
  - simpl. intros [= <- <-]. split_and!; try done.
    + intros i. rewrite elem_of_nil. tauto.
    + intros tp. rewrite elem_of_nil. tauto.
    + auto.
  - simpl. intros H.
    apply bind_Ret in H as ([] & Hge%assert_Ret & H).
    apply bind_Ret in H as ([] & Hcls%assert_Ret & H).
    apply bind_Ret in H as ([] & Hfree%assert_Ret & H).
    apply bool_decide_eq_true in Hge, Hfree.
    apply andb_true_iff in Hcls as [Hio Hsub].
    apply IH in H as (Hall & Hids & Htps & Hget & Hinv & Hwf).
    split_and!.
    + constructor; [done|exact Hall].
    + intros i. rewrite Hids, elem_of_dict_keys_set. simpl.
      rewrite elem_of_cons. tauto.
    + intros tp. rewrite Htps, elem_of_dict_keys_set. simpl.
      rewrite elem_of_cons. tauto.
    + intros tp i [Hg|Hin]%Hget.
      * destruct (decide (m_type = tp)) as [<-|Hne].
        -- rewrite dict_get_set_eq in Hg. injection Hg as <-.
           right. apply list_elem_of_here.
        -- rewrite dict_get_set_ne in Hg by done. by left.
      * right. by apply list_elem_of_further.
    + intros Hi. by apply Hinv, registry_inv_set.
    + intros Hw. by apply Hwf, dict_set_wf.
Qed.

(** What [_reg_if_not] does when it returns. *)
Lemma reg_if_not_spec reg_tp reg_id by_id by_tp by_id' by_tp' :
  MessageProtocol._reg_if_not reg_tp reg_id by_id by_tp = Ret (by_id', by_tp') →
  (reg_tp ∈ dict_keys by_tp ∧ by_id' = by_id ∧ by_tp' = by_tp)
  ∨ ((reg_tp ∉ dict_keys by_tp) ∧ dict_get reg_id by_id = None
     ∧ by_id' = dict_set reg_id reg_tp by_id
     ∧ by_tp' = dict_set reg_tp reg_id by_tp).
Proof.
  unfold MessageProtocol._reg_if_not.
  destruct (dict_contains reg_tp by_tp) eqn:E.
  - intros [= <- <-]. left. by apply dict_contains_true in E.
  - intros H. apply bind_Ret in H as ([] & Hfree%assert_Ret & [= <- <-]).
    apply bool_decide_eq_true in Hfree. right.
    by apply dict_contains_false in E.
Qed.

Lemma reg_if_not_inv reg_tp reg_id by_id by_tp by_id' by_tp' :
  MessageProtocol._reg_if_not reg_tp reg_id by_id by_tp = Ret (by_id', by_tp') →
  registry_inv by_id by_tp → registry_inv by_id' by_tp'.
Proof.
  intros [(_ & -> & ->)|(_ & Hfree & -> & ->)]%reg_if_not_spec Hinv; [done|].
  by apply registry_inv_set.
Qed.

(** The steps of a construction that succeeds. *)
Lemma init_Ret message_types response_types type_key pce lre ts p :
  MessageProtocol.__init__ message_types response_types type_key pce lre ts
    = Ret p →
  ∃ mbi mbt rbi0 rbt0 rbi1 rbt1 rbi2 rbt2 all,
    MessageProtocol.register_loop Message message_types [] [] = Ret (mbi, mbt)
    ∧ MessageProtocol.register_loop Response response_types [] []
        = Ret (rbi0, rbt0)
    ∧ MessageProtocol._reg_if_not ErrorResponse (-1) rbi0 rbt0
        = Ret (rbi1, rbt1)
    ∧ MessageProtocol._reg_if_not EmptyResponse (-2) rbi1 rbt1
        = Ret (rbi2, rbt2)
    ∧ MessageProtocol.collect_response_types message_types [] = Ret all
    ∧ MessageProtocol.check_response_types all rbt2 = Ret tt
    ∧ set_len (__name__ <$> dict_keys mbt) = length message_types
    ∧ p = MessageProtocol.mk mbi mbt rbi2 rbt2 type_key pce lre ts.
Proof.
  unfold MessageProtocol.__init__. intros H.
  apply bind_Ret in H as ([mbi mbt] & H1 & H).
  apply bind_Ret in H as ([rbi0 rbt0] & H2 & H).
  apply bind_Ret in H as ([rbi1 rbt1] & H3 & H).
  apply bind_Ret in H as ([rbi2 rbt2] & H4 & H).
  apply bind_Ret in H as (all & H5 & H).
  apply bind_Ret in H as ([] & H6 & H).
  simpl in H. destruct (bool_decide _) eqn:En in H; [discriminate|].
  apply bool_decide_eq_false in En. apply dec_stable in En.
  injection H as <-. by exists mbi, mbt, rbi0, rbt0, rbi1, rbt1, rbi2, rbt2, all.
Qed.

(** The flags of a constructed protocol are the arguments. *)
Lemma init_flags message_types response_types type_key pce lre ts p :
  MessageProtocol.__init__ message_types response_types type_key pce lre ts
    = Ret p →
  MessageProtocol._type_key p = type_key
  ∧ MessageProtocol.preserve_clean_errors p = pce
  ∧ MessageProtocol.log_remote_exceptions p = lre
  ∧ MessageProtocol.trusted_sender p = ts.
Proof. intros (?&?&?&?&?&?&?&?&?&_&_&_&_&_&_&_&->)%init_Ret. done. Qed.

(** In both registries of a constructed protocol the id a type is encoded
    with decodes to that type. *)
Lemma init_registry_inv message_types response_types type_key pce lre ts p :
  MessageProtocol.__init__ message_types response_types type_key pce lre ts
    = Ret p →
  registry_inv (MessageProtocol.message_types_by_id p)
    (MessageProtocol.message_ids_by_type p)
  ∧ registry_inv (MessageProtocol.response_types_by_id p)
      (MessageProtocol.response_ids_by_type p).
Proof.
  intros (mbi&mbt&rbi0&rbt0&rbi1&rbt1&rbi2&rbt2&all
          &H1&H2&H3&H4&_&_&_&->)%init_Ret. simpl.
  apply register_loop_spec in H1 as (_&_&_&_&Hm&_).
  apply register_loop_spec in H2 as (_&_&_&_&Hr&_).
  split; [by apply Hm|].
  eapply reg_if_not_inv; [exact H4|]. eapply reg_if_not_inv; [exact H3|].
  by apply Hr.
Qed.

(** Every registered type is a prepared dataclass of the right kind. *)
Lemma init_registered_classes message_types response_types type_key
    pce lre ts p :
  MessageProtocol.__init__ message_types response_types type_key pce lre ts
    = Ret p →
  (∀ tp, tp ∈ dict_keys (MessageProtocol.message_ids_by_type p) →
         tp ∈ message_types.*2 ∧ is_ioprepped_dataclass tp = true
         ∧ issubclass tp Message = true)
  ∧ (∀ tp, tp ∈ dict_keys (MessageProtocol.response_ids_by_type p) →
           is_ioprepped_dataclass tp = true ∧ issubclass tp Response = true).
Proof.
  intros (mbi&mbt&rbi0&rbt0&rbi1&rbt1&rbi2&rbt2&all
          &H1&H2&H3&H4&_&_&_&->)%init_Ret. simpl.
  apply register_loop_spec in H1 as (Hall1&_&Htp1&_).
  apply register_loop_spec in H2 as (Hall2&_&Htp2&_).
  assert (∀ base items tp,
    Forall (λ it : Z * Ty, it.1 >= 0 ∧ is_ioprepped_dataclass it.2 = true
              ∧ issubclass it.2 base = true) items →
    tp ∈ items.*2 →
    is_ioprepped_dataclass tp = true ∧ issubclass tp base = true) as Hcls.
  { intros base items tp Hall ([i tp'] & -> & Hin)%list_elem_of_fmap.
    rewrite Forall_forall in Hall. by destruct (Hall _ Hin) as (_ & ? & ?). }
  split.
  - intros tp [Hin|Hin]%Htp1; [by apply elem_of_nil in Hin|].
    split; [done|]. by eapply Hcls.
  - intros tp Hin.
    assert (tp ∈ dict_keys rbt0 ∨ tp = ErrorResponse ∨ tp = EmptyResponse)
      as [Hin0|[->| ->]]; [| |done..].
    { apply reg_if_not_spec in H4 as [(_&_&->)|(_&_&_&->)];
        apply reg_if_not_spec in H3 as [(_&_&->)|(_&_&_&->)];
        rewrite ?elem_of_dict_keys_set in Hin; tauto. }
    apply Htp2 in Hin0 as [Hin0|Hin0]; [by apply elem_of_nil in Hin0|].
    by eapply Hcls.
Qed.
End registry.

(** ** Names of the registered message types *)

Section unique_names.
Context {R : Runtime}.

Lemma set_len_le {A} `{EqDecision A} (l : list A) : (set_len l ≤ length l)%nat.
Proof.
  unfold set_len. induction l as [|x l IH]; simpl; [done|].
  destruct (decide_rel _ x l); simpl; lia.
Qed.

Lemma set_len_NoDup {A} `{EqDecision A} (l : list A) :
  set_len l = length l → NoDup l.
Proof.
  unfold set_len. induction l as [|x l IH]; simpl; [constructor|].
  pose proof (set_len_le l) as Hle. unfold set_len in Hle.
  destruct (decide_rel _ x l) as [Hin|Hnin]; simpl; [lia|].
  intros [= Hlen]. constructor; auto.
Qed.

(** What the check of lines 171-175 enforces: the message types passed to
    the constructor are distinct classes with distinct names. *)
Lemma init_message_names_unique message_types response_types type_key
    pce lre ts p :
  MessageProtocol.__init__ message_types response_types type_key pce lre ts
    = Ret p →
  NoDup (__name__ <$> message_types.*2).
Proof.
  intros (mbi&mbt&rbi0&rbt0&rbi1&rbt1&rbi2&rbt2&all
          &H1&_&_&_&_&_&Hlen&_)%init_Ret.
  apply register_loop_spec in H1 as (_ & _ & Htps & _ & _ & Hwf).
  specialize (Hwf (NoDup_nil_2 : dict_wf [])). unfold dict_wf in Hwf.
  assert (dict_keys mbt ⊆+ message_types.*2) as Hsub.
  { apply NoDup_submseteq; [done|]. intros tp [Hin|Hin]%Htps; [|done].
    by apply elem_of_nil in Hin. }
  pose proof (set_len_le (__name__ <$> dict_keys mbt)) as Hle.
  rewrite length_fmap in Hle.
  assert (dict_keys mbt ≡ₚ message_types.*2) as Hperm.
  { apply submseteq_length_Permutation; [done|].
    rewrite length_fmap. lia. }
  rewrite <- Hperm. apply set_len_NoDup.
  rewrite length_fmap. apply submseteq_length in Hsub.
  rewrite length_fmap in Hsub. lia.
Qed.
End unique_names.

(** ** Records of dataclass instances *)

Lemma dict_get_NoDup {K V} `{EqDecision K} (d : PyDict K V) k v :
  NoDup (dict_keys d) → (k, v) ∈ d → dict_get k d = Some v.
Proof.
  unfold dict_keys. induction d as [|[k' v'] d IH]; simpl.
  - by intros _ ?%elem_of_nil.
  - intros [Hnin Hnd]%NoDup_cons [[= -> ->]|Hin]%elem_of_cons.
    + by rewrite decide_True.
    + rewrite decide_False; [by apply IH|]. intros ->. apply Hnin.
      apply list_elem_of_fmap. by exists (k, v).
Qed.

Lemma json_wf_obj (d : PyDict string Json) :
  json_wf (JObj d) ↔ NoDup (dict_keys d) ∧ Forall (λ kv, json_wf kv.2) d.
Proof.
  unfold dict_keys. simpl. apply and_iff_compat_l.
  induction d as [|kv d IH]; simpl.
  - split; [constructor | done].
  - rewrite Forall_cons, IH. done.
Qed.

Lemma json_wf_value (v : Value) : json_wf (json_of_value v).
Proof. by destruct v. Qed.

Section dataclass_records.
Context {R : Runtime}.

Lemma value_to_json_typed ft v :
  value_has_type ft v = true → value_to_json ft v = Ret (json_of_value v).
Proof. by destruct ft, v. Qed.

Lemma value_from_json_typed ft v :
  value_has_type ft v = true → value_from_json ft (json_of_value v) = Ret v.
Proof. destruct ft, v; try done. by destruct e. Qed.

Lemma attrs_match_names fs attrs :
  attrs_match fs attrs = true → attrs.*1 = f_name <$> fs.
Proof.
  revert attrs. induction fs as [|f fs IH]; intros [|[n v] attrs]; simpl;
    try done.
  intros [[Hn%bool_decide_eq_true _]%andb_true_iff Hm]%andb_true_iff.
  f_equal; [done | by apply IH].
Qed.

Lemma record_of_keys fs attrs :
  attrs_match fs attrs = true →
  dict_keys (record_of fs attrs) = f_storage <$> fs.
Proof.
  unfold dict_keys. revert attrs.
  induction fs as [|f fs IH]; intros [|[n v] attrs]; simpl; try done.
  intros [_ Hm]%andb_true_iff. f_equal. by apply IH.
Qed.

Lemma record_of_wf fs attrs :
  attrs_match fs attrs = true → schema_wf fs = true →
  json_wf (JObj (record_of fs attrs)).
Proof.
  intros Hm [_ Hnd%bool_decide_eq_true]%andb_true_iff.
  apply json_wf_obj. rewrite record_of_keys by done. split; [done|].
  clear Hnd Hm. revert attrs.
  induction fs as [|f fs IH]; intros [|[n v] attrs]; simpl; try constructor.
  - apply json_wf_value.
  - apply IH.
Qed.

Lemma fields_to_dict_spec (x : Instance) fs : ∀ attrs out,
  attrs_match fs attrs = true →
  (∀ n v, (n, v) ∈ attrs → getattr x n = Ret v) →
  NoDup (f_storage <$> fs) →
  (∀ f, f ∈ fs → f_storage f ∉ dict_keys out) →
  fields_to_dict fs x out = Ret (out ++ record_of fs attrs).
Proof.
  induction fs as [|f fs IH]; intros [|[n v] attrs] out; simpl; try done.
  - intros _ _ _ _. by rewrite app_nil_r.
  - intros [[Hn%bool_decide_eq_true Hty]%andb_true_iff Hm]%andb_true_iff
      Hget [Hnin Hnd]%NoDup_cons Hout. subst n.
    rewrite (Hget (f_name f) v) by apply list_elem_of_here. simpl.
    rewrite value_to_json_typed by done. simpl.
    rewrite dict_set_fresh by (apply Hout, list_elem_of_here).
    rewrite (IH attrs); try done.
    + by rewrite <- app_assoc.
    + intros n' v' Hin. apply Hget. by apply list_elem_of_further.
    + intros f' Hf'. unfold dict_keys. rewrite fmap_app, elem_of_app. simpl.
      rewrite list_elem_of_singleton. intros [Hin|Heq].
      * by apply (Hout f'); [apply list_elem_of_further|].
      * apply Hnin. rewrite <- Heq. by apply list_elem_of_fmap_2.
Qed.

Lemma fields_from_dict_spec (d : PyDict string Json) fs : ∀ attrs,
  attrs_match fs attrs = true →
  (∀ k j, (k, j) ∈ record_of fs attrs → dict_get k d = Some j) →
  fields_from_dict fs d = Ret attrs.
Proof.
  induction fs as [|f fs IH]; intros [|[n v] attrs]; simpl; try done.
  intros [[Hn%bool_decide_eq_true Hty]%andb_true_iff Hm]%andb_true_iff Hget.
  subst n. rewrite (Hget (f_storage f) (json_of_value v))
    by apply list_elem_of_here.
  rewrite value_from_json_typed by done. simpl.
  rewrite (IH attrs); [done|done|].
  intros k j Hin. apply Hget. by apply list_elem_of_further.
Qed.

(** The record of a valid instance, and the instance read back from it. *)
Lemma dataclass_roundtrip (x : Instance) :
  valid_instance x = true →
  let d := record_of (c_fields (class_info (inst_type x))) (inst_attrs x) in
  dataclass_to_dict x = Ret d
  ∧ dataclass_from_dict (inst_type x) d = Ret x
  ∧ dict_keys d = storage_keys (inst_type x)
  ∧ json_wf (JObj d).
Proof.
  unfold valid_instance, dataclass_to_dict, dataclass_from_dict.
  intros [[Hio Hwf]%andb_true_iff Hm]%andb_true_iff. cbv zeta. rewrite Hio.
  pose proof Hwf as [Hnames%bool_decide_eq_true Hstore%bool_decide_eq_true]
    %andb_true_iff.
  split; [|split; [|split]].
  - rewrite (fields_to_dict_spec x _ (inst_attrs x) []); try done.
    + intros n v Hin. unfold getattr. rewrite (dict_get_NoDup _ n v); try done.
      unfold dict_keys. by rewrite (attrs_match_names _ _ Hm).
    + intros f _. apply not_elem_of_nil.
  - rewrite (fields_from_dict_spec _ _ (inst_attrs x)); try done.
    + simpl. by destruct x.
    + intros k j Hin. apply dict_get_NoDup; [|done].
      by rewrite record_of_keys.
  - by apply record_of_keys.
  - by apply record_of_wf.
Qed.

(** The two response classes of the module itself. *)
Lemma new_ErrorResponse_valid msg e :
  valid_instance (new_ErrorResponse msg e) = true.
Proof. reflexivity. Qed.

Lemma new_EmptyResponse_valid : valid_instance new_EmptyResponse = true.
Proof. reflexivity. Qed.
End dataclass_records.

(** ** The codec on wire records *)

Section codec.
Context {R : Runtime}.
Implicit Types (p : MessageProtocol.t) (x : Instance).

(** A well-formed record with a fresh type key or an envelope is a
    well-formed JSON value. *)
Lemma wire_record_wf type_key m_id (d : PyDict string Json) :
  json_wf (JObj d) →
  json_wf (wire_record type_key m_id d).
Proof.
  intros Hwf. destruct type_key as [key|]; simpl wire_record.
  - apply json_wf_obj in Hwf as [Hnd Hall]. apply json_wf_obj. split.
    + by apply dict_set_wf.
    + by apply Forall_dict_set.
  - apply json_wf_obj. split.
    + unfold dict_keys. simpl. apply NoDup_cons. split.
      * rewrite list_elem_of_singleton. discriminate.
      * apply NoDup_singleton.
    + constructor; [exact Hwf|]. constructor; [done | constructor].
Qed.

(** Encoding: the wire record of the type's id and the instance's
    record, unless the type key is one of the record's keys. *)
Lemma encode_Ret p x ids_by_type opname m_id d :
  dict_get (inst_type x) ids_by_type = Some m_id →
  dataclass_to_dict x = Ret d →
  (∀ key, MessageProtocol._type_key p = Some key → key ∉ dict_keys d) →
  MessageProtocol._encode p x ids_by_type opname
  = Ret (json_dumps (wire_record (MessageProtocol._type_key p) m_id d)).
Proof.
  intros Hid Hd Hkey. unfold MessageProtocol._encode. rewrite Hid, Hd. simpl.
  destruct (MessageProtocol._type_key p) as [key|]; simpl; [|done].
  specialize (Hkey key eq_refl). apply dict_contains_false in Hkey.
  by rewrite Hkey.
Qed.

(** What [_encode] has done when it returns bytes. *)
Lemma encode_Ret_inv p x ids_by_type opname data :
  MessageProtocol._encode p x ids_by_type opname = Ret data →
  ∃ m_id d,
    dict_get (inst_type x) ids_by_type = Some m_id
    ∧ dataclass_to_dict x = Ret d
    ∧ (∀ key, MessageProtocol._type_key p = Some key → key ∉ dict_keys d)
    ∧ data = json_dumps (wire_record (MessageProtocol._type_key p) m_id d).
Proof.
  unfold MessageProtocol._encode.
  destruct (dict_get _ _) as [m_id|]; [|discriminate].
  destruct (dataclass_to_dict x) as [d|]; [|discriminate]. simpl.
  destruct (MessageProtocol._type_key p) as [key|]; simpl.
  - destruct (dict_contains key d) eqn:E; [discriminate|].
    intros [= <-]. exists m_id, d. split_and!; try done.
    intros ? [= <-]. by apply dict_contains_false.
  - intros [= <-]. exists m_id, d. by split_and!.
Qed.

(** Encoding fails when the type key is one of the record's keys. *)
Lemma encode_type_key_collision p x ids_by_type opname m_id d key :
  dict_get (inst_type x) ids_by_type = Some m_id →
  dataclass_to_dict x = Ret d →
  MessageProtocol._type_key p = Some key →
  key ∈ dict_keys d →
  ∃ text, MessageProtocol._encode p x ids_by_type opname
          = Raise (mkExc RuntimeError text).
Proof.
  intros Hid Hd Hkey Hin. unfold MessageProtocol._encode.
  rewrite Hid, Hd, Hkey. simpl. apply dict_contains_true in Hin.
  rewrite Hin. by eexists.
Qed.

Context {L : RuntimeLaws R}.

(** Decoding a wire record: the id is resolved in the registry and the
    instance is read from the record. *)
Lemma decode_wire_record p types_by_id opname m_id d msgtype :
  json_wf (JObj d) →
  (∀ key, MessageProtocol._type_key p = Some key → key ∉ dict_keys d) →
  dict_get m_id types_by_id = Some msgtype →
  MessageProtocol._decode p
    (json_dumps (wire_record (MessageProtocol._type_key p) m_id d))
    types_by_id opname
  = out ← dataclass_from_dict msgtype d;
    MessageProtocol._decode_special_cases p opname out.
Proof.
  intros Hwf Hkey Hty. unfold MessageProtocol._decode.
  rewrite json_loads_dumps by by apply wire_record_wf.
  destruct (MessageProtocol._type_key p) as [key|]; simpl.
  - specialize (Hkey key eq_refl). apply dict_contains_false in Hkey.
    rewrite dict_pop_set_fresh by done. simpl. by rewrite Hty.
  - by rewrite Hty.
Qed.
End codec.

Lemma dict_get_is_Some {K V} `{EqDecision K} (d : PyDict K V) k :
  k ∈ dict_keys d → ∃ v, dict_get k d = Some v.
Proof.
  intros Hin. destruct (dict_get k d) as [v|] eqn:E; [by exists v|].
  by apply dict_get_None in E.
Qed.

Section registry_reserved.
Context {R : Runtime}.

(** The ids of both registration loops are non-negative. *)
Lemma register_loop_ids_nonneg base items by_id by_tp i :
  MessageProtocol.register_loop base items [] [] = Ret (by_id, by_tp) →
  i ∈ dict_keys by_id → 0 ≤ i.
Proof.
  intros (Hall & Hids & _)%register_loop_spec [Hin|Hin]%Hids.
  - by apply elem_of_nil in Hin.
  - apply list_elem_of_fmap in Hin as ([i' tp] & -> & Hin).
    rewrite Forall_forall in Hall. destruct (Hall _ Hin) as [Hge _].
    simpl in *. lia.
Qed.

(** The two automatic registrations, after a response loop. *)
Lemma reserved_registrations rbi0 rbt0 rbi1 rbt1 rbi2 rbt2 :
  (∀ i, i ∈ dict_keys rbi0 → 0 ≤ i) →
  MessageProtocol._reg_if_not ErrorResponse (-1) rbi0 rbt0 = Ret (rbi1, rbt1) →
  MessageProtocol._reg_if_not EmptyResponse (-2) rbi1 rbt1 = Ret (rbi2, rbt2) →
  (ErrorResponse ∉ dict_keys rbt0 →
     dict_get ErrorResponse rbt2 = Some (-1)
     ∧ dict_get (-1) rbi2 = Some ErrorResponse)
  ∧ (EmptyResponse ∉ dict_keys rbt0 →
     dict_get EmptyResponse rbt2 = Some (-2)
     ∧ dict_get (-2) rbi2 = Some EmptyResponse)
  ∧ (ErrorResponse ∈ dict_keys rbt0 →
     dict_get ErrorResponse rbt2 = dict_get ErrorResponse rbt0
     ∧ dict_get (-1) rbi2 = None)
  ∧ (EmptyResponse ∈ dict_keys rbt0 →
     dict_get EmptyResponse rbt2 = dict_get EmptyResponse rbt0
     ∧ dict_get (-2) rbi2 = None).
Proof.
  intros Hnonneg H1 H2.
  assert (dict_get (-1) rbi0 = None ∧ dict_get (-2) rbi0 = None) as [Hf1 Hf2].
  { split; apply dict_get_None; intros Hin%Hnonneg; lia. }
  apply reg_if_not_spec in H1 as [(Hin1 & -> & ->)|(Hnin1 & _ & -> & ->)];
    apply reg_if_not_spec in H2 as [(Hin2 & -> & ->)|(Hnin2 & _ & -> & ->)];
    rewrite ?elem_of_dict_keys_set in *;
    rewrite ?dict_get_set_eq, ?(dict_get_set_ne (K:=Ty)),
      ?(dict_get_set_ne (K:=Z)) by done;
    rewrite ?dict_get_set_eq;
    split_and!; intros; split_and?; try done; try tauto; naive_solver.
Qed.
End registry_reserved.

(** The example runtime satisfies the law of the JSON codec. *)
#[global] Instance example_runtime_laws : RuntimeLaws Example.runtime.
Proof. constructor. intros j _. reflexivity. Qed.

(** The example protocols are what the constructor builds, and the example
    receiver is what registering the two handlers gives. *)
Lemma example_protocol_constructed (type_key : option string) :
  MessageProtocol.__init__
    [(1, Example.Ping); (2, Example.Shutdown)] [(0, Example.Pong)]
    type_key true false false
  = Ret (Example.protocol_with type_key).
Proof. reflexivity. Qed.

Lemma example_protocol_echo_constructed :
  MessageProtocol.__init__ [(0, Example.Echo)] [(0, Example.Echo)]
    None true false false
  = Ret Example.protocol_echo.
Proof. reflexivity. Qed.

Lemma example_receiver_registered :
  (r ← MessageReceiver.register_handler
         (MessageReceiver.__init__ Example.protocol) Example.handle_ping;
   MessageReceiver.register_handler r Example.handle_shutdown)
  = Ret Example.receiver.
Proof. reflexivity. Qed.

Section codec_properties.
Context {R : Runtime} {L : RuntimeLaws R}.
Implicit Types (p : MessageProtocol.t) (x : Instance).

(** ErrorResponse and EmptyResponse are registered in every protocol. *)
Lemma init_reserved_registered message_types response_types type_key
    pce lre ts p :
  MessageProtocol.__init__ message_types response_types type_key pce lre ts
    = Ret p →
  ErrorResponse ∈ dict_keys (MessageProtocol.response_ids_by_type p)
  ∧ EmptyResponse ∈ dict_keys (MessageProtocol.response_ids_by_type p).
Proof.
  intros (mbi&mbt&rbi0&rbt0&rbi1&rbt1&rbi2&rbt2&all
          &_&_&H3&H4&_&_&_&->)%init_Ret. simpl.
  apply reg_if_not_spec in H3 as [(?&_&->)|(_&_&_&->)];
    apply reg_if_not_spec in H4 as [(?&_&->)|(_&_&_&->)];
    rewrite ?elem_of_dict_keys_set in *; tauto.
Qed.

(** Decoding the encoding of an EmptyResponse gives [None]. *)
Lemma decode_special_EmptyResponse p opname x :
  isinstance x EmptyResponse = true →
  MessageProtocol._decode_special_cases p opname x = Ret None.
Proof. unfold MessageProtocol._decode_special_cases. by intros ->. Qed.

(** Decoding an ErrorResponse raises it as a local exception. *)
Lemma decode_special_ErrorResponse p msg e :
  MessageProtocol._decode_special_cases p "response" (new_ErrorResponse msg e)
  = Raise (mkExc (if MessageProtocol.preserve_clean_errors p
                     && bool_decide (e = CLEAN)
                  then CleanError else RemoteError) msg).
Proof.
  unfold MessageProtocol._decode_special_cases. simpl.
  destruct (MessageProtocol.preserve_clean_errors p); simpl; [|done].
  by destruct e.
Qed.

Lemma decode_special_other p opname x :
  isinstance x EmptyResponse = false →
  isinstance x ErrorResponse = false →
  MessageProtocol._decode_special_cases p opname x = Ret (Some x).
Proof. unfold MessageProtocol._decode_special_cases. by intros -> ->. Qed.

(** Encoding a valid instance of a registered type, with a type key that
    is not one of its storage keys, produces bytes. *)
Lemma encode_valid_Ret p x ids_by_type opname :
  valid_instance x = true →
  (∀ key, MessageProtocol._type_key p = Some key →
          key ∉ storage_keys (inst_type x)) →
  inst_type x ∈ dict_keys ids_by_type →
  ∃ data, MessageProtocol._encode p x ids_by_type opname = Ret data.
Proof.
  intros Hvalid Hkey [m_id Hid]%dict_get_is_Some.
  destruct (dataclass_roundtrip x Hvalid) as (Hto & _ & Hkeys & _).
  eexists. eapply encode_Ret; [done..|].
  intros key Hk. rewrite Hkeys. auto.
Qed.

(** Decoding the bytes of a valid instance, in the registry the id came
    from, reads the instance back, up to the two special cases. *)
Lemma decode_encoded p x ids_by_type types_by_id opname data :
  registry_inv types_by_id ids_by_type →
  valid_instance x = true →
  MessageProtocol._encode p x ids_by_type opname = Ret data →
  inst_type x ∈ dict_keys ids_by_type
  ∧ MessageProtocol._decode p data types_by_id opname
    = MessageProtocol._decode_special_cases p opname x.
Proof.
  intros Hinv Hvalid (m_id & d & Hid & Hd & Hkey & ->)%encode_Ret_inv.
  destruct (dataclass_roundtrip x Hvalid) as (Hto & Hfrom & _ & Hwf).
  rewrite Hto in Hd. injection Hd as <-.
  split; [by eapply dict_get_Some_key|].
  erewrite decode_wire_record; [|done|done|by apply Hinv].
  by rewrite Hfrom.
Qed.

(** C1, as amended: in a constructed protocol, decoding the bytes that
    encoding a valid instance produced returns an instance equal to the
    original, for messages and for responses, unless the instance is an
    EmptyResponse or an ErrorResponse: an EmptyResponse is decoded as
    [None], and an ErrorResponse is raised as a CleanError (when clean
    errors are preserved and the error is CLEAN) or as a RemoteError, with
    its message. Encoding produces bytes for every valid instance of a
    registered type unless the type key is one of its storage keys. *)
Theorem codec_roundtrip message_types response_types type_key pce lre ts p x :
  MessageProtocol.__init__ message_types response_types type_key pce lre ts
    = Ret p →
  valid_instance x = true →
  (∀ data,
     MessageProtocol.encode_message p x = Ret data →
     isinstance x EmptyResponse = false →
     isinstance x ErrorResponse = false →
     MessageProtocol.decode_message p data = Ret x)
  ∧ (∀ data,
       MessageProtocol.encode_response p x = Ret data →
       isinstance x EmptyResponse = false →
       isinstance x ErrorResponse = false →
       MessageProtocol.decode_response p data = Ret (Some x))
  ∧ (∀ data,
       MessageProtocol.encode_response p x = Ret data →
       isinstance x EmptyResponse = true →
       MessageProtocol.decode_response p data = Ret None)
  ∧ (∀ data msg e,
       x = new_ErrorResponse msg e →
       MessageProtocol.encode_response p x = Ret data →
       MessageProtocol.decode_response p data
       = Raise (mkExc (if pce && bool_decide (e = CLEAN)
                       then CleanError else RemoteError) msg))
  ∧ ((∀ key, type_key = Some key → key ∉ storage_keys (inst_type x)) →
     (inst_type x ∈ dict_keys (MessageProtocol.message_ids_by_type p) →
      ∃ data, MessageProtocol.encode_message p x = Ret data)
     ∧ (inst_type x ∈ dict_keys (MessageProtocol.response_ids_by_type p) →
        ∃ data, MessageProtocol.encode_response p x = Ret data)).
Proof.
  intros Hinit Hvalid.
  destruct (init_registry_inv _ _ _ _ _ _ _ Hinit) as [Hminv Hrinv].
  destruct (init_registered_classes _ _ _ _ _ _ _ Hinit) as [Hmcls Hrcls].
  destruct (init_flags _ _ _ _ _ _ _ Hinit) as (Htk & Hpce & _).
  split_and!.
  - intros data Henc Hne Hnr.
    destruct (decode_encoded p x _ _ "message" data Hminv Hvalid Henc)
      as [Hreg Hdec].
    unfold MessageProtocol.decode_message.
    rewrite Hdec, decode_special_other by done. simpl.
    destruct (Hmcls _ Hreg) as (_ & _ & Hsub).
    unfold isinstance. by rewrite Hsub.
  - intros data Henc Hne Hnr.
    destruct (decode_encoded p x _ _ "response" data Hrinv Hvalid Henc)
      as [Hreg Hdec].
    unfold MessageProtocol.decode_response.
    rewrite Hdec, decode_special_other by done. simpl.
    destruct (Hrcls _ Hreg) as (_ & Hsub).
    unfold isinstance. by rewrite Hsub.
  - intros data Henc He.
    destruct (decode_encoded p x _ _ "response" data Hrinv Hvalid Henc)
      as [_ Hdec].
    unfold MessageProtocol.decode_response.
    by rewrite Hdec, decode_special_EmptyResponse.
  - intros data msg e -> Henc.
    destruct (decode_encoded p _ _ _ "response" data Hrinv Hvalid Henc)
      as [_ Hdec].
    unfold MessageProtocol.decode_response.
    by rewrite Hdec, decode_special_ErrorResponse, Hpce.
  - intros Hkey. rewrite <- Htk in Hkey.
    split; intros Hreg; by apply encode_valid_Ret.
Qed.
End codec_properties.

(** A [Ping] is encoded, and read back by [decode_message]. *)
Lemma codec_roundtrip_witness :
  ∃ data,
    MessageProtocol.encode_message Example.protocol (Example.ping "hello")
      = Ret data
    ∧ MessageProtocol.decode_message Example.protocol data
      = Ret (Example.ping "hello").
Proof.
  destruct (codec_roundtrip [(1, Example.Ping); (2, Example.Shutdown)]
              [(0, Example.Pong)] None true false false Example.protocol
              (Example.ping "hello")) as (Hmsg & _ & _ & _ & Henc);
    [reflexivity | reflexivity |].
  destruct Henc as [[data Hdata] _].
  - discriminate.
  - vm_compute. apply list_elem_of_here.
  - exists data. split; [done|]. by apply Hmsg.
Defined.

(** C1 fails as stated: EmptyResponse is registered in the example protocol
    and its instance is valid, but decoding its encoding gives [None], not
    the instance. *)
Lemma roundtrip_fails_for_EmptyResponse :
  ∃ data,
    EmptyResponse ∈ dict_keys
      (MessageProtocol.response_ids_by_type Example.protocol)
    ∧ valid_instance new_EmptyResponse = true
    ∧ MessageProtocol.encode_response Example.protocol new_EmptyResponse
      = Ret data
    ∧ MessageProtocol.decode_response Example.protocol data = Ret None
    ∧ MessageProtocol.decode_response Example.protocol data
      ≠ Ret (Some new_EmptyResponse).
Proof.
  eexists. split_and!; [|reflexivity|reflexivity|reflexivity|discriminate].
  vm_compute. do 2 apply list_elem_of_further. apply list_elem_of_here.
Qed.

Section auto_registration.
Context {R : Runtime} {L : RuntimeLaws R}.

(** C5, as amended: a constructed protocol whose [response_types] do not
    mention ErrorResponse (EmptyResponse) has it registered under the id
    -1 (-2), in both directions: the type is encoded with that id and the
    id is decoded to the type. The encoding of an EmptyResponse carries
    -2 and is decoded as [None]; the encoding of an ErrorResponse carries
    -1 and is decoded by raising it, whenever the type key is neither
    [m] nor [t], the keys under which an ErrorResponse stores its
    fields. A type the caller registered keeps an id of the caller's,
    and the reserved id stays unused. *)
Theorem auto_registration message_types response_types type_key pce lre ts p :
  MessageProtocol.__init__ message_types response_types type_key pce lre ts
    = Ret p →
  let ids := MessageProtocol.response_ids_by_type p in
  let types := MessageProtocol.response_types_by_id p in
  (ErrorResponse ∉ response_types.*2 →
     dict_get ErrorResponse ids = Some (-1)
     ∧ dict_get (-1) types = Some ErrorResponse
     ∧ ∀ msg e,
         (∀ key, type_key = Some key → key ∉ ["m"; "t"]%string) →
         let data :=
           json_dumps (wire_record type_key (-1)
             [("m", JStr msg); ("t", JInt (ErrorType_value e))]%string) in
         MessageProtocol.encode_response p (new_ErrorResponse msg e)
           = Ret data
         ∧ MessageProtocol.decode_response p data
           = Raise (mkExc (if pce && bool_decide (e = CLEAN)
                           then CleanError else RemoteError) msg))
  ∧ (EmptyResponse ∉ response_types.*2 →
     dict_get EmptyResponse ids = Some (-2)
     ∧ dict_get (-2) types = Some EmptyResponse
     ∧ let data := json_dumps (wire_record type_key (-2) []) in
       MessageProtocol.encode_response p new_EmptyResponse = Ret data
       ∧ MessageProtocol.decode_response p data = Ret None)
  ∧ (ErrorResponse ∈ response_types.*2 →
     ∃ i, (i, ErrorResponse) ∈ response_types ∧ 0 ≤ i
          ∧ dict_get ErrorResponse ids = Some i
          ∧ dict_get i types = Some ErrorResponse
          ∧ dict_get (-1) types = None)
  ∧ (EmptyResponse ∈ response_types.*2 →
     ∃ i, (i, EmptyResponse) ∈ response_types ∧ 0 ≤ i
          ∧ dict_get EmptyResponse ids = Some i
          ∧ dict_get i types = Some EmptyResponse
          ∧ dict_get (-2) types = None).
Proof.
  intros Hinit ids types.
  destruct (init_registry_inv _ _ _ _ _ _ _ Hinit) as [_ Hrinv].
  destruct (init_flags _ _ _ _ _ _ _ Hinit) as (Htk & Hpce & _).
  pose proof Hinit as (mbi&mbt&rbi0&rbt0&rbi1&rbt1&rbi2&rbt2&all
          &_&H2&H3&H4&_&_&_&Hp)%init_Ret.
  assert (ids = rbt2) as Hids by (by subst p).
  assert (types = rbi2) as Htypes by (by subst p).
  destruct (reserved_registrations _ _ _ _ _ _
              (λ i, register_loop_ids_nonneg _ _ _ _ i H2) H3 H4)
    as (Herr & Hemp & Herr' & Hemp').
  apply register_loop_spec in H2 as (Hall & _ & Htps & Hget & _).
  assert (∀ tp, tp ∈ dict_keys rbt0 ↔ tp ∈ response_types.*2) as Hkeys.
  { intros tp. rewrite Htps, elem_of_nil. tauto. }
  assert (∀ tp, tp ∈ response_types.*2 →
            dict_get tp ids = dict_get tp rbt0 →
            ∃ i, (i, tp) ∈ response_types ∧ 0 ≤ i
                 ∧ dict_get tp ids = Some i ∧ dict_get i types = Some tp)
    as Hexplicit.
  { intros tp [i Hi]%Hkeys%dict_get_is_Some Heq. exists i.
    destruct (Hget _ _ Hi) as [Hnil|Hin]; [done|].
    rewrite Forall_forall in Hall. destruct (Hall _ Hin) as [Hge _].
    simpl in Hge. rewrite Heq. split_and!; [done|lia|done|].
    apply Hrinv. fold ids. congruence. }
  rewrite Hids, Htypes. rewrite Hids, Htypes in Hexplicit.
  clear Hids Htypes Htk Hpce. subst p ids types.
  set (p := MessageProtocol.mk mbi mbt rbi2 rbt2 type_key pce lre ts) in *.
  split_and!.
  - intros Hnin. rewrite <- Hkeys in Hnin.
    destruct (Herr Hnin) as [Hid Hty]. split_and!; [done..|].
    intros msg e Hkey data.
    assert (MessageProtocol.encode_response p (new_ErrorResponse msg e)
            = Ret data) as Henc.
    { unfold MessageProtocol.encode_response.
      by apply (encode_Ret p). }
    split; [done|]. unfold MessageProtocol.decode_response, data.
    rewrite (decode_wire_record p _ _ _ _ ErrorResponse).
    + assert (dataclass_from_dict ErrorResponse
                [("m", JStr msg); ("t", JInt (ErrorType_value e))]%string
              = Ret (new_ErrorResponse msg e)) as -> by (by destruct e).
      cbn [mbind Res_bind].
      by rewrite decode_special_ErrorResponse.
    + change (json_wf (JObj (record_of (c_fields (class_info ErrorResponse))
                                (inst_attrs (new_ErrorResponse msg e))))).
      by apply record_of_wf.
    + done.
    + done.
  - intros Hnin. rewrite <- Hkeys in Hnin.
    destruct (Hemp Hnin) as [Hid Hty]. split_and!; [done..|].
    intros data.
    assert (MessageProtocol.encode_response p new_EmptyResponse = Ret data)
      as Henc.
    { unfold MessageProtocol.encode_response.
      apply (encode_Ret p); [done|done|].
      intros key _. apply not_elem_of_nil. }
    split; [done|]. unfold MessageProtocol.decode_response, data.
    rewrite (decode_wire_record p _ _ _ _ EmptyResponse).
    + reflexivity.
    + apply json_wf_obj. split; constructor.
    + intros key _. apply not_elem_of_nil.
    + done.
  - intros Hin. destruct (Herr' (proj2 (Hkeys _) Hin)) as [Heq Hfree].
    destruct (Hexplicit _ Hin Heq) as (i & ? & ? & ? & ?). by exists i.
  - intros Hin. destruct (Hemp' (proj2 (Hkeys _) Hin)) as [Heq Hfree].
    destruct (Hexplicit _ Hin Heq) as (i & ? & ? & ? & ?). by exists i.
Qed.
End auto_registration.

(** The example protocol registers only [Pong]; ErrorResponse is found
    under -1. *)
Lemma auto_registration_witness :
  dict_get ErrorResponse (MessageProtocol.response_ids_by_type Example.protocol)
    = Some (-1)
  ∧ dict_get (-1) (MessageProtocol.response_types_by_id Example.protocol)
    = Some ErrorResponse.
Proof.
  destruct (auto_registration [(1, Example.Ping); (2, Example.Shutdown)]
              [(0, Example.Pong)] None true false false Example.protocol)
    as (Herr & _); [reflexivity|].
  destruct Herr as (Hid & Hty & _); [|by split].
  vm_compute. intros Hin. apply list_elem_of_singleton in Hin. discriminate.
Defined.

(** C5 (the claim as stated fails): the protocol of the example with
    [type_key='t'] is constructed without explicit registrations of
    ErrorResponse and EmptyResponse, ErrorResponse is registered under -1,
    and no ErrorResponse can be encoded: its fields are stored under [m]
    and [t], and [_encode] refuses an instance whose stored keys include
    the type key. *)
Lemma auto_registered_ErrorResponse_not_encodable :
  MessageProtocol.__init__
    [(1, Example.Ping); (2, Example.Shutdown)] [(0, Example.Pong)]
    (Some "t"%string) true false false
  = Ret Example.protocol_t
  ∧ (ErrorResponse ∉ [(0, Example.Pong)].*2)
  ∧ (EmptyResponse ∉ [(0, Example.Pong)].*2)
  ∧ dict_get ErrorResponse
      (MessageProtocol.response_ids_by_type Example.protocol_t) = Some (-1)
  ∧ ∀ msg e,
      MessageProtocol.encode_response Example.protocol_t
        (new_ErrorResponse msg e)
      = Raise (mkExc RuntimeError
          "Type-key t found in msg of type <class 'efro.message.ErrorResponse'>").
Proof.
  split_and!; try reflexivity.
  - vm_compute. intros Hin%list_elem_of_singleton. discriminate.
  - vm_compute. intros Hin%list_elem_of_singleton. discriminate.
Qed.

Section determinism.
Context {R : Runtime}.



End determinism.


(** ** Coverage validation *)

Section validate.
Context {R : Runtime}.
Implicit Types (self : MessageReceiver.t) (msgtype : Ty).

Lemma validate_loop_pass self warn_only msgtypes :
  Forall (covered self) msgtypes →
  MessageReceiver.validate_loop self warn_only msgtypes = ([], Ret tt).
Proof.
  induction 1 as [|msgtype rest Hc _ IH]; simpl; [done|].
  destruct (issubclass msgtype Response) eqn:Es; [done|].
  destruct Hc as [Hc|Hc]; [congruence|].
  apply dict_contains_true in Hc. by rewrite Hc.
Qed.

Lemma validate_loop_raise self warn_only msgtypes logs exc :
  MessageReceiver.validate_loop self warn_only msgtypes = (logs, Raise exc) →
  ∃ msgtype, msgtype ∈ msgtypes
    ∧ issubclass msgtype Response = false
    ∧ (msgtype ∉ dict_keys (MessageReceiver._handlers self))
    ∧ exc = mkExc TypeError (MessageReceiver.not_handled_msg msgtype)
    ∧ logs = (if warn_only then [mkLog WARNING (MessageReceiver.not_handled_msg msgtype)]
              else []).
Proof.
  induction msgtypes as [|msgtype rest IH]; simpl; [discriminate|].
  destruct (issubclass msgtype Response) eqn:Es.
  - intros (t & ? & ?)%IH. exists t. split; [by apply list_elem_of_further|done].
  - destruct (dict_contains msgtype _) eqn:Ec; simpl.
    + intros (t & ? & ?)%IH. exists t.
      split; [by apply list_elem_of_further|done].
    + intros [= <- <-]. exists msgtype. apply dict_contains_false in Ec.
      split_and!; try done. apply list_elem_of_here.
Qed.

(** [warn_only] changes what is logged, never the outcome. *)
Lemma validate_outcome_ignores_warn_only self :
  (MessageReceiver.validate self true).2
  = (MessageReceiver.validate self false).2.
Proof.
  unfold MessageReceiver.validate.
  induction (dict_keys _) as [|msgtype rest IH]; simpl; [done|].
  destruct (issubclass msgtype Response); [done|].
  by destruct (dict_contains msgtype _).
Qed.

(** With full coverage [validate] returns normally in both modes. *)
Lemma validate_all_handled self warn_only :
  (∀ msgtype,
     msgtype ∈ dict_keys
       (MessageProtocol.message_ids_by_type (MessageReceiver._protocol self)) →
     msgtype ∈ dict_keys (MessageReceiver._handlers self)) →
  MessageReceiver.validate self warn_only = ([], Ret tt).
Proof.
  intros Hall. apply validate_loop_pass, Forall_forall.
  intros msgtype Hin. right. auto.
Qed.

(** Without [warn_only] a missing handler is a TypeError. *)
Lemma validate_missing_handler_raises self msgtype :
  msgtype ∈ dict_keys
    (MessageProtocol.message_ids_by_type (MessageReceiver._protocol self)) →
  issubclass msgtype Response = false →
  msgtype ∉ dict_keys (MessageReceiver._handlers self) →
  ∃ t, MessageReceiver.validate self false
       = ([], Raise (mkExc TypeError (MessageReceiver.not_handled_msg t))).
Proof.
  unfold MessageReceiver.validate.
  induction (dict_keys _) as [|t rest IH]; simpl.
  - by intros ?%elem_of_nil.
  - intros Hin Hs Hh. destruct (issubclass t Response) eqn:Es.
    + apply IH; try done. apply elem_of_cons in Hin as [->|]; [congruence|done].
    + destruct (dict_contains t _) eqn:Ec; simpl; [|by eexists].
      apply IH; try done. apply elem_of_cons in Hin as [->|]; [|done].
      apply dict_contains_true in Ec. done.
Qed.

(** C10: [validate] skips every registered message type that is also a
    subclass of Response. When each registered message type without a
    handler is such a type, [validate] returns normally in both modes and
    logs nothing; and the type a failing [validate] reports is never a
    subclass of Response. *)
Theorem validate_skips_response_subclasses self warn_only :
  (∀ msgtype,
     msgtype ∈ dict_keys
       (MessageProtocol.message_ids_by_type (MessageReceiver._protocol self)) →
     msgtype ∉ dict_keys (MessageReceiver._handlers self) →
     issubclass msgtype Response = true) →
  MessageReceiver.validate self warn_only = ([], Ret tt)
  ∧ ∀ self' warn_only' logs exc,
      MessageReceiver.validate self' warn_only' = (logs, Raise exc) →
      ∃ msgtype, issubclass msgtype Response = false
                 ∧ exc = mkExc TypeError (MessageReceiver.not_handled_msg msgtype).
Proof.
  intros Hskip. split.
  - apply validate_loop_pass, Forall_forall. intros msgtype Hin.
    destruct (decide (msgtype ∈ dict_keys (MessageReceiver._handlers self)));
      [by right | left; auto].
  - intros self' w logs exc (t & _ & Hs & _ & -> & _)%validate_loop_raise.
    by exists t.
Qed.
End validate.

(** A protocol whose only message type, [Echo], is also a Response, and a
    receiver for it without any handler: [validate] passes in both modes. *)
Lemma validate_skips_response_subclasses_witness :
  MessageReceiver.validate
    (MessageReceiver.__init__ Example.protocol_echo) true = ([], Ret tt)
  ∧ MessageReceiver.validate
      (MessageReceiver.__init__ Example.protocol_echo) false = ([], Ret tt).
Proof.
  split;
    apply (validate_skips_response_subclasses
             (MessageReceiver.__init__ Example.protocol_echo));
    intros msgtype Hin _; vm_compute in Hin;
    apply list_elem_of_singleton in Hin as ->; reflexivity.
Defined.

(** C6 (the code departs from the claim): with [warn_only=True] and a
    message type without a handler, [validate] logs the warning and then
    raises the TypeError all the same. Here [Ping] has no handler. *)
Theorem validate_warn_only_raises :
  MessageReceiver.validate (MessageReceiver.__init__ Example.protocol) true
  = ([mkLog WARNING (MessageReceiver.not_handled_msg Example.Ping)],
     Raise (mkExc TypeError (MessageReceiver.not_handled_msg Example.Ping))).
Proof. reflexivity. Qed.

(** ** Handler registration *)

Section register_handler.
Context {R : Runtime}.
Implicit Types (self : MessageReceiver.t) (call : Callable).

(** A return annotation of [None] declares EmptyResponse. *)
Lemma return_types_None :
  MessageReceiver.return_types (Some (HintType NoneType)) = Ret [EmptyResponse].
Proof. reflexivity. Qed.

(** A [Union] declares its members, NoneType read as EmptyResponse. *)
Lemma return_types_Union (tps : list Ty) :
  MessageReceiver.return_types (Some (HintGeneric (Some <$> tps)))
  = Ret (MessageReceiver.none_to_empty <$> tps).
Proof.
  unfold MessageReceiver.return_types.
  assert (forallb (λ a : option Ty, bool_decide (is_Some a)) (Some <$> tps)
          = true) as ->.
  { apply forallb_forall. intros a [tp [<- _]]%in_map_iff.
    apply bool_decide_eq_true. by eexists. }
  do 2 f_equal. induction tps as [|tp tps IH]; [done|].
  simpl. f_equal. exact IH.
Qed.

(** The three checks of a registration, for a handler whose signature
    passed the checks before them. *)
Lemma register_handler_checks self call msgtype responsetypes :
  sig_args call = ["self"; "msg"]%string →
  ann_msg call = Some (HintType msgtype) →
  issubclass msgtype Message = true →
  MessageReceiver.return_types (ann_return call) = Ret responsetypes →
  let registered :=
    msgtype ∈ dict_keys
      (MessageProtocol.message_ids_by_type (MessageReceiver._protocol self)) in
  let unhandled := msgtype ∉ dict_keys (MessageReceiver._handlers self) in
  let same_set := ∀ r, r ∈ responsetypes ↔ r ∈ get_response_types msgtype in
  (registered ∧ unhandled ∧ same_set →
     MessageReceiver.register_handler self call
     = Ret (MessageReceiver.mk R (MessageReceiver._protocol self)
              (dict_set msgtype call (MessageReceiver._handlers self))))
  ∧ (¬ (registered ∧ unhandled ∧ same_set) →
     ∃ text, MessageReceiver.register_handler self call
             = Raise (mkExc TypeError text)).
Proof.
  intros Hsig Hmsg Hsub Hret registered unhandled same_set.
  unfold MessageReceiver.register_handler.
  rewrite Hsig, Hmsg, Hret. simpl. rewrite Hsub. simpl.
  destruct (list_mem msgtype _) eqn:Ereg; simpl.
  2: { split; [|by eexists]. intros (Hr & _).
       apply list_mem_true in Hr. congruence. }
  apply list_mem_true in Ereg.
  destruct (dict_contains msgtype _) eqn:Eh.
  { apply dict_contains_true in Eh. split; [|by eexists].
    by intros (_ & Hu & _). }
  apply dict_contains_false in Eh.
  destruct (set_eqb responsetypes _) eqn:Eset; simpl.
  - pose proof (proj1 (set_eqb_true _ _) Eset) as Hs.
    split; [done|]. intros Hn. by destruct Hn.
  - split; [|by eexists]. intros (_ & _ & Hs).
    pose proof (proj2 (set_eqb_true _ _) Hs). congruence.
Qed.

(** The response types that [register_handler] reads from a return
    annotation that is a class or a [Union] of classes: the classes as
    written, with EmptyResponse in the place of NoneType. *)
Lemma return_types_declared call (tps : list Ty) :
  ann_return call = Some (HintGeneric (Some <$> tps))
  ∨ (∃ ret, tps = [ret] ∧ ann_return call = Some (HintType ret)) →
  MessageReceiver.return_types (ann_return call)
  = Ret ((λ r, if decide (r = NoneType) then EmptyResponse else r) <$> tps).
Proof.
  assert (∀ l : list Ty,
            MessageReceiver.none_to_empty <$> l
            = (λ r, if decide (r = NoneType) then EmptyResponse else r)
                <$> l) as Hmap.
  { intros l. apply list_fmap_ext. intros _ r _.
    unfold MessageReceiver.none_to_empty.
    case_bool_decide; destruct (decide (r = NoneType)); done. }
  intros [->|(ret & -> & ->)].
  - by rewrite return_types_Union, Hmap.
  - unfold MessageReceiver.return_types.
    change (map MessageReceiver.none_to_empty [ret])
      with (MessageReceiver.none_to_empty <$> [ret]).
    by rewrite Hmap.
Qed.

(** C7 (amended): a handler's [msg] annotation is the class [msgtype] and
    its return annotation is a class or a [Union] of classes, written
    [tps]; the set it declares is [tps] with EmptyResponse in the place of
    NoneType, the type of a [None] return. Whenever [msgtype] is not
    registered in the protocol, or already has a handler, or the declared
    set differs from the set of [msgtype.get_response_types()], the
    registration fails, whatever else the handler is. Otherwise it
    succeeds and stores the handler for [msgtype], provided the
    signature is well-formed: the arguments are [self] and [msg], and
    [msgtype] is a subclass of Message. For such a signature each of the
    three failures is a TypeError. *)
Theorem register_handler_spec self call msgtype (tps : list Ty) :
  ann_msg call = Some (HintType msgtype) →
  ann_return call = Some (HintGeneric (Some <$> tps))
  ∨ (∃ ret, tps = [ret] ∧ ann_return call = Some (HintType ret)) →
  let declared :=
    (λ r, if decide (r = NoneType) then EmptyResponse else r) <$> tps in
  let registered :=
    msgtype ∈ dict_keys
      (MessageProtocol.message_ids_by_type (MessageReceiver._protocol self)) in
  let unhandled := msgtype ∉ dict_keys (MessageReceiver._handlers self) in
  let same_set := ∀ r, r ∈ declared ↔ r ∈ get_response_types msgtype in
  (¬ (registered ∧ unhandled ∧ same_set) →
     ∃ exc, MessageReceiver.register_handler self call = Raise exc)
  ∧ (sig_args call = ["self"; "msg"]%string →
     issubclass msgtype Message = true →
     (registered ∧ unhandled ∧ same_set →
        MessageReceiver.register_handler self call
        = Ret (MessageReceiver.mk R (MessageReceiver._protocol self)
                 (dict_set msgtype call (MessageReceiver._handlers self))))
     ∧ (¬ (registered ∧ unhandled ∧ same_set) →
        ∃ text, MessageReceiver.register_handler self call
                = Raise (mkExc TypeError text))).
Proof.
  intros Hmsg Hann declared registered unhandled same_set.
  pose proof (return_types_declared _ _ Hann) as Hret. fold declared in Hret.
  assert (sig_args call = ["self"; "msg"]%string →
          issubclass msgtype Message = true →
          (registered ∧ unhandled ∧ same_set →
             MessageReceiver.register_handler self call
             = Ret (MessageReceiver.mk R (MessageReceiver._protocol self)
                      (dict_set msgtype call
                         (MessageReceiver._handlers self))))
          ∧ (¬ (registered ∧ unhandled ∧ same_set) →
             ∃ text, MessageReceiver.register_handler self call
                     = Raise (mkExc TypeError text))) as Hwf.
  { intros Hsig Hsub.
    exact (register_handler_checks self call msgtype declared
             Hsig Hmsg Hsub Hret). }
  split; [|exact Hwf].
  intros Hnot.
  destruct (decide (sig_args call = ["self"; "msg"]%string)) as [Hsig|Hsig].
  - destruct (issubclass msgtype Message) eqn:Hsub.
    + destruct (Hwf Hsig eq_refl) as [_ Hfail].
      destruct (Hfail Hnot) as [text ->]. by eexists.
    + unfold MessageReceiver.register_handler.
      rewrite Hsig, Hmsg. simpl. rewrite Hsub. by eexists.
  - unfold MessageReceiver.register_handler.
    rewrite bool_decide_eq_true_2 by done. by eexists.
Qed.
End register_handler.

(** The handler of [Shutdown] returns [None]: its annotation declares
    NoneType, [Shutdown] declares EmptyResponse, and the handler is
    registered on a fresh receiver. *)
Lemma register_handler_spec_witness :
  MessageReceiver.register_handler
    (MessageReceiver.__init__ Example.protocol) Example2.handle_shutdown
  = Ret (MessageReceiver.mk Example.runtime Example.protocol
           [(Example.Shutdown, Example2.handle_shutdown)]).
Proof.
  destruct (register_handler_spec (MessageReceiver.__init__ Example.protocol)
              Example2.handle_shutdown Example.Shutdown [NoneType])
    as [_ Hwf]; [reflexivity | right; by exists NoneType |].
  destruct Hwf as [Hok _]; [reflexivity | reflexivity |].
  apply Hok. split_and!.
  - vm_compute. apply list_elem_of_further, list_elem_of_here.
  - vm_compute. apply not_elem_of_nil.
  - intros r. reflexivity.
Defined.

(** C7 (the claim as stated fails): [Ping] is registered in the protocol,
    has no handler on a fresh receiver, and the handler declares exactly
    the response types of [Ping]; none of the three conditions of the claim
    holds, and yet the registration fails, with a ValueError, because the
    handler takes one more argument. *)
Lemma register_handler_rejects_extra_argument :
  ann_msg Example2.handle_ping_extra = Some (HintType Example.Ping)
  ∧ ann_return Example2.handle_ping_extra = Some (HintType Example.Pong)
  ∧ Example.Ping ∈ dict_keys
      (MessageProtocol.message_ids_by_type Example.protocol)
  ∧ (Example.Ping ∉ dict_keys
       (MessageReceiver._handlers (MessageReceiver.__init__ Example.protocol)))
  ∧ (∀ r, r ∈ [Example.Pong] ↔ r ∈ get_response_types Example.Ping)
  ∧ ∃ text,
      MessageReceiver.register_handler
        (MessageReceiver.__init__ Example.protocol) Example2.handle_ping_extra
      = Raise (mkExc ValueError text).
Proof.
  split_and!; try reflexivity.
  - vm_compute. apply list_elem_of_here.
  - vm_compute. apply not_elem_of_nil.
  - by eexists.
Qed.

(** C8 (the code departs from the claim): a message type and a response
    type with the same [__name__], from different modules, are accepted: the
    check of lines 171-175 looks at the message types only. *)
Theorem duplicate_name_across_registries_accepted :
  is_Ret (MessageProtocol.__init__
            [(0, Example.Ping)] [(0, Example.OtherPing); (1, Example.Pong)]
            None true true false) = true
  ∧ __name__ Example.Ping = __name__ Example.OtherPing
  ∧ Example.Ping ≠ Example.OtherPing.
Proof. split_and!; [reflexivity | reflexivity | discriminate]. Qed.

(** ** Handling raw messages *)

Section handle_raw_message.
Context {R : Runtime}.
Implicit Types (self : MessageReceiver.t) (p : MessageProtocol.t) (exc : Exc).

Lemma handle_raw_message_Ret self bound_obj msg out :
  MessageReceiver.handle_raw_message_try self bound_obj msg = Ret out →
  MessageReceiver.handle_raw_message self bound_obj msg = ([], Ret out).
Proof. unfold MessageReceiver.handle_raw_message. by intros ->. Qed.

Lemma handle_raw_message_Raise self bound_obj msg exc :
  MessageReceiver.handle_raw_message_try self bound_obj msg = Raise exc →
  MessageReceiver.handle_raw_message self bound_obj msg
  = MessageReceiver.handle_raw_message_except self exc.
Proof. unfold MessageReceiver.handle_raw_message. by intros ->. Qed.

(** A handler that raises makes the [try] block raise that exception. *)
Lemma handler_raises self bound_obj msg msg_decoded handler exc :
  MessageProtocol.decode_message (MessageReceiver._protocol self) msg
    = Ret msg_decoded →
  dict_get (inst_type msg_decoded) (MessageReceiver._handlers self)
    = Some handler →
  call handler bound_obj msg_decoded = Raise exc →
  MessageReceiver.handle_raw_message_try self bound_obj msg = Raise exc.
Proof.
  intros Hdec Hh Hcall. unfold MessageReceiver.handle_raw_message_try.
  rewrite Hdec. simpl.
  assert (issubclass (inst_type msg_decoded) Message = true) as ->.
  { unfold MessageProtocol.decode_message in Hdec.
    apply bind_Ret in Hdec as ([x|] & _ & Hdec); [|discriminate].
    apply bind_Ret in Hdec as ([] & Hsub%assert_Ret & [= ->]). done. }
  simpl. by rewrite Hh, Hcall.
Qed.

(** The record of an ErrorResponse. *)
Lemma ErrorResponse_to_dict msg e :
  dataclass_to_dict (new_ErrorResponse msg e)
  = Ret [("m", JStr msg); ("t", JInt (ErrorType_value e))]%string.
Proof. reflexivity. Qed.

(** A type key that is a storage key of ErrorResponse makes the [except]
    clause itself raise: the error cannot be encoded. *)
Lemma handle_raw_message_except_raises self exc key m_id :
  MessageProtocol._type_key (MessageReceiver._protocol self) = Some key →
  key ∈ ["m"; "t"]%string →
  dict_get ErrorResponse
    (MessageProtocol.response_ids_by_type (MessageReceiver._protocol self))
    = Some m_id →
  ∃ text, (MessageReceiver.handle_raw_message_except self exc).2
          = Raise (mkExc RuntimeError text).
Proof.
  intros Hkey Hin Hid. unfold MessageReceiver.handle_raw_message_except.
  simpl. unfold MessageProtocol.encode_response.
  unfold MessageReceiver.error_response.
  destruct (_ && _);
    (eapply encode_type_key_collision;
     [exact Hid | apply ErrorResponse_to_dict | exact Hkey | exact Hin]).
Qed.

(** In a constructed protocol whose type key is [m] or [t], every failure
    of the [try] block ends in the RuntimeError of [_encode]. *)
Lemma handle_raw_message_raises message_types response_types type_key
    pce lre ts p self bound_obj msg exc key :
  MessageProtocol.__init__ message_types response_types type_key pce lre ts
    = Ret p →
  MessageReceiver._protocol self = p →
  type_key = Some key →
  key ∈ ["m"; "t"]%string →
  MessageReceiver.handle_raw_message_try self bound_obj msg = Raise exc →
  ∃ text, (MessageReceiver.handle_raw_message self bound_obj msg).2
          = Raise (mkExc RuntimeError text).
Proof.
  intros Hinit Hp Hkey Hin Htry.
  rewrite (handle_raw_message_Raise _ _ _ _ Htry).
  destruct (init_reserved_registered _ _ _ _ _ _ _ Hinit) as [Hreg _].
  apply dict_get_is_Some in Hreg as [m_id Hid].
  destruct (init_flags _ _ _ _ _ _ _ Hinit) as (Htk & _).
  eapply handle_raw_message_except_raises; rewrite ?Hp; [|done..].
  by rewrite Htk.
Qed.
End handle_raw_message.

(** C2 (the code departs from the claim): with [type_key='t'] the
    ErrorResponse built by the [except] clause cannot be encoded, its
    storage key [t] being the type key, and [handle_raw_message] raises the
    RuntimeError of [_encode]. Here the input is not JSON and the receiver
    has no handlers. *)
Theorem handle_raw_message_raises_with_type_key_t :
  MessageReceiver.handle_raw_message
    (MessageReceiver.__init__ Example.protocol_t) tt (Example.Malformed [])
  = ([],
     Raise (mkExc RuntimeError
       "Type-key t found in msg of type <class 'efro.message.ErrorResponse'>")).
Proof. reflexivity. Qed.

Section error_propagation.
Context {R : Runtime} {L : RuntimeLaws R}.
Implicit Types (self : MessageReceiver.t) (p : MessageProtocol.t) (exc : Exc).

(** The bytes of an encoded ErrorResponse are decoded, on the sending
    side, by raising the error. *)
Lemma decode_encoded_ErrorResponse p msg e data :
  registry_inv (MessageProtocol.response_types_by_id p)
    (MessageProtocol.response_ids_by_type p) →
  MessageProtocol.encode_response p (new_ErrorResponse msg e) = Ret data →
  MessageProtocol.decode_response p data
  = Raise (mkExc (if MessageProtocol.preserve_clean_errors p
                     && bool_decide (e = CLEAN)
                  then CleanError else RemoteError) msg).
Proof.
  intros Hinv (m_id & d & Hid & Hd & Hkey & ->)%encode_Ret_inv.
  rewrite ErrorResponse_to_dict in Hd. injection Hd as <-.
  unfold MessageProtocol.decode_response.
  rewrite (decode_wire_record p _ _ _ _ ErrorResponse).
  - assert (dataclass_from_dict ErrorResponse
              [("m", JStr msg); ("t", JInt (ErrorType_value e))]%string
            = Ret (new_ErrorResponse msg e)) as -> by (by destruct e).
    cbn [mbind Res_bind]. by rewrite decode_special_ErrorResponse.
  - change (json_wf (JObj (record_of (c_fields (class_info ErrorResponse))
                              (inst_attrs (new_ErrorResponse msg e))))).
    by apply record_of_wf.
  - done.
  - by apply Hinv.
Qed.

(** With a type key that is not a storage key of ErrorResponse,
    [handle_raw_message] of a constructed protocol always returns bytes;
    after a failure they are the encoding of the ErrorResponse. *)
Lemma handle_raw_message_returns message_types response_types type_key
    pce lre ts p self bound_obj msg :
  MessageProtocol.__init__ message_types response_types type_key pce lre ts
    = Ret p →
  MessageReceiver._protocol self = p →
  (∀ key, type_key = Some key → key ∉ ["m"; "t"]%string) →
  ∃ data,
    (MessageReceiver.handle_raw_message self bound_obj msg).2 = Ret data
    ∧ ∀ exc,
        MessageReceiver.handle_raw_message_try self bound_obj msg
          = Raise exc →
        MessageProtocol.encode_response p
          (MessageReceiver.error_response self exc) = Ret data.
Proof.
  intros Hinit Hp Hkey.
  destruct (MessageReceiver.handle_raw_message_try self bound_obj msg)
    as [out|exc] eqn:Htry.
  - exists out. split; [|discriminate].
    by rewrite (handle_raw_message_Ret _ _ _ _ Htry).
  - rewrite (handle_raw_message_Raise _ _ _ _ Htry).
    unfold MessageReceiver.handle_raw_message_except. simpl. rewrite Hp.
    assert (∃ msg' e, MessageReceiver.error_response self exc
                      = new_ErrorResponse msg' e) as (msg' & e & Heq).
    { unfold MessageReceiver.error_response.
      destruct (_ && _); by eexists _, _. }
    destruct (init_registry_inv _ _ _ _ _ _ _ Hinit) as [_ Hrinv].
    destruct (init_reserved_registered _ _ _ _ _ _ _ Hinit) as [Hreg _].
    destruct (init_flags _ _ _ _ _ _ _ Hinit) as (Htk & _).
    rewrite <- Htk in Hkey.
    destruct (encode_valid_Ret p (new_ErrorResponse msg' e) _ "response"
                eq_refl Hkey Hreg) as (data & Henc).
    exists data. rewrite Heq. split; [done|].
    intros ? [= <-]. by rewrite Heq.
Qed.

(** C3: a handler raises [exc] for a message, and [handle_raw_message]
    returns bytes to the sender's transport. Then [send] raises a
    CleanError carrying the text of [exc] when [exc] is a CleanError and
    the protocol preserves clean errors, and a RemoteError in every other
    case (clean errors not preserved, or another kind of exception). *)
Theorem clean_error_propagation message_types response_types type_key
    pce lre ts p self (sender : MessageSender.t) bound_obj message
    msg_encoded msg_decoded handler exc response_encoded :
  MessageProtocol.__init__ message_types response_types type_key pce lre ts
    = Ret p →
  MessageReceiver._protocol self = p →
  MessageSender._protocol sender = p →
  MessageSender._send_raw_message_call sender
    = Some (λ obj data,
              (MessageReceiver.handle_raw_message self obj data).2) →
  MessageProtocol.encode_message p message = Ret msg_encoded →
  MessageProtocol.decode_message p msg_encoded = Ret msg_decoded →
  dict_get (inst_type msg_decoded) (MessageReceiver._handlers self)
    = Some handler →
  call handler bound_obj msg_decoded = Raise exc →
  (MessageReceiver.handle_raw_message self bound_obj msg_encoded).2
    = Ret response_encoded →
  (is_CleanError exc = true → pce = true →
     MessageSender.send sender bound_obj message
     = Raise (mkExc CleanError (exc_str exc)))
  ∧ (is_CleanError exc = false ∨ pce = false →
     MessageSender.send sender bound_obj message
     = Raise (mkExc RemoteError
                (if ts then format_exc exc
                 else "An unknown error has occurred."))).
Proof.
  intros Hinit Hself Hsender Hcall Henc Hdec Hh Hraise Hret.
  destruct (init_registry_inv _ _ _ _ _ _ _ Hinit) as [_ Hrinv].
  destruct (init_flags _ _ _ _ _ _ _ Hinit) as (_ & Hpce & _ & Hts).
  rewrite <- Hself in Hdec.
  pose proof (handler_raises _ _ _ _ _ _ Hdec Hh Hraise) as Htry.
  rewrite (handle_raw_message_Raise _ _ _ _ Htry) in Hret.
  unfold MessageReceiver.handle_raw_message_except in Hret. simpl in Hret.
  rewrite Hself in Hret.
  assert (∀ r, MessageProtocol.decode_response p response_encoded = Raise r →
               MessageSender.send sender bound_obj message = Raise r) as Hsend.
  { intros r Hr. unfold MessageSender.send.
    rewrite Hcall, Hsender, Henc. simpl.
    rewrite (handle_raw_message_Raise _ _ _ _ Htry).
    unfold MessageReceiver.handle_raw_message_except. simpl.
    rewrite Hself, Hret. simpl. by rewrite Hr. }
  unfold MessageReceiver.error_response in Hret.
  rewrite Hself, Hpce, Hts in Hret.
  split.
  - intros Hclean ->. rewrite Hclean in Hret. simpl in Hret.
    apply Hsend. rewrite (decode_encoded_ErrorResponse _ _ _ _ Hrinv Hret).
    by rewrite Hpce.
  - intros Hcase.
    assert (is_CleanError exc && pce = false) as Hno.
    { destruct Hcase as [-> | ->]; [done | apply andb_false_r]. }
    rewrite Hno in Hret. apply Hsend.
    rewrite (decode_encoded_ErrorResponse _ _ _ _ Hrinv Hret).
    by rewrite andb_false_r.
Qed.
(** What [handle_raw_message] answers when a handler raises an exception
    that is not a CleanError. *)
Lemma handler_failure_answer self bound_obj msg msg_decoded handler exc :
  MessageProtocol.decode_message (MessageReceiver._protocol self) msg
    = Ret msg_decoded →
  dict_get (inst_type msg_decoded) (MessageReceiver._handlers self)
    = Some handler →
  call handler bound_obj msg_decoded = Raise exc →
  is_CleanError exc = false →
  (MessageReceiver.handle_raw_message self bound_obj msg).2
  = MessageProtocol.encode_response (MessageReceiver._protocol self)
      (new_ErrorResponse
         (if MessageProtocol.trusted_sender (MessageReceiver._protocol self)
          then format_exc exc
          else "An unknown error has occurred.")
         OTHER).
Proof.
  intros Hdec Hh Hraise Hclean.
  pose proof (handler_raises _ _ _ _ _ _ Hdec Hh Hraise) as Htry.
  rewrite (handle_raw_message_Raise _ _ _ _ Htry).
  unfold MessageReceiver.handle_raw_message_except,
    MessageReceiver.error_response.
  by rewrite Hclean.
Qed.

(** C4: a handler raises an exception that is not a CleanError. What
    [handle_raw_message] returns is then the encoding of an ErrorResponse
    of kind OTHER whose [error_message] is, for a sender that is not
    trusted, exactly the fixed text: the bytes returned are the JSON text
    of the wire record with [m] equal to that text and [t] equal to 0
    under the id of ErrorResponse, in which the exception does not
    occur, and the sender decodes them by raising a RemoteError with that
    text. Two such runs on the same protocol, with any receivers,
    handlers, inputs and exceptions, return the same. For a trusted
    sender the text is the formatted traceback of the exception. Bytes
    are returned whenever the type key is not a storage key of
    ErrorResponse. *)
Theorem untrusted_error_is_opaque message_types response_types type_key
    pce lre ts p self bound_obj msg msg_decoded handler exc :
  MessageProtocol.__init__ message_types response_types type_key pce lre ts
    = Ret p →
  MessageReceiver._protocol self = p →
  MessageProtocol.decode_message p msg = Ret msg_decoded →
  dict_get (inst_type msg_decoded) (MessageReceiver._handlers self)
    = Some handler →
  call handler bound_obj msg_decoded = Raise exc →
  is_CleanError exc = false →
  let text := if ts then format_exc exc
              else "An unknown error has occurred."%string in
  ∃ m_id,
    dict_get ErrorResponse (MessageProtocol.response_ids_by_type p)
      = Some m_id
    ∧ (MessageReceiver.handle_raw_message self bound_obj msg).2
      = MessageProtocol.encode_response p (new_ErrorResponse text OTHER)
    ∧ (∀ data,
         (MessageReceiver.handle_raw_message self bound_obj msg).2
           = Ret data →
         data = json_dumps
                  (wire_record type_key m_id
                     [("m", JStr text); ("t", JInt 0)]%string)
         ∧ MessageProtocol.decode_response p data
           = Raise (mkExc RemoteError text))
    ∧ ((∀ key, type_key = Some key → key ∉ ["m"; "t"]%string) →
       ∃ data,
         (MessageReceiver.handle_raw_message self bound_obj msg).2
           = Ret data)
    ∧ (ts = false →
       ∀ self' bound_obj' msg' msg_decoded' handler' exc',
         MessageReceiver._protocol self' = p →
         MessageProtocol.decode_message p msg' = Ret msg_decoded' →
         dict_get (inst_type msg_decoded') (MessageReceiver._handlers self')
           = Some handler' →
         call handler' bound_obj' msg_decoded' = Raise exc' →
         is_CleanError exc' = false →
         (MessageReceiver.handle_raw_message self' bound_obj' msg').2
         = (MessageReceiver.handle_raw_message self bound_obj msg).2).
Proof.
  intros Hinit Hself Hdec Hh Hraise Hclean text.
  destruct (init_registry_inv _ _ _ _ _ _ _ Hinit) as [_ Hrinv].
  destruct (init_flags _ _ _ _ _ _ _ Hinit) as (Htk & Hpce & _ & Hts).
  destruct (init_reserved_registered _ _ _ _ _ _ _ Hinit) as [Hreg _].
  apply dict_get_is_Some in Hreg as [m_id Hid].
  rewrite <- Hself in Hdec.
  pose proof (handler_failure_answer _ _ _ _ _ _ Hdec Hh Hraise Hclean)
    as Hanswer.
  rewrite Hself, Hts in Hanswer. fold text in Hanswer.
  exists m_id. split_and!; try done.
  - intros data Hdata. rewrite Hanswer in Hdata.
    pose proof (decode_encoded_ErrorResponse _ _ _ _ Hrinv Hdata) as Hback.
    rewrite andb_false_r in Hback. split; [|done].
    apply encode_Ret_inv in Hdata as (m_id' & d & Hid' & Hto & _ & ->).
    rewrite ErrorResponse_to_dict in Hto. injection Hto as <-.
    simpl in Hid'. rewrite Hid in Hid'. injection Hid' as <-.
    by rewrite Htk.
  - intros Hkey.
    destruct (handle_raw_message_returns _ _ _ _ _ _ _ self bound_obj msg
                Hinit Hself Hkey) as (data & Hdata & _).
    by exists data.
  - intros -> self' bound_obj' msg' msg_decoded' handler' exc'
      Hself' Hdec' Hh' Hraise' Hclean'.
    rewrite <- Hself' in Hdec'.
    rewrite (handler_failure_answer _ _ _ _ _ _ Hdec' Hh' Hraise' Hclean').
    by rewrite Hself', Hts, Hanswer.
Qed.
End error_propagation.

(** The [Ping] handler of [receiver_fails] raises a ValueError with a text
    of its own; the protocol of the example does not trust the sender. *)
Lemma untrusted_error_is_opaque_witness :
  (MessageReceiver.handle_raw_message Example2.receiver_fails tt
     (Example.Document
        (JObj [("m", JObj [("m", JStr "hi")]); ("t", JInt 1)]%string))).2
  = Ret (Example.Document
           (JObj [("m", JObj [("m", JStr "An unknown error has occurred.");
                              ("t", JInt 0)]);
                  ("t", JInt (-1))]%string)).
Proof.
  destruct (untrusted_error_is_opaque
              [(1, Example.Ping); (2, Example.Shutdown)] [(0, Example.Pong)]
              None true false false Example.protocol Example2.receiver_fails
              tt
              (Example.Document
                 (JObj [("m", JObj [("m", JStr "hi")]);
                        ("t", JInt 1)]%string))
              (Example.ping "hi") Example2.handle_ping_fails
              (mkExc ValueError "secret detail"))
    as (m_id & Hid & _ & Hbytes & Hreturns & _); [reflexivity..|].
  injection Hid as <-.
  destruct Hreturns as [data Hdata]; [discriminate|].
  destruct (Hbytes data Hdata) as [-> _]. exact Hdata.
Defined.


(** The scenario of the description: [Shutdown] is sent, its handler raises
    the clean error "no permission", and [send] raises it locally. *)
Lemma clean_error_propagation_witness :
  MessageSender.send Example.sender tt Example.shutdown
  = Raise (mkExc CleanError "no permission").
Proof.
  eapply (clean_error_propagation [(1, Example.Ping); (2, Example.Shutdown)]
            [(0, Example.Pong)] None true false false Example.protocol
            Example.receiver Example.sender tt Example.shutdown
            _ Example.shutdown Example.handle_shutdown
            (mkExc CleanError "no permission"));
    reflexivity.
Defined.

(** * Further properties *)

Lemma dict_get_app_NoDup {K V} `{EqDecision K} (d e : PyDict K V) k v :
  NoDup (dict_keys d) → (k, v) ∈ d → dict_get k (d ++ e) = Some v.
Proof.
  unfold dict_keys. induction d as [|[k' v'] d IH]; simpl.
  - by intros _ ?%elem_of_nil.
  - intros [Hnin Hnd]%NoDup_cons [[= -> ->]|Hin]%elem_of_cons.
    + by rewrite decide_True.
    + rewrite decide_False; [by apply IH|]. intros ->. apply Hnin.
      apply list_elem_of_fmap. by exists (k, v).
Qed.

(** ** The constructor *)

Section constructor.
Context {R : Runtime}.

(** Every failure of a registration loop is a failed assertion. *)
Lemma register_loop_Raise base items : ∀ by_id by_tp e,
  MessageProtocol.register_loop base items by_id by_tp = Raise e →
  exc_class e = AssertionError.
Proof.
  induction items as [|[m_id m_type] rest IH]; intros by_id by_tp e; simpl;
    [discriminate|].
  destruct (bool_decide (m_id >= 0)); simpl; [|by intros [= <-]].
  destruct (_ && _); simpl; [|by intros [= <-]].
  destruct (bool_decide (dict_get m_id by_id = None)); simpl;
    [apply IH | by intros [= <-]].
Qed.

(** A registration loop that succeeds appends its items to the dict of
    types: each id was free. *)
Lemma register_loop_appends base items : ∀ by_id by_tp by_id' by_tp',
  MessageProtocol.register_loop base items by_id by_tp = Ret (by_id', by_tp') →
  by_id' = by_id ++ items.
Proof.
  induction items as [|[m_id m_type] rest IH]; intros by_id by_tp by_id' by_tp';
    simpl.
  - intros [= <- _]. by rewrite app_nil_r.
  - intros H.
    apply bind_Ret in H as ([] & _ & H).
    apply bind_Ret in H as ([] & _ & H).
    apply bind_Ret in H as ([] & Hfree%assert_Ret & H).
    apply bool_decide_eq_true, dict_get_None in Hfree.
    apply IH in H as ->. rewrite dict_set_fresh by done.
    by rewrite <- app_assoc.
Qed.

Lemma register_loop_ids_wf base items : ∀ by_id by_tp by_id' by_tp',
  MessageProtocol.register_loop base items by_id by_tp = Ret (by_id', by_tp') →
  dict_wf by_id → dict_wf by_id'.
Proof.
  induction items as [|[m_id m_type] rest IH]; intros by_id by_tp by_id' by_tp';
    simpl.
  - by intros [= <- _].
  - intros H Hwf.
    apply bind_Ret in H as ([] & _ & H).
    apply bind_Ret in H as ([] & _ & H).
    apply bind_Ret in H as ([] & _ & H).
    eapply IH; [exact H|]. by apply dict_set_wf.
Qed.

(** After a loop that started from empty dicts, the dict of types is the
    argument itself, and its ids are distinct. *)
Lemma register_loop_from_empty base items by_id by_tp :
  MessageProtocol.register_loop base items [] [] = Ret (by_id, by_tp) →
  by_id = items ∧ NoDup items.*1.
Proof.
  intros H. pose proof (register_loop_appends _ _ _ _ _ _ H) as Happ.
  simpl in Happ. split; [done|].
  apply register_loop_ids_wf in H; [|constructor].
  by rewrite Happ in H.
Qed.

(** The ids of both registration loops, read off a construction. *)
Lemma init_by_id message_types response_types type_key pce lre ts p :
  MessageProtocol.__init__ message_types response_types type_key pce lre ts
    = Ret p →
  MessageProtocol.message_types_by_id p = message_types
  ∧ MessageProtocol.response_types_by_id p
    = response_types
        ++ (if list_mem ErrorResponse response_types.*2 then []
            else [(-1, ErrorResponse)])
        ++ (if list_mem EmptyResponse response_types.*2 then []
            else [(-2, EmptyResponse)])
  ∧ NoDup message_types.*1 ∧ NoDup response_types.*1.
Proof.
  intros (mbi&mbt&rbi0&rbt0&rbi1&rbt1&rbi2&rbt2&all
          &H1&H2&H3&H4&_&_&_&->)%init_Ret. simpl.
  pose proof H2 as (_ & _ & Htps & _)%register_loop_spec.
  apply register_loop_from_empty in H1 as [-> Hnd1].
  apply register_loop_from_empty in H2 as [-> Hnd2].
  split_and!; try done.
  assert (∀ tp, tp ∈ dict_keys rbt0 ↔ tp ∈ response_types.*2) as Hkeys.
  { intros tp. rewrite Htps, elem_of_nil. tauto. }
  apply reg_if_not_spec in H3 as [(Hin3 & -> & ->)|(Hnin3 & Hf3 & -> & ->)];
    apply reg_if_not_spec in H4 as [(Hin4 & -> & ->)|(Hnin4 & Hf4 & -> & ->)];
    rewrite ?elem_of_dict_keys_set, ?Hkeys in *;
    apply dict_get_None in Hf3 || idtac; apply dict_get_None in Hf4 || idtac;
    rewrite ?dict_set_fresh by done;
    repeat match goal with
    | |- context [list_mem ?x ?l] =>
        let E := fresh in
        destruct (list_mem x l) eqn:E;
        [apply list_mem_true in E
        |apply (not_true_iff_false (list_mem x l)) in E;
         rewrite list_mem_true in E]
    end; try done; rewrite ?app_nil_r, <- ?app_assoc; try done; naive_solver.
Qed.

(** X1: a constructed protocol keeps, as its dict from ids to message types,
    exactly the dict it was given, and as its dict from ids to response
    types the given dict followed by the entries for ErrorResponse (-1) and
    EmptyResponse (-2) that the caller did not register. The ids the caller
    gave are distinct and not negative, so each of them resolves to the type
    it was given for. *)
Theorem types_by_id_are_the_arguments message_types response_types type_key
    pce lre ts p :
  MessageProtocol.__init__ message_types response_types type_key pce lre ts
    = Ret p →
  MessageProtocol.message_types_by_id p = message_types
  ∧ MessageProtocol.response_types_by_id p
    = response_types
        ++ (if list_mem ErrorResponse response_types.*2 then []
            else [(-1, ErrorResponse)])
        ++ (if list_mem EmptyResponse response_types.*2 then []
            else [(-2, EmptyResponse)])
  ∧ (∀ i tp, (i, tp) ∈ message_types →
       0 ≤ i ∧ dict_get i (MessageProtocol.message_types_by_id p) = Some tp)
  ∧ (∀ i tp, (i, tp) ∈ response_types →
       0 ≤ i ∧ dict_get i (MessageProtocol.response_types_by_id p) = Some tp).
Proof.
  intros Hinit.
  destruct (init_by_id _ _ _ _ _ _ _ Hinit) as (Hm & Hr & Hnd1 & Hnd2).
  pose proof Hinit as (mbi&mbt&rbi0&rbt0&rbi1&rbt1&rbi2&rbt2&all
          &H1&H2&_)%init_Ret.
  apply register_loop_spec in H1 as (Hall1 & _).
  apply register_loop_spec in H2 as (Hall2 & _).
  rewrite Forall_forall in Hall1, Hall2.
  split_and!; try done.
  - intros i tp Hin. destruct (Hall1 _ Hin) as [Hge _]. simpl in Hge.
    split; [lia|]. rewrite Hm. by apply dict_get_NoDup.
  - intros i tp Hin. destruct (Hall2 _ Hin) as [Hge _]. simpl in Hge.
    split; [lia|]. rewrite Hr. by apply dict_get_app_NoDup.
Qed.
End constructor.

Section constructor_checks.
Context {R : Runtime}.

(** X2: in a constructed protocol the two dicts of each registry agree in
    both directions: the id a type is encoded with decodes to that type, and
    every type an id decodes to is encoded with an id that decodes to it
    again. *)
Theorem registries_agree message_types response_types type_key
    pce lre ts p :
  MessageProtocol.__init__ message_types response_types type_key pce lre ts
    = Ret p →
  let agree (types_by_id : PyDict Z Ty) (ids_by_type : PyDict Ty Z) :=
    (∀ tp i, dict_get tp ids_by_type = Some i →
             dict_get i types_by_id = Some tp)
    ∧ (∀ i tp, dict_get i types_by_id = Some tp →
               ∃ j, dict_get tp ids_by_type = Some j
                    ∧ dict_get j types_by_id = Some tp) in
  agree (MessageProtocol.message_types_by_id p)
    (MessageProtocol.message_ids_by_type p)
  ∧ agree (MessageProtocol.response_types_by_id p)
      (MessageProtocol.response_ids_by_type p).
Proof.
  intros Hinit agree.
  destruct (init_registry_inv _ _ _ _ _ _ _ Hinit) as [Hminv Hrinv].
  destruct (init_by_id _ _ _ _ _ _ _ Hinit) as (Hm & Hr & _).
  destruct (init_reserved_registered _ _ _ _ _ _ _ Hinit) as [Herr Hemp].
  pose proof Hinit as (mbi&mbt&rbi0&rbt0&rbi1&rbt1&rbi2&rbt2&all
          &H1&H2&H3&H4&_&_&_&Hp)%init_Ret.
  apply register_loop_spec in H1 as (_ & _ & Htp1 & _).
  apply register_loop_spec in H2 as (_ & _ & Htp2 & _).
  assert (∀ tp, tp ∈ dict_keys rbt0 → tp ∈ dict_keys rbt2) as Hmono.
  { intros tp Hin.
    apply reg_if_not_spec in H3 as [(_&_&->)|(_&_&_&->)];
      apply reg_if_not_spec in H4 as [(_&_&->)|(_&_&_&->)];
      rewrite ?elem_of_dict_keys_set; tauto. }
  subst p. simpl in *. split; (split; [done|]).
  - intros i tp Hget%dict_get_Some_elem.
    assert (tp ∈ dict_keys mbt) as [j Hj]%dict_get_is_Some.
    { apply Htp1. right. subst mbi. apply list_elem_of_fmap. by exists (i, tp). }
    exists j. split; [done|]. by apply Hminv.
  - intros i tp Hget%dict_get_Some_elem.
    assert (tp ∈ dict_keys rbt2) as [j Hj]%dict_get_is_Some.
    { rewrite Hr in Hget. rewrite !elem_of_app in Hget.
      destruct Hget as [Hin|[Hin|Hin]].
      - apply Hmono, Htp2. right. apply list_elem_of_fmap. by exists (i, tp).
      - destruct (list_mem ErrorResponse _); [by apply elem_of_nil in Hin|].
        apply list_elem_of_singleton in Hin. by injection Hin as -> ->.
      - destruct (list_mem EmptyResponse _); [by apply elem_of_nil in Hin|].
        apply list_elem_of_singleton in Hin. by injection Hin as -> ->. }
    exists j. split; [done|]. by apply Hrinv.
Qed.

(** X3: an item of [message_types] or [response_types] with a negative id,
    or with a type that is not a prepared dataclass or not a subclass of
    Message (of Response), makes the construction fail with an
    AssertionError. *)
Theorem invalid_registration_rejected message_types response_types type_key
    pce lre ts i tp :
  ((i, tp) ∈ message_types
   ∧ (i < 0 ∨ is_ioprepped_dataclass tp = false
      ∨ issubclass tp Message = false))
  ∨ ((i, tp) ∈ response_types
     ∧ (i < 0 ∨ is_ioprepped_dataclass tp = false
        ∨ issubclass tp Response = false)) →
  ∃ e, MessageProtocol.__init__ message_types response_types type_key
         pce lre ts = Raise e
       ∧ exc_class e = AssertionError.
Proof.
  intros Hbad. unfold MessageProtocol.__init__.
  assert (∀ base items by_id by_tp,
    (i, tp) ∈ items →
    i < 0 ∨ is_ioprepped_dataclass tp = false ∨ issubclass tp base = false →
    MessageProtocol.register_loop base items [] [] ≠ Ret (by_id, by_tp))
    as Hno.
  { intros base items by_id by_tp Hin Hcase (Hall & _)%register_loop_spec.
    rewrite Forall_forall in Hall. destruct (Hall _ Hin) as (? & ? & ?).
    simpl in *. destruct Hcase as [?|[?|?]]; [lia|congruence..]. }
  destruct (MessageProtocol.register_loop Message message_types [] [])
    as [[mbi mbt]|e] eqn:H1.
  2: { exists e. split; [done|]. by eapply register_loop_Raise. }
  destruct Hbad as [[Hin Hcase]|[Hin Hcase]];
    [by destruct (Hno _ _ _ _ Hin Hcase H1)|].
  simpl.
  destruct (MessageProtocol.register_loop Response response_types [] [])
    as [[rbi rbt]|e] eqn:H2.
  - by destruct (Hno _ _ _ _ Hin Hcase H2).
  - exists e. split; [done|]. by eapply register_loop_Raise.
Qed.
End constructor_checks.

(** The example protocol. *)
Lemma types_by_id_are_the_arguments_witness :
  MessageProtocol.message_types_by_id Example.protocol
  = [(1, Example.Ping); (2, Example.Shutdown)].
Proof.
  apply (types_by_id_are_the_arguments
           [(1, Example.Ping); (2, Example.Shutdown)] [(0, Example.Pong)]
           None true false false Example.protocol).
  reflexivity.
Defined.

(** A protocol with a message registered under -1. *)
Lemma invalid_registration_rejected_witness :
  ∃ e, MessageProtocol.__init__ [(-1, Example.Ping)] [(0, Example.Pong)]
         None true true false = Raise e
       ∧ exc_class e = AssertionError.
Proof.
  apply (invalid_registration_rejected [(-1, Example.Ping)]
           [(0, Example.Pong)] None true true false (-1) Example.Ping).
  left. split; [apply list_elem_of_here | left; lia].
Defined.

(** In the example protocol [Pong] has the id 0 and 0 decodes to [Pong]. *)
Lemma registries_agree_witness :
  ∃ j, dict_get Example.Pong
         (MessageProtocol.response_ids_by_type Example.protocol) = Some j
       ∧ dict_get j (MessageProtocol.response_types_by_id Example.protocol)
         = Some Example.Pong.
Proof.
  destruct (registries_agree
              [(1, Example.Ping); (2, Example.Shutdown)] [(0, Example.Pong)]
              None true false false Example.protocol) as [_ [_ Hr]];
    [reflexivity|].
  apply (Hr 0). reflexivity.
Defined.

(** ** The response types of the registered messages *)

Section response_coverage.
Context {R : Runtime}.

Lemma elem_of_set_update (s l : list Ty) (x : Ty) :
  x ∈ MessageProtocol.set_update s l ↔ x ∈ s ∨ x ∈ l.
Proof.
  unfold MessageProtocol.set_update. revert s.
  induction l as [|y l IH]; intros s; simpl.
  - rewrite elem_of_nil. tauto.
  - rewrite IH, elem_of_cons. destruct (list_mem y s) eqn:E.
    + apply list_mem_true in E. naive_solver.
    + rewrite elem_of_app, list_elem_of_singleton. naive_solver.
Qed.

(** What the loop over the message types has checked when it returns. *)
Lemma collect_response_types_spec items : ∀ acc all,
  MessageProtocol.collect_response_types items acc = Ret all →
  (∀ r, r ∈ acc → r ∈ all)
  ∧ ∀ i tp, (i, tp) ∈ items →
      get_response_types tp ≠ [] ∧ NoDup (get_response_types tp)
      ∧ ∀ r, r ∈ get_response_types tp → r ∈ all.
Proof.
  induction items as [|[m_id m_type] rest IH]; intros acc all; simpl.
  - intros [= <-]. split; [done|]. by intros i tp ?%elem_of_nil.
  - intros H. apply bind_Ret in H as ([] & Hne & H).
    apply bind_Ret in H as ([] & Hnd%assert_Ret & H).
    destruct (bool_decide (get_response_types m_type = [])) eqn:E;
      [discriminate|]. apply bool_decide_eq_false in E.
    apply bool_decide_eq_true, set_len_NoDup in Hnd.
    apply IH in H as [Hacc Hrest]. split.
    + intros r Hr. apply Hacc, elem_of_set_update. by left.
    + intros i tp [[= -> ->]|Hin]%elem_of_cons; [|by eapply Hrest].
      split_and!; try done.
      intros r Hr. apply Hacc, elem_of_set_update. by right.
Qed.

(** What the loop over the collected response types has checked. *)
Lemma check_response_types_spec all ids :
  MessageProtocol.check_response_types all ids = Ret tt →
  ∀ cls, cls ∈ all →
    is_ioprepped_dataclass cls = true ∧ issubclass cls Response = true
    ∧ cls ∈ dict_keys ids.
Proof.
  induction all as [|c rest IH]; simpl; [by intros _ cls ?%elem_of_nil|].
  intros H. apply bind_Ret in H as ([] & Hio%assert_Ret & H).
  apply bind_Ret in H as ([] & Hsub%assert_Ret & H).
  destruct (dict_contains c ids) eqn:E; simpl in H; [|discriminate].
  apply dict_contains_true in E.
  intros cls [->|Hin]%elem_of_cons; [done | by apply IH].
Qed.

(** The response types declared by a registered message type are all
    registered. *)
Lemma init_response_types_registered message_types response_types type_key
    pce lre ts p msgtype :
  MessageProtocol.__init__ message_types response_types type_key pce lre ts
    = Ret p →
  msgtype ∈ dict_keys (MessageProtocol.message_ids_by_type p) →
  get_response_types msgtype ≠ []
  ∧ NoDup (get_response_types msgtype)
  ∧ ∀ r, r ∈ get_response_types msgtype →
      r ∈ dict_keys (MessageProtocol.response_ids_by_type p)
      ∧ is_ioprepped_dataclass r = true
      ∧ issubclass r Response = true.
Proof.
  intros Hinit Hreg.
  destruct (init_registered_classes _ _ _ _ _ _ _ Hinit) as [Hmcls _].
  destruct (Hmcls _ Hreg) as (([i tp] & -> & Hin)%list_elem_of_fmap & _).
  pose proof Hinit as (mbi&mbt&rbi0&rbt0&rbi1&rbt1&rbi2&rbt2&all
          &_&_&_&_&Hcol&Hchk&_&->)%init_Ret. simpl in *.
  apply collect_response_types_spec in Hcol as [_ Hcol].
  destruct (Hcol _ _ Hin) as (Hne & Hnd & Hall).
  split_and!; try done.
  intros r Hr. destruct (check_response_types_spec _ _ Hchk r (Hall _ Hr))
    as (? & ? & ?). done.
Qed.

(** X4: in a constructed protocol every registered message type declares at
    least one response type and no response type twice, and each response
    type it declares is registered in the response registry, is a prepared
    dataclass and is a subclass of Response. *)
Theorem declared_responses_are_registered message_types response_types
    type_key pce lre ts p msgtype :
  MessageProtocol.__init__ message_types response_types type_key pce lre ts
    = Ret p →
  msgtype ∈ dict_keys (MessageProtocol.message_ids_by_type p) →
  get_response_types msgtype ≠ []
  ∧ NoDup (get_response_types msgtype)
  ∧ ∀ r, r ∈ get_response_types msgtype →
      (∃ i, dict_get r (MessageProtocol.response_ids_by_type p) = Some i
            ∧ dict_get i (MessageProtocol.response_types_by_id p) = Some r)
      ∧ is_ioprepped_dataclass r = true
      ∧ issubclass r Response = true.
Proof.
  intros Hinit Hreg.
  destruct (init_response_types_registered _ _ _ _ _ _ _ _ Hinit Hreg)
    as (Hne & Hnd & Hall).
  destruct (init_registry_inv _ _ _ _ _ _ _ Hinit) as [_ Hrinv].
  split_and!; try done.
  intros r Hr. destruct (Hall _ Hr) as ([i Hi]%dict_get_is_Some & ? & ?).
  split_and!; try done. exists i. split; [done | by apply Hrinv].
Qed.

(** Distinct new types are appended to the dict of ids in their order. *)
Lemma register_loop_type_keys base items : ∀ acc_id acc_tp by_id' by_tp',
  MessageProtocol.register_loop base items acc_id acc_tp
    = Ret (by_id', by_tp') →
  NoDup items.*2 →
  (∀ tp, tp ∈ items.*2 → tp ∉ dict_keys acc_tp) →
  dict_keys by_tp' = dict_keys acc_tp ++ items.*2.
Proof.
  induction items as [|[i tp] rest IH];
    intros acc_id acc_tp by_id' by_tp'; simpl.
  - intros [= _ <-] _ _. by rewrite app_nil_r.
  - intros H [Hnin Hnd]%NoDup_cons Hfresh.
    apply bind_Ret in H as ([] & _ & H).
    apply bind_Ret in H as ([] & _ & H).
    apply bind_Ret in H as ([] & _ & H).
    apply IH in H; [|done|].
    + rewrite H, dict_keys_set.
      assert (dict_contains tp acc_tp = false) as ->.
      { apply dict_contains_false, Hfresh, list_elem_of_here. }
      by rewrite <- app_assoc.
    + intros tp' Hin. rewrite elem_of_dict_keys_set. intros [->|Hin']; [done|].
      by apply (Hfresh tp'); [apply list_elem_of_further|].
Qed.

(** X5: the message types given to a constructed protocol are distinct
    classes with distinct names. *)
Theorem message_types_have_unique_names message_types response_types
    type_key pce lre ts p :
  MessageProtocol.__init__ message_types response_types type_key pce lre ts
    = Ret p →
  NoDup (__name__ <$> message_types.*2)
  ∧ NoDup message_types.*2
  ∧ dict_keys (MessageProtocol.message_ids_by_type p) = message_types.*2.
Proof.
  intros Hinit.
  pose proof (init_message_names_unique _ _ _ _ _ _ _ Hinit) as Hnames.
  assert (NoDup message_types.*2) as Hnd by by eapply NoDup_fmap_1.
  split_and!; try done.
  pose proof Hinit as (mbi&mbt&rbi0&rbt0&rbi1&rbt1&rbi2&rbt2&all
          &H1&_&_&_&_&_&_&->)%init_Ret. simpl.
  apply register_loop_type_keys in H1; [done|done|].
  intros ? _. apply not_elem_of_nil.
Qed.
End response_coverage.

(** In the example protocol [Ping] declares [Pong], registered under 0. *)
Lemma declared_responses_are_registered_witness :
  ∃ i, dict_get Example.Pong
         (MessageProtocol.response_ids_by_type Example.protocol) = Some i
       ∧ dict_get i (MessageProtocol.response_types_by_id Example.protocol)
         = Some Example.Pong.
Proof.
  destruct (declared_responses_are_registered
              [(1, Example.Ping); (2, Example.Shutdown)] [(0, Example.Pong)]
              None true false false Example.protocol Example.Ping)
    as (_ & _ & Hall); [reflexivity| |].
  - vm_compute. apply list_elem_of_here.
  - destruct (Hall Example.Pong) as [Hreg _]; [|exact Hreg].
    vm_compute. apply list_elem_of_here.
Defined.

Lemma message_types_have_unique_names_witness :
  NoDup (__name__ <$> [Example.Ping; Example.Shutdown]).
Proof.
  apply (message_types_have_unique_names
           [(1, Example.Ping); (2, Example.Shutdown)] [(0, Example.Pong)]
           None true false false Example.protocol).
  reflexivity.
Defined.

(** ** Errors of the codec *)

Lemma dict_pop_None {K V} `{EqDecision K} (d : PyDict K V) k :
  dict_get k d = None → dict_pop k d = None.
Proof.
  induction d as [|[k' v'] d IH]; simpl; [done|].
  destruct (decide (k' = k)); [discriminate|]. intros H. by rewrite IH.
Qed.

Section codec_errors.
Context {R : Runtime}.
Implicit Types (p : MessageProtocol.t) (x : Instance).

(** X6: the three outcomes of [_encode]. An instance whose type has no id
    in the registry is refused with a TypeError that names the operation
    and the type, before its fields are looked at. A valid instance of a
    registered type is refused with a RuntimeError when the protocol's type
    key is one of its storage keys, and is otherwise encoded as the JSON of
    the wire record made of its id and its stored fields. *)
Theorem encode_outcomes p x ids_by_type opname :
  (dict_get (inst_type x) ids_by_type = None →
   MessageProtocol._encode p x ids_by_type opname
   = Raise (mkExc TypeError
              (opname +:+ " type is not registered in protocol: "
                 +:+ repr_type (inst_type x))))
  ∧ (∀ m_id key,
       dict_get (inst_type x) ids_by_type = Some m_id →
       valid_instance x = true →
       MessageProtocol._type_key p = Some key →
       key ∈ storage_keys (inst_type x) →
       MessageProtocol._encode p x ids_by_type opname
       = Raise (mkExc RuntimeError
                  ("Type-key " +:+ key +:+ " found in msg of type "
                     +:+ repr_type (inst_type x))))
  ∧ (∀ m_id,
       dict_get (inst_type x) ids_by_type = Some m_id →
       valid_instance x = true →
       (∀ key, MessageProtocol._type_key p = Some key →
               key ∉ storage_keys (inst_type x)) →
       MessageProtocol._encode p x ids_by_type opname
       = Ret (json_dumps
                (wire_record (MessageProtocol._type_key p) m_id
                   (record_of (c_fields (class_info (inst_type x)))
                      (inst_attrs x))))).
Proof.
  split_and!.
  - intros Hid. unfold MessageProtocol._encode. by rewrite Hid.
  - intros m_id key Hid Hvalid Hkey Hin.
    destruct (dataclass_roundtrip x Hvalid) as (Hto & _ & Hkeys & _).
    unfold MessageProtocol._encode. rewrite Hid, Hto, Hkey. simpl.
    rewrite <- Hkeys in Hin. apply dict_contains_true in Hin.
    by rewrite Hin.
  - intros m_id Hid Hvalid Hkey.
    destruct (dataclass_roundtrip x Hvalid) as (Hto & _ & Hkeys & _).
    eapply encode_Ret; [done..|]. intros key Hk. rewrite Hkeys. auto.
Qed.

(** What [_decode] has done when it returns. *)
Lemma decode_Ret_inv p data types_by_id opname o :
  MessageProtocol._decode p data types_by_id opname = Ret o →
  ∃ i msgtype d out,
    dict_get i types_by_id = Some msgtype
    ∧ dataclass_from_dict msgtype d = Ret out
    ∧ MessageProtocol._decode_special_cases p opname out = Ret o.
Proof.
  unfold MessageProtocol._decode. intros H.
  apply bind_Ret in H as (j & _ & H).
  apply bind_Ret in H as (d0 & _ & H).
  apply bind_Ret in H as ([m_id msgdict] & _ & H).
  destruct (as_int m_id) as [i|]; [|done].
  destruct (as_dict msgdict) as [d|]; [|done].
  destruct (dict_get i types_by_id) as [msgtype|] eqn:Hty; [|done].
  apply bind_Ret in H as (out & Hfrom & H).
  by exists i, msgtype, d, out.
Qed.

Lemma dataclass_from_dict_type tp d out :
  dataclass_from_dict tp d = Ret out → inst_type out = tp.
Proof.
  unfold dataclass_from_dict. destruct (is_ioprepped_dataclass tp); [|done].
  intros H. apply bind_Ret in H as (attrs & _ & [= <-]). done.
Qed.

Lemma decode_special_Some_inv p opname out x :
  MessageProtocol._decode_special_cases p opname out = Ret (Some x) →
  x = out ∧ isinstance x EmptyResponse = false
  ∧ isinstance x ErrorResponse = false.
Proof.
  unfold MessageProtocol._decode_special_cases.
  destruct (isinstance out EmptyResponse) eqn:E1; [discriminate|].
  destruct (isinstance out ErrorResponse) eqn:E2.
  - intros H. apply bind_Ret in H as ([] & _ & H).
    apply bind_Ret in H as (is_clean & _ & H).
    apply bind_Ret in H as (msg & _ & H). by destruct is_clean.
  - by intros [= <-].
Qed.

(** X7: what the decoders can return. [decode_response] returns [None] or
    an instance of a Response class registered under some id, and never an
    EmptyResponse or an ErrorResponse; [decode_message] returns an instance
    of a Message class registered under some id, which is neither of the
    two. This holds for every protocol and every input. *)
Theorem decoders_return_registered_instances p data :
  (∀ x, MessageProtocol.decode_response p data = Ret (Some x) →
        isinstance x Response = true
        ∧ isinstance x EmptyResponse = false
        ∧ isinstance x ErrorResponse = false
        ∧ ∃ i, dict_get i (MessageProtocol.response_types_by_id p)
               = Some (inst_type x))
  ∧ (∀ x, MessageProtocol.decode_message p data = Ret x →
          isinstance x Message = true
          ∧ isinstance x EmptyResponse = false
          ∧ isinstance x ErrorResponse = false
          ∧ ∃ i, dict_get i (MessageProtocol.message_types_by_id p)
                 = Some (inst_type x)).
Proof.
  split; intros x H.
  - unfold MessageProtocol.decode_response in H.
    apply bind_Ret in H as ([y|] & Hdec & H); [|discriminate].
    apply bind_Ret in H as ([] & Hsub%assert_Ret & [= ->]).
    apply decode_Ret_inv in Hdec as (i & msgtype & d & out & Hty & Hfrom & Hsp).
    apply decode_special_Some_inv in Hsp as (-> & ? & ?).
    apply dataclass_from_dict_type in Hfrom as ->.
    split_and!; try done. by exists i.
  - unfold MessageProtocol.decode_message in H.
    apply bind_Ret in H as ([y|] & Hdec & H); [|discriminate].
    apply bind_Ret in H as ([] & Hsub%assert_Ret & [= ->]).
    apply decode_Ret_inv in Hdec as (i & msgtype & d & out & Hty & Hfrom & Hsp).
    apply decode_special_Some_inv in Hsp as (-> & ? & ?).
    apply dataclass_from_dict_type in Hfrom as ->.
    split_and!; try done. by exists i.
Qed.

(** X8: documents that [_decode] refuses before it looks for the type. A
    JSON value that is not an object fails the first assertion. Without a
    type key, an object whose [t] is missing or not an integer, or whose [m]
    is missing or not an object, fails an assertion. With a type key, an
    object without that key is a KeyError whose text is the [repr] of the
    key. An error of [json.loads] itself is passed on. *)
Theorem decode_refuses_malformed_documents p data types_by_id opname :
  (∀ e, json_loads data = Raise e →
        MessageProtocol._decode p data types_by_id opname = Raise e)
  ∧ (∀ j, json_loads data = Ret j → as_dict j = None →
          MessageProtocol._decode p data types_by_id opname
          = raise AssertionError "")
  ∧ (∀ d, json_loads data = Ret (JObj d) →
          MessageProtocol._type_key p = None →
          (dict_get "t" d ≫= as_int) = None
          ∨ (dict_get "m" d ≫= as_dict) = None →
          MessageProtocol._decode p data types_by_id opname
          = raise AssertionError "")
  ∧ (∀ d key, json_loads data = Ret (JObj d) →
              MessageProtocol._type_key p = Some key →
              dict_get key d = None →
              MessageProtocol._decode p data types_by_id opname
              = raise KeyError (repr_str key)).
Proof.
  unfold MessageProtocol._decode. split_and!.
  - by intros e ->.
  - intros j -> Hd. simpl. by rewrite Hd.
  - intros d -> Hkey Hbad. simpl. rewrite Hkey. simpl.
    destruct (dict_get "t" d) as [t|]; simpl in *.
    + destruct (as_int t); [|done].
      destruct Hbad as [?|Hbad]; [done|].
      destruct (dict_get "m" d) as [m|]; simpl in *; by rewrite ?Hbad.
    + done.
  - intros d key -> Hkey Hnone. simpl. rewrite Hkey.
    by rewrite (dict_pop_None _ _ Hnone).
Qed.

Context {L : RuntimeLaws R}.

(** X9: bytes that carry an id which the registry does not know are
    refused with a TypeError that names the operation and the id, in the
    envelope form and in the type-key form. *)
Theorem decode_unknown_id_rejected p types_by_id opname m_id
    (d : PyDict string Json) :
  json_wf (JObj d) →
  (∀ key, MessageProtocol._type_key p = Some key → key ∉ dict_keys d) →
  dict_get m_id types_by_id = None →
  MessageProtocol._decode p
    (json_dumps (wire_record (MessageProtocol._type_key p) m_id d))
    types_by_id opname
  = Raise (mkExc TypeError
             ("Got unregistered " +:+ opname +:+ " type id of "
                +:+ pretty m_id +:+ ".")).
Proof.
  intros Hwf Hkey Hty. unfold MessageProtocol._decode.
  rewrite json_loads_dumps by by apply wire_record_wf.
  destruct (MessageProtocol._type_key p) as [key|]; simpl.
  - specialize (Hkey key eq_refl). apply dict_contains_false in Hkey.
    rewrite dict_pop_set_fresh by done. simpl. by rewrite Hty.
  - by rewrite Hty.
Qed.

(** X10: a JSON [true] or [false] in the place of the type id passes the
    integer check (a Python bool is an int) and selects the type registered
    under 1 or 0: such an envelope is decoded like the envelope with that
    integer, whenever that id is registered. *)
Theorem decode_accepts_bool_id p types_by_id opname (b : bool)
    (d : PyDict string Json) data data' :
  MessageProtocol._type_key p = None →
  json_loads data = Ret (JObj [("m", JObj d); ("t", JBool b)]) →
  json_loads data'
    = Ret (JObj [("m", JObj d); ("t", JInt (if b then 1 else 0))]) →
  is_Some (dict_get (if b then 1 else 0) types_by_id) →
  MessageProtocol._decode p data types_by_id opname
  = MessageProtocol._decode p data' types_by_id opname.
Proof.
  intros Hkey Hdata Hdata' [tp Htp]. unfold MessageProtocol._decode.
  rewrite Hdata, Hdata', Hkey. simpl. by rewrite Htp.
Qed.
End codec_errors.

(** An ErrorResponse cannot be encoded with the type key [t], and a [Ping]
    can. *)
Lemma encode_outcomes_witness :
  MessageProtocol.encode_response Example.protocol_t
    (new_ErrorResponse "boom" OTHER)
  = Raise (mkExc RuntimeError
      "Type-key t found in msg of type <class 'efro.message.ErrorResponse'>")
  ∧ MessageProtocol.encode_message Example.protocol_t (Example.ping "hi")
    = Ret (json_dumps (JObj [("m", JStr "hi"); ("t", JInt 1)]%string)).
Proof.
  destruct (encode_outcomes Example.protocol_t
              (new_ErrorResponse "boom" OTHER)
              (MessageProtocol.response_ids_by_type Example.protocol_t)
              "response") as (_ & Hcollide & _).
  destruct (encode_outcomes Example.protocol_t (Example.ping "hi")
              (MessageProtocol.message_ids_by_type Example.protocol_t)
              "message") as (_ & _ & Hok).
  split.
  - apply (Hcollide (-1) "t"%string); try reflexivity.
    vm_compute. apply list_elem_of_further, list_elem_of_here.
  - apply (Hok 1); try reflexivity.
    intros key [= <-]. vm_compute.
    intros Hin%list_elem_of_singleton. discriminate.
Defined.

(** The reply of the example is decoded as an instance of [Pong]. *)
Lemma decoders_return_registered_instances_witness :
  isinstance (Example.pong "pong") Response = true
  ∧ isinstance (Example.pong "pong") EmptyResponse = false
  ∧ isinstance (Example.pong "pong") ErrorResponse = false
  ∧ ∃ i, dict_get i (MessageProtocol.response_types_by_id Example.protocol)
         = Some (inst_type (Example.pong "pong")).
Proof.
  apply (decoders_return_registered_instances Example.protocol
           (json_dumps (JObj [("m", JObj [("r", JStr "pong")]);
                              ("t", JInt 0)]%string))).
  reflexivity.
Defined.

(** Bytes that are not JSON, and a JSON list. *)
Lemma decode_refuses_malformed_documents_witness :
  MessageProtocol.decode_message Example.protocol (Example.Malformed [])
    = raise (OtherException "JSONDecodeError") "Expecting value"
  ∧ MessageProtocol._decode Example.protocol (Example.Document (JArr []))
      (MessageProtocol.message_types_by_id Example.protocol) "message"
    = raise AssertionError "".
Proof.
  destruct (decode_refuses_malformed_documents (R:=Example.runtime)
              Example.protocol (Example.Malformed [])
              (MessageProtocol.message_types_by_id Example.protocol)
              "message") as (Hloads & _).
  destruct (decode_refuses_malformed_documents (R:=Example.runtime)
              Example.protocol (Example.Document (JArr []))
              (MessageProtocol.message_types_by_id Example.protocol)
              "message") as (_ & Hobj & _).
  split.
  - unfold MessageProtocol.decode_message. by rewrite (Hloads _ eq_refl).
  - by apply (Hobj (JArr [])).
Defined.

(** No message of the example protocol has the id 7. *)
Lemma decode_unknown_id_rejected_witness :
  MessageProtocol._decode Example.protocol
    (json_dumps (JObj [("m", JObj []); ("t", JInt 7)]%string))
    (MessageProtocol.message_types_by_id Example.protocol) "message"
  = Raise (mkExc TypeError "Got unregistered message type id of 7.").
Proof.
  apply (decode_unknown_id_rejected Example.protocol
           (MessageProtocol.message_types_by_id Example.protocol)
           "message" 7 []).
  - apply json_wf_obj. split; constructor.
  - discriminate.
  - reflexivity.
Defined.

(** An envelope with [true] for the id is decoded as a [Ping], which has
    the id 1. *)
Lemma decode_accepts_bool_id_witness :
  MessageProtocol._decode Example.protocol
    (Example.Document
       (JObj [("m", JObj [("m", JStr "hi")]); ("t", JBool true)]%string))
    (MessageProtocol.message_types_by_id Example.protocol) "message"
  = Ret (Some (Example.ping "hi")).
Proof.
  rewrite (decode_accepts_bool_id (R:=Example.runtime) Example.protocol
             (MessageProtocol.message_types_by_id Example.protocol)
             "message" true [("m", JStr "hi")]%string _
             (Example.Document
                (JObj [("m", JObj [("m", JStr "hi")]);
                       ("t", JInt 1)]%string)));
    try reflexivity.
  by eexists.
Defined.

(** ** Sending through a receiver *)

Section send.
Context {R : Runtime}.

(** The life of a sender. A sender that was just created cannot send:
    [send] raises a RuntimeError before it looks at the message. Setting
    the raw send call succeeds once and keeps the protocol; setting it a
    second time fails an assertion. *)
Lemma send_raw_handler_is_set_once (protocol : MessageProtocol.t)
    (call call' : BoundObj → bytes → Res bytes) bound_obj message :
  MessageSender.send (MessageSender.__init__ protocol) bound_obj message
    = raise RuntimeError "send() is unimplemented for this type."
  ∧ ∃ self,
      MessageSender.send_raw_handler (MessageSender.__init__ protocol) call
        = Ret self
      ∧ MessageSender._protocol self = protocol
      ∧ MessageSender._send_raw_message_call self = Some call
      ∧ MessageSender.send_raw_handler self call' = raise AssertionError "".
Proof. split; [done|]. by eexists. Qed.

Context {L : RuntimeLaws R}.
Implicit Types (p : MessageProtocol.t) (self : MessageReceiver.t).

(** A valid message of a registered type reaches the receiver as it was
    sent. *)
Lemma sent_message_decodes message_types response_types type_key pce lre ts
    p message :
  MessageProtocol.__init__ message_types response_types type_key pce lre ts
    = Ret p →
  valid_instance message = true →
  inst_type message ∈ dict_keys (MessageProtocol.message_ids_by_type p) →
  isinstance message EmptyResponse = false →
  isinstance message ErrorResponse = false →
  (∀ key, type_key = Some key → key ∉ storage_keys (inst_type message)) →
  ∃ data, MessageProtocol.encode_message p message = Ret data
          ∧ MessageProtocol.decode_message p data = Ret message.
Proof.
  intros Hinit Hvalid Hreg He Hr Hkey.
  destruct (init_registry_inv _ _ _ _ _ _ _ Hinit) as [Hminv _].
  destruct (init_registered_classes _ _ _ _ _ _ _ Hinit) as [Hmcls _].
  destruct (init_flags _ _ _ _ _ _ _ Hinit) as (Htk & _).
  rewrite <- Htk in Hkey.
  destruct (encode_valid_Ret p message _ "message" Hvalid Hkey Hreg)
    as [data Henc].
  exists data. split; [done|].
  destruct (decode_encoded p message _ _ "message" data Hminv Hvalid Henc)
    as [_ Hdec].
  unfold MessageProtocol.decode_message.
  rewrite Hdec, decode_special_other by done. simpl.
  destruct (Hmcls _ Hreg) as (_ & _ & Hsub). unfold isinstance. by rewrite Hsub.
Qed.

(** A valid response of a type that a registered message declares is
    encoded, and decoded by the sender through the special cases. *)
Lemma declared_response_encodes message_types response_types type_key
    pce lre ts p msgtype response :
  MessageProtocol.__init__ message_types response_types type_key pce lre ts
    = Ret p →
  msgtype ∈ dict_keys (MessageProtocol.message_ids_by_type p) →
  inst_type response ∈ get_response_types msgtype →
  valid_instance response = true →
  (∀ key, type_key = Some key → key ∉ storage_keys (inst_type response)) →
  isinstance response Response = true
  ∧ ∃ data, MessageProtocol.encode_response p response = Ret data
            ∧ MessageProtocol._decode p data
                (MessageProtocol.response_types_by_id p) "response"
              = MessageProtocol._decode_special_cases p "response" response.
Proof.
  intros Hinit Hreg Hdecl Hvalid Hkey.
  destruct (init_registry_inv _ _ _ _ _ _ _ Hinit) as [_ Hrinv].
  destruct (init_flags _ _ _ _ _ _ _ Hinit) as (Htk & _).
  rewrite <- Htk in Hkey.
  destruct (init_response_types_registered _ _ _ _ _ _ _ _ Hinit Hreg)
    as (_ & _ & Hall).
  destruct (Hall _ Hdecl) as (Hrreg & _ & Hsub).
  split; [done|].
  destruct (encode_valid_Ret p response _ "response" Hvalid Hkey Hrreg)
    as [data Henc].
  exists data. split; [done|].
  by destruct (decode_encoded p response _ _ "response" data Hrinv Hvalid Henc).
Qed.

(** X11: a message sent through a receiver of the same protocol comes back
    as the handler's response. The protocol is constructed, the message is
    a valid instance of a registered type, its handler returns a valid
    instance of a response type that the message type declares (not an
    EmptyResponse or an ErrorResponse), and the type key is not a storage
    key of either; then [send] returns an instance equal to the one the
    handler returned, and the receiver logs nothing. *)
Theorem send_returns_handler_response message_types response_types type_key
    pce lre ts p self (sender : MessageSender.t) bound_obj message handler
    response :
  MessageProtocol.__init__ message_types response_types type_key pce lre ts
    = Ret p →
  MessageReceiver._protocol self = p →
  MessageSender._protocol sender = p →
  MessageSender._send_raw_message_call sender = Some (loopback self) →
  valid_instance message = true →
  inst_type message ∈ dict_keys (MessageProtocol.message_ids_by_type p) →
  isinstance message EmptyResponse = false →
  isinstance message ErrorResponse = false →
  dict_get (inst_type message) (MessageReceiver._handlers self)
    = Some handler →
  call handler bound_obj message = Ret (Some response) →
  valid_instance response = true →
  inst_type response ∈ get_response_types (inst_type message) →
  isinstance response EmptyResponse = false →
  isinstance response ErrorResponse = false →
  (∀ key, type_key = Some key →
          (key ∉ storage_keys (inst_type message))
          ∧ (key ∉ storage_keys (inst_type response))) →
  MessageSender.send sender bound_obj message = Ret (Some response)
  ∧ ∀ data, MessageProtocol.encode_message p message = Ret data →
            (MessageReceiver.handle_raw_message self bound_obj data).1 = [].
Proof.
  intros Hinit Hself Hsender Hcall Hvalid Hreg He Hr Hh Hret Hrvalid Hdecl
    Hre Hrr Hkey.
  destruct (sent_message_decodes _ _ _ _ _ _ _ _ Hinit Hvalid Hreg He Hr)
    as (data & Henc & Hdec); [intros key Hk; by apply Hkey|].
  destruct (declared_response_encodes _ _ _ _ _ _ _ _ response
              Hinit Hreg Hdecl Hrvalid)
    as (Hsub & rdata & Hrenc & Hrdec); [intros key Hk; by apply Hkey|].
  assert (MessageReceiver.handle_raw_message_try self bound_obj data
          = Ret rdata) as Htry.
  { unfold MessageReceiver.handle_raw_message_try. rewrite Hself, Hdec. simpl.
    destruct (init_registered_classes _ _ _ _ _ _ _ Hinit) as [Hmcls _].
    destruct (Hmcls _ Hreg) as (_ & _ & Hmsub). rewrite Hmsub. simpl.
    rewrite Hh, Hret. simpl. rewrite Hsub, Hrr. simpl.
    rewrite (proj2 (list_mem_true _ _) Hdecl). exact Hrenc. }
  split.
  - unfold MessageSender.send. rewrite Hcall, Hsender, Henc. simpl.
    unfold loopback. rewrite (handle_raw_message_Ret _ _ _ _ Htry). simpl.
    unfold MessageProtocol.decode_response.
    rewrite Hrdec, decode_special_other by done. simpl.
    rewrite Hsub. simpl. rewrite Hsub. simpl.
    by rewrite (proj2 (list_mem_true _ _) Hdecl).
  - intros data' Henc'. rewrite Henc in Henc'. injection Henc' as <-.
    by rewrite (handle_raw_message_Ret _ _ _ _ Htry).
Qed.

(** X12: a handler that returns nothing, for a message type that declares
    EmptyResponse, makes [send] return [None]: the receiver encodes an
    EmptyResponse and the sender decodes it as no value. *)
Theorem send_returns_None_for_no_value message_types response_types type_key
    pce lre ts p self (sender : MessageSender.t) bound_obj message handler :
  MessageProtocol.__init__ message_types response_types type_key pce lre ts
    = Ret p →
  MessageReceiver._protocol self = p →
  MessageSender._protocol sender = p →
  MessageSender._send_raw_message_call sender = Some (loopback self) →
  valid_instance message = true →
  inst_type message ∈ dict_keys (MessageProtocol.message_ids_by_type p) →
  isinstance message EmptyResponse = false →
  isinstance message ErrorResponse = false →
  (∀ key, type_key = Some key → key ∉ storage_keys (inst_type message)) →
  dict_get (inst_type message) (MessageReceiver._handlers self)
    = Some handler →
  call handler bound_obj message = Ret None →
  EmptyResponse ∈ get_response_types (inst_type message) →
  MessageSender.send sender bound_obj message = Ret None.
Proof.
  intros Hinit Hself Hsender Hcall Hvalid Hreg He Hr Hkey Hh Hret Hdecl.
  destruct (sent_message_decodes _ _ _ _ _ _ _ _ Hinit Hvalid Hreg He Hr Hkey)
    as (data & Henc & Hdec).
  destruct (declared_response_encodes _ _ _ _ _ _ _ _ new_EmptyResponse
              Hinit Hreg Hdecl eq_refl)
    as (Hsub & rdata & Hrenc & Hrdec);
    [intros key _; apply not_elem_of_nil|].
  assert (MessageReceiver.handle_raw_message_try self bound_obj data
          = Ret rdata) as Htry.
  { unfold MessageReceiver.handle_raw_message_try. rewrite Hself, Hdec. simpl.
    destruct (init_registered_classes _ _ _ _ _ _ _ Hinit) as [Hmcls _].
    destruct (Hmcls _ Hreg) as (_ & _ & Hmsub). rewrite Hmsub. simpl.
    rewrite Hh, Hret. simpl.
    rewrite (proj2 (list_mem_true _ _) Hdecl). exact Hrenc. }
  unfold MessageSender.send. rewrite Hcall, Hsender, Henc. simpl.
  unfold loopback. rewrite (handle_raw_message_Ret _ _ _ _ Htry). simpl.
  unfold MessageProtocol.decode_response.
  by rewrite Hrdec, decode_special_EmptyResponse.
Qed.

(** X13: whatever goes wrong on the receiving side, [send] raises. If the
    [try] block of [handle_raw_message] raises [exc] for the bytes of the
    message, on a constructed protocol whose type key is not a storage key
    of ErrorResponse, then [send] raises a CleanError with the text of
    [exc] when [exc] is a CleanError and clean errors are preserved, and
    otherwise a RemoteError whose text is the traceback for a trusted
    sender and the fixed text for an untrusted one. *)
Theorem send_raises_on_any_remote_failure message_types response_types
    type_key pce lre ts p self (sender : MessageSender.t) bound_obj message
    data exc :
  MessageProtocol.__init__ message_types response_types type_key pce lre ts
    = Ret p →
  MessageReceiver._protocol self = p →
  MessageSender._protocol sender = p →
  MessageSender._send_raw_message_call sender = Some (loopback self) →
  (∀ key, type_key = Some key → key ∉ ["m"; "t"]%string) →
  MessageProtocol.encode_message p message = Ret data →
  MessageReceiver.handle_raw_message_try self bound_obj data = Raise exc →
  MessageSender.send sender bound_obj message
  = Raise (if is_CleanError exc && pce
           then mkExc CleanError (exc_str exc)
           else mkExc RemoteError
                  (if ts then format_exc exc
                   else "An unknown error has occurred.")).
Proof.
  intros Hinit Hself Hsender Hcall Hkey Henc Htry.
  destruct (init_registry_inv _ _ _ _ _ _ _ Hinit) as [_ Hrinv].
  destruct (init_flags _ _ _ _ _ _ _ Hinit) as (_ & Hpce & _ & Hts).
  destruct (handle_raw_message_returns _ _ _ _ _ _ _ self bound_obj data
              Hinit Hself Hkey) as (rdata & Hret & Herr).
  specialize (Herr _ Htry).
  unfold MessageSender.send. rewrite Hcall, Hsender, Henc. simpl.
  unfold loopback. rewrite Hret. simpl.
  unfold MessageReceiver.error_response in Herr.
  rewrite Hself, Hpce, Hts in Herr.
  destruct (is_CleanError exc && pce) eqn:E.
  - rewrite (decode_encoded_ErrorResponse _ _ _ _ Hrinv Herr). simpl.
    apply andb_true_iff in E as [_ ->]. by rewrite Hpce.
  - rewrite (decode_encoded_ErrorResponse _ _ _ _ Hrinv Herr). simpl.
    by rewrite andb_false_r.
Qed.
End send.

(** A [Ping] sent to the example receiver comes back as the [Pong] of its
    handler. *)
Lemma send_returns_handler_response_witness :
  MessageSender.send (Example2.sender_to Example2.receiver) tt
    (Example.ping "hi")
  = Ret (Some (Example.pong "pong")).
Proof.
  apply (send_returns_handler_response
           [(1, Example.Ping); (2, Example.Shutdown)] [(0, Example.Pong)]
           None true false false Example.protocol Example2.receiver
           (Example2.sender_to Example2.receiver) tt (Example.ping "hi")
           Example.handle_ping (Example.pong "pong"));
    try reflexivity.
  - vm_compute. apply list_elem_of_here.
  - vm_compute. apply list_elem_of_here.
  - discriminate.
Defined.

(** The handler of [Shutdown] returns no value and [send] returns None. *)
Lemma send_returns_None_for_no_value_witness :
  MessageSender.send (Example2.sender_to Example2.receiver) tt
    Example.shutdown
  = Ret None.
Proof.
  apply (send_returns_None_for_no_value
           [(1, Example.Ping); (2, Example.Shutdown)] [(0, Example.Pong)]
           None true false false Example.protocol Example2.receiver
           (Example2.sender_to Example2.receiver) tt Example.shutdown
           Example2.handle_shutdown);
    try reflexivity.
  - vm_compute. apply list_elem_of_further, list_elem_of_here.
  - discriminate.
  - vm_compute. apply list_elem_of_here.
Defined.

(** A receiver that only handles [Ping] is sent a [Shutdown]. *)
Lemma send_raises_on_any_remote_failure_witness :
  MessageSender.send (Example2.sender_to Example2.receiver_ping) tt
    Example.shutdown
  = Raise (mkExc RemoteError "An unknown error has occurred.").
Proof.
  apply (send_raises_on_any_remote_failure
           [(1, Example.Ping); (2, Example.Shutdown)] [(0, Example.Pong)]
           None true false false Example.protocol Example2.receiver_ping
           (Example2.sender_to Example2.receiver_ping) tt Example.shutdown
           (Example.Document (JObj [("m", JObj []); ("t", JInt 2)]%string))
           (mkExc RuntimeError
              "Got unhandled message type: <class 'app.messages.Shutdown'>."));
    try reflexivity.
  discriminate.
Defined.

Section receiver.
Context {R : Runtime}.
Implicit Types (p : MessageProtocol.t) (self : MessageReceiver.t).

(** What a decoded message is: an instance of Message whose class is
    registered under some id. *)
Lemma decode_message_Ret_inv p data x :
  MessageProtocol.decode_message p data = Ret x →
  isinstance x Message = true
  ∧ ∃ i, dict_get i (MessageProtocol.message_types_by_id p)
         = Some (inst_type x).
Proof.
  intros H. unfold MessageProtocol.decode_message in H.
  apply bind_Ret in H as ([y|] & Hdec & H); [|discriminate].
  apply bind_Ret in H as ([] & Hsub%assert_Ret & [= ->]).
  apply decode_Ret_inv in Hdec as (i & msgtype & d & out & Hty & Hfrom & Hsp).
  apply decode_special_Some_inv in Hsp as (-> & _ & _).
  apply dataclass_from_dict_type in Hfrom as ->.
  split; [done|]. by exists i.
Qed.

(** In a constructed protocol every class found under a message id is a
    key of [message_ids_by_type]. *)
Lemma init_message_type_registered message_types response_types type_key
    pce lre ts p i tp :
  MessageProtocol.__init__ message_types response_types type_key pce lre ts
    = Ret p →
  dict_get i (MessageProtocol.message_types_by_id p) = Some tp →
  tp ∈ dict_keys (MessageProtocol.message_ids_by_type p).
Proof.
  intros Hinit Hget%dict_get_Some_elem.
  destruct (init_by_id _ _ _ _ _ _ _ Hinit) as (Hm & _).
  pose proof Hinit as (mbi&mbt&rbi0&rbt0&rbi1&rbt1&rbi2&rbt2&all
          &H1&_&_&_&_&_&_&Hp)%init_Ret.
  apply register_loop_spec in H1 as (_ & _ & Htp1 & _).
  subst p. simpl in *. apply Htp1. right. subst mbi.
  apply list_elem_of_fmap. by exists (i, tp).
Qed.

(** What a successful registration says of the handler and of the receiver
    it gives. *)
Lemma register_handler_Ret_inv self call self' :
  MessageReceiver.register_handler self call = Ret self' →
  ∃ msgtype,
    handles call msgtype
    ∧ msgtype ∈ dict_keys
        (MessageProtocol.message_ids_by_type (MessageReceiver._protocol self))
    ∧ (msgtype ∉ dict_keys (MessageReceiver._handlers self))
    ∧ self' = MessageReceiver.mk R (MessageReceiver._protocol self)
                (dict_set msgtype call (MessageReceiver._handlers self)).
Proof.
  unfold MessageReceiver.register_handler. intros H.
  destruct (bool_decide (sig_args call ≠ ["self"; "msg"]%string)) eqn:Hsig;
    [discriminate|].
  apply bool_decide_eq_false in Hsig. apply dec_stable in Hsig.
  destruct (ann_msg call) as [[msgtype|targs|]|] eqn:Hann; try discriminate.
  simpl in H.
  apply bind_Ret in H as ([] & Hsub%assert_Ret & H).
  apply bind_Ret in H as (responsetypes & Hret & H).
  destruct (list_mem msgtype _) eqn:Hreg; [|discriminate]. simpl in H.
  destruct (dict_contains msgtype _) eqn:Hhandled; [discriminate|].
  destruct (set_eqb responsetypes _) eqn:Hset; [|discriminate]. simpl in H.
  injection H as <-. exists msgtype. split_and!.
  - split_and!; try done. exists responsetypes. split; [done|].
    by apply set_eqb_true.
  - by apply list_mem_true.
  - by apply dict_contains_false.
  - done.
Qed.

(** X14: a successful [register_handler] stores the handler under the class
    of its [msg] annotation, a registered message type that had no
    handler, and leaves the protocol and the handlers of all other types
    as they were; the handler's signature reads as a handler of that
    type. *)
Theorem register_handler_stores_one_handler self call self' :
  MessageReceiver.register_handler self call = Ret self' →
  ∃ msgtype,
    handles call msgtype
    ∧ msgtype ∈ dict_keys
        (MessageProtocol.message_ids_by_type (MessageReceiver._protocol self))
    ∧ dict_get msgtype (MessageReceiver._handlers self) = None
    ∧ MessageReceiver._protocol self' = MessageReceiver._protocol self
    ∧ dict_get msgtype (MessageReceiver._handlers self') = Some call
    ∧ (∀ tp, tp ≠ msgtype →
             dict_get tp (MessageReceiver._handlers self')
             = dict_get tp (MessageReceiver._handlers self))
    ∧ dict_keys (MessageReceiver._handlers self')
      = dict_keys (MessageReceiver._handlers self) ++ [msgtype].
Proof.
  intros (msgtype & Hh & Hreg & Hnew & ->)%register_handler_Ret_inv.
  exists msgtype. simpl. split_and!; try done.
  - by apply dict_get_None.
  - apply dict_get_set_eq.
  - intros tp Hne. by apply dict_get_set_ne.
  - rewrite dict_keys_set.
    by rewrite (proj2 (dict_contains_false _ _) Hnew).
Qed.

(** X15: in a receiver that was created for a protocol and filled by
    successful registrations, every stored handler is filed under a
    registered message type, its signature reads as a handler of exactly
    that type with exactly the response types the type declares, and no
    type has two handlers. *)
Theorem set_up_receiver_invariant p self :
  set_up p self →
  MessageReceiver._protocol self = p
  ∧ NoDup (dict_keys (MessageReceiver._handlers self))
  ∧ ∀ msgtype handler,
      dict_get msgtype (MessageReceiver._handlers self) = Some handler →
      msgtype ∈ dict_keys (MessageProtocol.message_ids_by_type p)
      ∧ handles handler msgtype.
Proof.
  induction 1 as [|self call self' Hset (Hp & Hnd & IH) Hreg].
  - simpl. split_and!; [done|constructor|]. intros ?? [=].
  - apply register_handler_Ret_inv in Hreg
      as (msgtype & Hh & Hin & Hnew & ->).
    simpl. split_and!; [done| |].
    + by apply dict_set_wf.
    + intros tp handler Hget.
      destruct (decide (tp = msgtype)) as [->|Hne].
      * rewrite dict_get_set_eq in Hget. injection Hget as <-.
        by rewrite <- Hp.
      * rewrite dict_get_set_ne in Hget by done. by apply IH.
Qed.

(** The converse of [validate_loop_pass]. *)
Lemma validate_loop_Ret self warn_only msgtypes logs :
  MessageReceiver.validate_loop self warn_only msgtypes = (logs, Ret tt) →
  Forall (covered self) msgtypes.
Proof.
  induction msgtypes as [|msgtype rest IH]; simpl; [constructor|].
  destruct (issubclass msgtype Response) eqn:Hsub.
  - intros H. constructor; [by left | by apply IH].
  - destruct (dict_contains msgtype _) eqn:Hc; simpl; [|discriminate].
    intros H. constructor; [|by apply IH].
    right. by apply dict_contains_true.
Qed.

(** X16: [validate] returns exactly when every registered message type is
    a subclass of Response or has a handler, and then it logs nothing;
    this is so for both values of [warn_only]. *)
Theorem validate_returns_iff_covered self warn_only :
  ((MessageReceiver.validate self warn_only).2 = Ret tt
   ↔ ∀ msgtype,
       msgtype ∈ dict_keys
         (MessageProtocol.message_ids_by_type (MessageReceiver._protocol self)) →
       issubclass msgtype Response = true
       ∨ is_Some (dict_get msgtype (MessageReceiver._handlers self)))
  ∧ ((MessageReceiver.validate self warn_only).2 = Ret tt →
     (MessageReceiver.validate self warn_only).1 = []).
Proof.
  assert (∀ msgtype, covered self msgtype
            ↔ issubclass msgtype Response = true
              ∨ is_Some (dict_get msgtype (MessageReceiver._handlers self)))
    as Hcov.
  { intros msgtype. unfold covered. split; (intros [?|H]; [by left|right]).
    - apply dict_get_is_Some in H as [v ->]. by eexists.
    - destruct H as [v H]. apply dict_contains_true.
      unfold dict_contains. by rewrite H. }
  assert ((MessageReceiver.validate self warn_only).2 = Ret tt →
          Forall (covered self)
            (dict_keys (MessageProtocol.message_ids_by_type
                          (MessageReceiver._protocol self)))) as Hfwd.
  { unfold MessageReceiver.validate.
    destruct (MessageReceiver.validate_loop _ _ _) as [logs r] eqn:Hv.
    simpl. intros ->. by eapply validate_loop_Ret. }
  split; [split|].
  - intros H msgtype Hin. apply Hcov.
    by eapply (proj1 (Forall_forall _ _) (Hfwd H)).
  - intros H. unfold MessageReceiver.validate.
    rewrite validate_loop_pass; [done|].
    apply Forall_forall. intros msgtype Hin. apply Hcov. by apply H.
  - intros H. unfold MessageReceiver.validate.
    by rewrite validate_loop_pass by by apply Hfwd.
Qed.

(** X17: a receiver that passed [validate] has a handler for every message
    it can decode, apart from messages that are also responses: for bytes
    that decode to a message whose class is not a subclass of Response the
    handler is found, and [handle_raw_message] goes on to call it. *)
Theorem validated_receiver_dispatches message_types response_types type_key
    pce lre ts p self warn_only bound_obj data msg_decoded :
  MessageProtocol.__init__ message_types response_types type_key pce lre ts
    = Ret p →
  MessageReceiver._protocol self = p →
  (MessageReceiver.validate self warn_only).2 = Ret tt →
  MessageProtocol.decode_message p data = Ret msg_decoded →
  issubclass (inst_type msg_decoded) Response = false →
  ∃ handler,
    dict_get (inst_type msg_decoded) (MessageReceiver._handlers self)
      = Some handler
    ∧ MessageReceiver.handle_raw_message_try self bound_obj data
      = (response ← call handler bound_obj msg_decoded;
         let response := default new_EmptyResponse response in
         _ ← assert (isinstance response Response);
         _ ← assert (negb (isinstance response ErrorResponse));
         _ ← assert (list_mem (inst_type response)
                       (get_response_types (inst_type msg_decoded)));
         MessageProtocol.encode_response p response).
Proof.
  intros Hinit Hp Hval Hdec Hnr.
  pose proof Hdec as (Hmsg & i & Hi)%decode_message_Ret_inv.
  pose proof (init_message_type_registered _ _ _ _ _ _ _ _ _ Hinit Hi) as Hin.
  assert (Forall (covered self)
            (dict_keys (MessageProtocol.message_ids_by_type p))) as Hall.
  { unfold MessageReceiver.validate in Hval. rewrite Hp in Hval.
    destruct (MessageReceiver.validate_loop _ _ _) as [logs r] eqn:Hv.
    simpl in Hval. subst r. by eapply validate_loop_Ret. }
  destruct (proj1 (Forall_forall _ _) Hall _ Hin) as [Hsub|Hh];
    [congruence|].
  apply dict_get_is_Some in Hh as [handler Hh].
  exists handler. split; [done|].
  unfold MessageReceiver.handle_raw_message_try.
  rewrite Hp, Hdec. simpl.
  unfold isinstance in Hmsg. rewrite Hmsg. simpl. by rewrite Hh.
Qed.

(** X18: the value a handler returns is checked before it is sent. When
    the handler of a decoded message returns something that is not a
    Response, an ErrorResponse, or a response of a type the message does
    not declare (None counting as EmptyResponse), the [try] block fails
    with an AssertionError and [handle_raw_message] answers with the
    encoding of an ErrorResponse of kind OTHER in its place. *)
Theorem handler_result_is_checked self bound_obj data msg_decoded handler
    result :
  MessageProtocol.decode_message (MessageReceiver._protocol self) data
    = Ret msg_decoded →
  dict_get (inst_type msg_decoded) (MessageReceiver._handlers self)
    = Some handler →
  call handler bound_obj msg_decoded = Ret result →
  let response := default new_EmptyResponse result in
  isinstance response Response = false
  ∨ isinstance response ErrorResponse = true
  ∨ inst_type response ∉ get_response_types (inst_type msg_decoded) →
  MessageReceiver.handle_raw_message_try self bound_obj data
    = raise AssertionError ""
  ∧ (MessageReceiver.handle_raw_message self bound_obj data).2
    = MessageProtocol.encode_response (MessageReceiver._protocol self)
        (new_ErrorResponse
           (if MessageProtocol.trusted_sender (MessageReceiver._protocol self)
            then format_exc (mkExc AssertionError "")
            else "An unknown error has occurred.")
           OTHER).
Proof.
  intros Hdec Hh Hcall response Hbad.
  assert (MessageReceiver.handle_raw_message_try self bound_obj data
          = raise AssertionError "") as Htry.
  { pose proof Hdec as (Hmsg & _)%decode_message_Ret_inv.
    unfold MessageReceiver.handle_raw_message_try.
    rewrite Hdec. simpl. unfold isinstance in Hmsg. rewrite Hmsg. simpl.
    rewrite Hh, Hcall. simpl. fold response.
    destruct (isinstance response Response) eqn:H1; [|done]. simpl.
    destruct (isinstance response ErrorResponse) eqn:H2; [done|]. simpl.
    destruct (list_mem (inst_type response) _) eqn:H3; [|done].
    apply list_mem_true in H3. by destruct Hbad as [?|[?|?]]. }
  split; [done|].
  rewrite (handle_raw_message_Raise _ _ _ _ Htry).
  unfold MessageReceiver.handle_raw_message_except. simpl.
  by unfold MessageReceiver.error_response.
Qed.

(** X19: [handle_raw_message] answers every input when the type key is
    not a storage key of ErrorResponse. In a constructed protocol whose
    [type_key] is neither [m] nor [t] it returns bytes for every receiver,
    bound object and byte string, and it logs the one record
    [Error handling message.] exactly when the [try] block failed and
    [log_remote_exceptions] is set. *)
Theorem handle_raw_message_always_answers message_types response_types
    type_key pce lre ts p self bound_obj msg :
  MessageProtocol.__init__ message_types response_types type_key pce lre ts
    = Ret p →
  MessageReceiver._protocol self = p →
  (∀ key, type_key = Some key → key ∉ ["m"; "t"]%string) →
  (∃ data,
     (MessageReceiver.handle_raw_message self bound_obj msg).2 = Ret data)
  ∧ (MessageReceiver.handle_raw_message self bound_obj msg).1
    = (if lre && negb (is_Ret (MessageReceiver.handle_raw_message_try
                                 self bound_obj msg))
       then [mkLog ERROR "Error handling message."] else []).
Proof.
  intros Hinit Hp Hkey.
  destruct (handle_raw_message_returns _ _ _ _ _ _ _ self bound_obj msg
              Hinit Hp Hkey) as (data & Hdata & _).
  split; [by exists data|].
  destruct (init_flags _ _ _ _ _ _ _ Hinit) as (_ & _ & Hlre & _).
  unfold MessageReceiver.handle_raw_message.
  destruct (MessageReceiver.handle_raw_message_try self bound_obj msg);
    simpl; [by rewrite andb_false_r|].
  rewrite Hp, Hlre. by rewrite andb_true_r.
Qed.

End receiver.

(** The first registration of the example. *)
Lemma register_handler_stores_one_handler_witness :
  ∃ msgtype,
    handles Example.handle_ping msgtype
    ∧ dict_get msgtype
        (MessageReceiver._handlers Example2.receiver_ping)
      = Some Example.handle_ping.
Proof.
  destruct (register_handler_stores_one_handler
              (MessageReceiver.__init__ Example.protocol) Example.handle_ping
              Example2.receiver_ping)
    as (msgtype & Hh & _ & _ & _ & Hget & _); [reflexivity|].
  by exists msgtype.
Defined.

(** The receiver of the example, after its two registrations. *)
Lemma set_up_receiver_invariant_witness :
  NoDup (dict_keys (MessageReceiver._handlers Example.receiver)).
Proof.
  apply (set_up_receiver_invariant Example.protocol Example.receiver).
  apply (set_up_register _ Example2.receiver_ping Example.handle_shutdown);
    [|reflexivity].
  apply (set_up_register _ (MessageReceiver.__init__ Example.protocol)
           Example.handle_ping); [|reflexivity].
  apply set_up_init.
Defined.

(** The example receiver with both handlers passes. *)
Lemma validate_returns_iff_covered_witness :
  (MessageReceiver.validate Example.receiver false).1 = [].
Proof.
  apply (validate_returns_iff_covered Example.receiver false). reflexivity.
Defined.

(** A [Ping] arriving at the example receiver. *)
Lemma validated_receiver_dispatches_witness :
  ∃ handler,
    dict_get Example.Ping (MessageReceiver._handlers Example.receiver)
      = Some handler.
Proof.
  destruct (validated_receiver_dispatches
              [(1, Example.Ping); (2, Example.Shutdown)] [(0, Example.Pong)]
              None true false false Example.protocol Example.receiver false
              tt
              (Example.Document
                 (JObj [("m", JObj [("m", JStr "hi")]);
                        ("t", JInt 1)]%string))
              (Example.ping "hi"))
    as (handler & Hh & _); try reflexivity.
  by exists handler.
Defined.

(** The [Ping] handler of [receiver_error] returns an ErrorResponse. *)
Lemma handler_result_is_checked_witness :
  MessageReceiver.handle_raw_message_try Example2.receiver_error tt
    (Example.Document
       (JObj [("m", JObj [("m", JStr "hi")]); ("t", JInt 1)]%string))
  = raise AssertionError "".
Proof.
  apply (handler_result_is_checked Example2.receiver_error tt
           (Example.Document
              (JObj [("m", JObj [("m", JStr "hi")]); ("t", JInt 1)]%string))
           (Example.ping "hi") Example2.handle_ping_error
           (Some (new_ErrorResponse "boom" OTHER)));
    try reflexivity.
  right. left. reflexivity.
Defined.

(** Bytes that are not JSON arrive at the example receiver. *)
Lemma handle_raw_message_always_answers_witness :
  ∃ data,
    (MessageReceiver.handle_raw_message Example.receiver tt
       (Example.Malformed [])).2 = Ret data.
Proof.
  apply (handle_raw_message_always_answers
           [(1, Example.Ping); (2, Example.Shutdown)] [(0, Example.Pong)]
           None true false false Example.protocol Example.receiver tt
           (Example.Malformed []));
    [reflexivity | reflexivity | discriminate].
Defined.

Section module_generation.
Context {R : Runtime}.
Implicit Types (p : MessageProtocol.t) (imports : PyDict string (list string)).

(** One more import: the names imported before, and the new one. *)
Lemma add_import_spec imports tp module name :
  ModuleGen.imported (ModuleGen.add_import imports tp) module name
  ↔ ModuleGen.imported imports module name
    ∨ (module = c_module (class_info tp) ∧ name = __name__ tp).
Proof.
  unfold ModuleGen.imported, ModuleGen.add_import.
  destruct (decide (c_module (class_info tp) = module)) as [<-|Hne].
  - rewrite dict_get_set_eq. split.
    + intros (names & [= <-] & [Hin|Hin%list_elem_of_singleton]%elem_of_app).
      * left. destruct (dict_get _ imports) as [names|]; simpl in Hin.
        -- by exists names.
        -- by apply elem_of_nil in Hin.
      * by right.
    + intros [(names & Hget & Hin)|[_ ->]]; eexists; (split; [done|]).
      * rewrite Hget. simpl. apply elem_of_app. by left.
      * apply elem_of_app. right. by apply list_elem_of_singleton.
  - rewrite dict_get_set_ne by done. split; [by left|].
    intros [?|[-> _]]; done.
Qed.

Lemma add_imports_spec tps : ∀ imports module name,
  ModuleGen.imported (fold_left ModuleGen.add_import tps imports) module name
  ↔ ModuleGen.imported imports module name
    ∨ ∃ tp, tp ∈ tps ∧ module = c_module (class_info tp)
            ∧ name = __name__ tp.
Proof.
  induction tps as [|tp tps IH]; intros imports module name; simpl.
  - split; [by left|]. intros [?|(tp & Hin%elem_of_nil & _)]; done.
  - rewrite IH, add_import_spec. split.
    + intros [[?|[-> ->]]|(tp' & Hin & -> & ->)].
      * by left.
      * right. exists tp. split; [apply list_elem_of_here|done].
      * right. exists tp'. split; [by apply list_elem_of_further|done].
    + intros [?|(tp' & [->|Hin]%elem_of_cons & -> & ->)].
      * by left; left.
      * by left; right.
      * right. by exists tp'.
Qed.

Lemma add_response_imports_spec tps : ∀ imports module name,
  ModuleGen.imported
    (fold_left
       (λ imports rsp_tp,
          if bool_decide (rsp_tp = EmptyResponse)
             || bool_decide (rsp_tp = ErrorResponse)
          then imports
          else ModuleGen.add_import imports rsp_tp)
       tps imports) module name
  ↔ ModuleGen.imported imports module name
    ∨ ∃ tp, tp ∈ tps ∧ tp ≠ EmptyResponse ∧ tp ≠ ErrorResponse
            ∧ module = c_module (class_info tp) ∧ name = __name__ tp.
Proof.
  induction tps as [|tp tps IH]; intros imports module name; simpl.
  - split; [by left|]. intros [?|(tp & Hin%elem_of_nil & _)]; done.
  - rewrite IH. clear IH.
    destruct (bool_decide (tp = EmptyResponse)
              || bool_decide (tp = ErrorResponse)) eqn:Hskip.
    + apply orb_true_iff in Hskip.
      rewrite !bool_decide_eq_true in Hskip. split.
      * intros [?|(tp' & Hin & ?)]; [by left|].
        right. exists tp'. split; [by apply list_elem_of_further|done].
      * intros [?|(tp' & [->|Hin]%elem_of_cons & Hn1 & Hn2 & ?)];
          [by left| by destruct Hskip |].
        right. by exists tp'.
    + apply orb_false_iff in Hskip.
      rewrite !bool_decide_eq_false in Hskip. destruct Hskip as [Hn1 Hn2].
      rewrite add_import_spec. split.
      * intros [[?|[-> ->]]|(tp' & Hin & ?)].
        -- by left.
        -- right. exists tp. split; [apply list_elem_of_here|done].
        -- right. exists tp'. split; [by apply list_elem_of_further|done].
      * intros [?|(tp' & [->|Hin]%elem_of_cons & ? & ? & -> & ->)].
        -- by left; left.
        -- by left; right.
        -- right. by exists tp'.
Qed.

Lemma add_import_wf imports tp :
  dict_wf imports → dict_wf (ModuleGen.add_import imports tp).
Proof. apply dict_set_wf. Qed.

(** X20: the header of a generated module imports, under
    [if TYPE_CHECKING], exactly the classes the generated code names: a
    name is collected for a module if and only if it is the name of a
    class of that module that is Message, Response, a registered message
    type, or a registered response type other than EmptyResponse and
    ErrorResponse. No module is collected twice. *)
Theorem module_imports_spec p module name :
  (ModuleGen.imported (ModuleGen.module_imports p) module name
   ↔ ∃ tp, module = c_module (class_info tp) ∧ name = __name__ tp
           ∧ (tp = Message ∨ tp = Response
              ∨ tp ∈ dict_keys (MessageProtocol.message_ids_by_type p)
              ∨ (tp ∈ dict_keys (MessageProtocol.response_ids_by_type p)
                 ∧ tp ≠ EmptyResponse ∧ tp ≠ ErrorResponse)))
  ∧ NoDup (dict_keys (ModuleGen.module_imports p)).
Proof.
  split.
  - unfold ModuleGen.module_imports.
    rewrite add_response_imports_spec, add_imports_spec. split.
    + intros [[(names & [=] & _)|(tp & Hin & -> & ->)]
             |(tp & Hin & Hn1 & Hn2 & -> & ->)];
        exists tp; (split; [done|]; split; [done|]).
      * apply elem_of_app in Hin as [Hin|Hin%list_elem_of_singleton];
          [by right; right; left | by left].
      * apply elem_of_app in Hin as [Hin|Hin%list_elem_of_singleton];
          [by right; right; right | by right; left].
    + intros (tp & -> & -> & [->|[->|[Hin|(Hin & Hn1 & Hn2)]]]).
      * left. right. exists Message. split; [|done].
        apply elem_of_app. right. by apply list_elem_of_singleton.
      * right. exists Response. split_and!; try done.
        apply elem_of_app. right. by apply list_elem_of_singleton.
      * left. right. exists tp. split; [|done]. apply elem_of_app. by left.
      * right. exists tp. split_and!; try done. apply elem_of_app. by left.
  - unfold ModuleGen.module_imports.
    assert (∀ tps imports,
              dict_wf imports →
              dict_wf (fold_left ModuleGen.add_import tps imports)) as H1.
    { induction tps as [|tp tps IH]; intros imports Hwf; simpl; [done|].
      by apply IH, add_import_wf. }
    assert (∀ tps imports,
              dict_wf imports →
              dict_wf
                (fold_left
                   (λ imports rsp_tp,
                      if bool_decide (rsp_tp = EmptyResponse)
                         || bool_decide (rsp_tp = ErrorResponse)
                      then imports
                      else ModuleGen.add_import imports rsp_tp)
                   tps imports)) as H2.
    { induction tps as [|tp tps IH]; intros imports Hwf; simpl; [done|].
      apply IH. destruct (_ || _); [done|]. by apply add_import_wf. }
    apply H2, H1. constructor.
Qed.

(** The keys of [message_ids_by_type] are the classes of the argument, in
    its order. *)
Lemma init_message_type_keys message_types response_types type_key
    pce lre ts p :
  MessageProtocol.__init__ message_types response_types type_key pce lre ts
    = Ret p →
  dict_keys (MessageProtocol.message_ids_by_type p) = message_types.*2.
Proof.
  intros Hinit.
  pose proof (init_message_names_unique _ _ _ _ _ _ _ Hinit) as Hnames.
  assert (NoDup message_types.*2) as Hnd by by eapply NoDup_fmap_1.
  pose proof Hinit as (mbi&mbt&rbi0&rbt0&rbi1&rbt1&rbi2&rbt2&all
          &H1&_&_&_&_&_&_&->)%init_Ret. simpl.
  apply register_loop_type_keys in H1; [done|done|].
  intros ? _. apply not_elem_of_nil.
Qed.

(** The message types the generators loop over are all the registered
    ones. *)
Lemma init_msgtypes_of message_types response_types type_key pce lre ts p :
  MessageProtocol.__init__ message_types response_types type_key pce lre ts
    = Ret p →
  ModuleGen.msgtypes_of p = message_types.*2.
Proof.
  intros Hinit. unfold ModuleGen.msgtypes_of.
  destruct (init_registered_classes _ _ _ _ _ _ _ Hinit) as [Hm _].
  rewrite <- (init_message_type_keys _ _ _ _ _ _ _ Hinit).
  revert Hm.
  generalize (dict_keys (MessageProtocol.message_ids_by_type p)).
  induction l as [|tp l IH]; intros Hm; [done|].
  rewrite filter_cons_True.
  - f_equal. apply IH. intros tp' Hin. apply Hm. by apply list_elem_of_further.
  - apply Hm, list_elem_of_here.
Qed.

Lemma rtypevar_of_Ret msgtype :
  get_response_types msgtype ≠ [] →
  ∃ rtypevar, ModuleGen.rtypevar_of msgtype = Ret rtypevar.
Proof.
  unfold ModuleGen.rtypevar_of. intros Hne.
  destruct (1 <? length _)%nat; [by eexists|].
  destruct (get_response_types msgtype); [done|by eexists].
Qed.

Lemma sender_overloads_Ret msgtypes : ∀ out,
  Forall (λ tp, get_response_types tp ≠ []) msgtypes →
  ∃ out', ModuleGen.sender_overloads msgtypes out = Ret out'.
Proof.
  induction msgtypes as [|tp l IH]; intros out Hall; simpl; [by eexists|].
  apply Forall_cons in Hall as [Hne Hall].
  destruct (rtypevar_of_Ret _ Hne) as [rtypevar ->]. simpl. by apply IH.
Qed.

Lemma receiver_overloads_Ret msgtypes : ∀ out,
  Forall (λ tp, get_response_types tp ≠ []) msgtypes →
  ∃ out', ModuleGen.receiver_overloads msgtypes out = Ret out'.
Proof.
  induction msgtypes as [|tp l IH]; intros out Hall; simpl; [by eexists|].
  apply Forall_cons in Hall as [Hne Hall].
  destruct (rtypevar_of_Ret _ Hne) as [rtypevar ->]. simpl. by apply IH.
Qed.

(** X21: module generation fails for a protocol with exactly one message
    type and for no other. For a constructed protocol
    [create_sender_module] and [create_receiver_module] raise the
    RuntimeError of their FIXME when one message type is registered, and
    return a module for every other number of message types, none
    included: the constructor has checked that every message type
    declares a response type, so [rtypes[0]] is never out of range. *)
Theorem module_generation_outcome message_types response_types type_key
    pce lre ts p classname private :
  MessageProtocol.__init__ message_types response_types type_key pce lre ts
    = Ret p →
  (length message_types = 1%nat →
     ModuleGen.create_sender_module p classname private
       = raise RuntimeError
           "FIXME: currently we require at least 2 registered message types; found 1."
     ∧ ModuleGen.create_receiver_module p classname private
       = raise RuntimeError
           "FIXME: currently require at least 2 registered message types; found 1.")
  ∧ (length message_types ≠ 1%nat →
     (∃ out, ModuleGen.create_sender_module p classname private = Ret out)
     ∧ (∃ out, ModuleGen.create_receiver_module p classname private
               = Ret out)).
Proof.
  intros Hinit.
  pose proof (init_msgtypes_of _ _ _ _ _ _ _ Hinit) as Hmt.
  assert (length (ModuleGen.msgtypes_of p) = length message_types) as Hlen.
  { rewrite Hmt. apply length_fmap. }
  assert (Forall (λ tp, get_response_types tp ≠ [])
            (ModuleGen.msgtypes_of p)) as Hall.
  { rewrite Hmt, <- (init_message_type_keys _ _ _ _ _ _ _ Hinit).
    apply Forall_forall. intros tp Hin.
    by destruct (init_response_types_registered _ _ _ _ _ _ _ _ Hinit Hin). }
  unfold ModuleGen.create_sender_module, ModuleGen.create_receiver_module.
  cbv zeta. rewrite Hlen. split; intros Hn.
  - by rewrite !bool_decide_eq_true_2.
  - rewrite !bool_decide_eq_false_2 by done.
    destruct (1 <? length message_types)%nat.
    + split.
      * edestruct sender_overloads_Ret as [out ->]; [exact Hall|].
        by eexists.
      * edestruct receiver_overloads_Ret as [out ->]; [exact Hall|].
        by eexists.
    + split; by eexists.
Qed.

End module_generation.

(** [Echo] is the only message type of [protocol_echo]. *)
Lemma module_generation_outcome_witness :
  ModuleGen.create_sender_module Example.protocol_echo "Echo" false
  = raise RuntimeError
      "FIXME: currently we require at least 2 registered message types; found 1.".
Proof.
  destruct (module_generation_outcome [(0, Example.Echo)] [(0, Example.Echo)]
              None true false false Example.protocol_echo "Echo" false)
    as [Hone _]; [reflexivity|].
  by destruct Hone.
Defined.

Section sender_checks.
Context {R : Runtime}.

(** What [decode_response] returns when it returns an instance. *)
Lemma decode_response_Some_inv (p : MessageProtocol.t) data x :
  MessageProtocol.decode_response p data = Ret (Some x) →
  isinstance x Response = true
  ∧ isinstance x EmptyResponse = false
  ∧ isinstance x ErrorResponse = false.
Proof.
  intros H. unfold MessageProtocol.decode_response in H.
  apply bind_Ret in H as ([y|] & Hdec & H); [|discriminate].
  apply bind_Ret in H as ([] & Hsub%assert_Ret & [= ->]).
  apply decode_Ret_inv in Hdec as (i & msgtype & d & out & Hty & Hfrom & Hsp).
  by apply decode_special_Some_inv in Hsp as (-> & ? & ?).
Qed.

(** X22: [send] trusts its transport for nothing but the bytes. Whatever
    the raw send call does, a response that [send] returns was decoded
    from the bytes the call returned for the encoded message, is an
    instance of Response that is neither an EmptyResponse nor an
    ErrorResponse, and has a type that the type of the message declares
    among its response types; and an exception of the raw send call is
    the exception of [send]. *)
Theorem send_returns_only_declared_responses (sender : MessageSender.t)
    bound_obj message :
  (∀ response,
     MessageSender.send sender bound_obj message = Ret (Some response) →
     isinstance response Response = true
     ∧ isinstance response EmptyResponse = false
     ∧ isinstance response ErrorResponse = false
     ∧ inst_type response ∈ get_response_types (inst_type message)
     ∧ ∃ call msg_encoded response_encoded,
         MessageSender._send_raw_message_call sender = Some call
         ∧ MessageProtocol.encode_message (MessageSender._protocol sender)
             message = Ret msg_encoded
         ∧ call bound_obj msg_encoded = Ret response_encoded
         ∧ MessageProtocol.decode_response (MessageSender._protocol sender)
             response_encoded = Ret (Some response))
  ∧ (∀ call msg_encoded exc,
       MessageSender._send_raw_message_call sender = Some call →
       MessageProtocol.encode_message (MessageSender._protocol sender)
         message = Ret msg_encoded →
       call bound_obj msg_encoded = Raise exc →
       MessageSender.send sender bound_obj message = Raise exc).
Proof.
  split.
  - intros response H. unfold MessageSender.send in H.
    destruct (MessageSender._send_raw_message_call sender) as [call|];
      [|discriminate].
    apply bind_Ret in H as (msg_encoded & Henc & H).
    apply bind_Ret in H as (response_encoded & Hcall & H).
    apply bind_Ret in H as (r & Hdec & H).
    apply bind_Ret in H as ([] & Hresp%assert_Ret & H).
    apply bind_Ret in H as ([] & Hdecl%assert_Ret & [= ->]).
    apply list_mem_true in Hdecl.
    destruct (decode_response_Some_inv _ _ _ Hdec) as (_ & ? & ?).
    split_and!; try done. by exists call, msg_encoded, response_encoded.
  - intros call msg_encoded exc Hcall Henc Hraise.
    unfold MessageSender.send. by rewrite Hcall, Henc; simpl; rewrite Hraise.
Qed.

End sender_checks.

(** The [Pong] that comes back for a [Ping] in the example. *)
Lemma send_returns_only_declared_responses_witness :
  inst_type (Example.pong "pong") ∈ get_response_types Example.Ping.
Proof.
  destruct (send_returns_only_declared_responses
              (Example2.sender_to Example2.receiver) tt (Example.ping "hi"))
    as [H _].
  destruct (H (Example.pong "pong")) as (_ & _ & _ & Hin & _);
    [reflexivity|].
  exact Hin.
Defined.
